(** * SolarEdge input plugin: a shallow embedding of [Gather]

    Source: plugins/inputs/solaredge/solaredge.go.

    The plugin is one function, [Gather], over calls into Go's standard
    library. The file models, in this order:
    - [Float64]: binary64 values, as the fields of a sample hold them;
    - [GoTime]: the part of the [time] package that [Gather] calls
      ([LoadLocation], [Time.In], [Time.Add], [Time.Format] and
      [ParseInLocation], the last two at the one layout the plugin uses);
    - [GoStrconv], [GoJSON]: decoding of a JSON value into the [Equipment]
      struct, after the rules of [encoding/json];
    - [GoURL]: the query string of [net/url];
    - [SolarEdge]: the types of the plugin and [Gather] itself, written
      statement by statement over an explicit state (the collector, the
      accumulator, the requests sent) with early exit for [return err] and
      for a run-time panic;
    - [Samples]: a collector, hosts and responses to run [Gather] on.
    The properties follow, in [GoTimeFacts] and [SolarEdgeFacts].

    The library functions are modelled after the current Go releases: the
    parser refuses a day of the month below 1, accepts a fractional second
    after a comma or a period, and a query string may not use a semicolon
    as separator. [url.Parse] and the method [String] of [URL] are
    parameters of [Gather]. [log.Printf] output and the deferred
    [resp.Body.Close()] are not part of the modelled state. *)

From Stdlib Require Import ZArith Lia Bool Ascii String List SpecFloat.
From stdpp Require Import gmap strings list.
Import ListNotations.

Local Open Scope Z_scope.

(** ** Results of fallible calls: Go's [(value, error)] pairs *)
Inductive res (E A : Type) : Type :=
| Ok (a : A)
| Err (e : E).
Arguments Ok {E A} a.
Arguments Err {E A} e.

Definition res_bind {E A B} (r : res E A) (k : A -> res E B) : res E B :=
  match r with
  | Ok a => k a
  | Err e => Err e
  end.

Declare Scope res_scope.
Delimit Scope res_scope with res.
Notation "'let*' x ':=' e 'in' k" :=
  (res_bind e (fun x => k))
  (at level 10, x name, e at level 100, k at level 200) : res_scope.
Notation "'let*' ' p ':=' e 'in' k" :=
  (res_bind e (fun p => k))
  (at level 10, p pattern, e at level 100, k at level 200) : res_scope.

Local Open Scope res_scope.

(** ** IEEE 754 binary64 values ([float64]) *)
Module Float64.

Definition float64 : Type := spec_float.
Definition prec : Z := 53.
Definition emax : Z := 1024.

Definition zero : float64 := S754_zero false.

(** The conversion [float64(n)] of an integer, rounding to nearest even. *)
Definition of_int (n : Z) : float64 := binary_normalize prec emax n 0 false.

Definition add (x y : float64) : float64 := SFadd prec emax x y.
Definition div (x y : float64) : float64 := SFdiv prec emax x y.

(** The binary64 value nearest to [m * 10 ^ e] for [m > 0], with sign [s]. *)
Definition of_decimal (s : bool) (m : positive) (e : Z) : float64 :=
  if 0 <=? e then binary_normalize prec emax (cond_Zopp s (Zpos m * 10 ^ e)) 0 s
  else
    let '(q, e', l) :=
      SFdiv_core_binary prec emax (Zpos m) 0 (Zpos (Pos.pow 10 (Z.to_pos (- e)))) 0 in
    binary_round_aux prec emax s q e' l.

End Float64.

(** ** Go's [time] package *)
Module GoTime.

(** *** The proleptic Gregorian calendar ([time/time.go]) *)

Definition secondsPerDay : Z := 86400.
Definition daysPer400Years : Z := 365 * 400 + 97.
Definition daysPer100Years : Z := 365 * 100 + 24.
Definition daysPer4Years : Z := 365 * 4 + 1.

(** Days from 0001-01-01 to 1970-01-01. Go counts from an "absolute" year
    that is 1 modulo 400 and far in the past, so that its unsigned
    arithmetic never goes negative; with [Z] and floor division the same
    cycles are counted from year 1. *)
Definition unixEpochDays : Z := 719162.

(** [func isLeap(year int) bool] *)
Definition isLeap (year : Z) : bool :=
  (Z.rem year 4 =? 0) && (negb (Z.rem year 100 =? 0) || (Z.rem year 400 =? 0)).

(** [var daysBefore = [...]int32{...}] *)
Definition daysBefore : list Z :=
  [0; 31; 59; 90; 120; 151; 181; 212; 243; 273; 304; 334; 365].

Definition daysBefore_at (m : Z) : Z := nth (Z.to_nat m) daysBefore 0.

(** [func daysIn(m Month, year int) int] *)
Definition daysIn (m year : Z) : Z :=
  if (m =? 2) && isLeap year then 29
  else daysBefore_at m - daysBefore_at (m - 1).

(** [func daysSinceEpoch(year int) uint64], counted from 0001-01-01. *)
Definition daysSinceEpoch (year : Z) : Z :=
  let y := year - 1 in
  let n := y / 400 in
  let y := y - 400 * n in
  let d := daysPer400Years * n in
  let n := y / 100 in
  let y := y - 100 * n in
  let d := d + daysPer100Years * n in
  let n := y / 4 in
  let y := y - 4 * n in
  let d := d + daysPer4Years * n in
  d + 365 * y.

(** [func absDate(abs uint64, full bool) (year, month, day, yday)], first
    half: the year and the day within the year of a day number counted from
    0001-01-01. *)
Definition absYearDay (days : Z) : Z * Z :=
  let d := days in
  (* Account for 400 year cycles. *)
  let n := d / daysPer400Years in
  let y := 400 * n in
  let d := d - daysPer400Years * n in
  (* Cut off 100-year cycles; the last cycle has one extra leap day. *)
  let n := d / daysPer100Years in
  let n := n - Z.shiftr n 2 in
  let y := y + 100 * n in
  let d := d - daysPer100Years * n in
  (* Cut off 4-year cycles. *)
  let n := d / daysPer4Years in
  let y := y + 4 * n in
  let d := d - daysPer4Years * n in
  (* Cut off years within a 4-year cycle. *)
  let n := d / 365 in
  let n := n - Z.shiftr n 2 in
  let y := y + n in
  let d := d - 365 * n in
  (y + 1, d).

(** [absDate], second half: month and day of the month from the day of the
    year; [leap] is [isLeap year]. *)
Definition monthDay (leap : bool) (yday : Z) : Z * Z :=
  let day := yday in
  if leap && (day =? 31 + 29 - 1) then (2, 29)
  else
    let day := if leap && (day >? 31 + 29 - 1) then day - 1 else day in
    (* Estimate month on assumption that every month has 31 days. *)
    let month := day / 31 in
    let e := daysBefore_at (month + 1) in
    let '(month, begin) :=
      if day >=? e then (month + 1, e) else (month, daysBefore_at month) in
    (month + 1, day - begin + 1).

(** A check of a decidable property on the [n] numbers from [r] on. *)
Fixpoint all_from (n : nat) (r : Z) (p : Z -> bool) : bool :=
  match n with
  | O => true
  | S k => p r && all_from k (r + 1) p
  end.

(** What [monthDay] owes on one day of the year: a month and a day of the
    month in range that lead back to the day of the year. *)
Definition monthDay_ok (leap : bool) (yday : Z) : bool :=
  let '(m, d) := monthDay leap yday in
  (1 <=? m) && (m <=? 12) && (1 <=? d) && (d <=? 31)
  && (d <=? (if (m =? 2) && leap then 29 else daysBefore_at m - daysBefore_at (m - 1)))
  && (daysBefore_at (m - 1) + (if leap && (m >=? 3) then 1 else 0) + (d - 1) =? yday).

Definition absDate (days : Z) : Z * Z * Z :=
  let '(year, yday) := absYearDay days in
  let '(month, day) := monthDay (isLeap year) yday in
  (year, month, day).

(** [func norm(hi, lo, base int) (nhi, nlo int)] *)
Definition norm (hi lo base : Z) : Z * Z :=
  let '(hi, lo) :=
    if lo <? 0 then
      let n := Z.quot (- lo - 1) base + 1 in (hi - n, lo + n * base)
    else (hi, lo) in
  if lo >=? base then
    let n := Z.quot lo base in (hi + n, lo - n * base)
  else (hi, lo).

(** The first half of [func Date(year, month, day, hour, min, sec, nsec,
    loc) Time]: the arguments are normalized and turned into a count of
    seconds from 0001-01-01 00:00:00, as if in UTC, and the nanoseconds
    within the second. *)
Definition dateAbs (year month day hour min sec nsec : Z) : Z * Z :=
  (* Normalize month, overflowing into year. *)
  let '(year, m) := norm year (month - 1) 12 in
  let month := m + 1 in
  (* Normalize nsec, sec, min, hour, overflowing into day. *)
  let '(sec, nsec) := norm sec nsec 1000000000 in
  let '(min, sec) := norm min sec 60 in
  let '(hour, min) := norm hour min 60 in
  let '(day, hour) := norm day hour 24 in
  let d := daysSinceEpoch year in
  let d := d + daysBefore_at (month - 1) in
  let d := if isLeap year && (month >=? 3) then d + 1 else d in
  let d := d + (day - 1) in
  (d * secondsPerDay + (hour * 3600 + min * 60 + sec), nsec).

(** *** Locations ([time/zoneinfo.go])

    A location is the offset in force before its first transition and the
    list of its transitions in increasing order of time, each with the
    offset that applies from then on. Zone abbreviations and the DST flag are
    left out (the plugin's layout prints neither), and so is the rule that
    extends a zone past its last tabulated transition. *)
Record Location := {
  name : string;
  offset0 : Z;
  tx : list (Z * Z)
}.

Definition UTC : Location := {| name := "UTC"; offset0 := 0; tx := [] |}.

(** [alpha] and [omega]: the beginning and end of time for zone
    transitions, the least and greatest int64. *)
Definition alpha : Z := - 2 ^ 63.
Definition omega : Z := 2 ^ 63 - 1.

Fixpoint lookup_tx (l : list (Z * Z)) (off start sec : Z) : Z * Z * Z :=
  match l with
  | [] => (off, start, omega)
  | (w, o) :: l' => if sec <? w then (off, start, w) else lookup_tx l' o w sec
  end.

(** [func (l *Location) lookup(sec int64) (name, offset, start, end, isDST)]:
    the offset in force at [sec] and the bounds of the period in which it
    is in force. *)
Definition lookup (l : Location) (sec : Z) : Z * Z * Z :=
  lookup_tx (tx l) (offset0 l) alpha sec.

Definition offset_at (l : Location) (sec : Z) : Z := fst (fst (lookup l sec)).

(** *** Instants

    [unix] is the number of seconds since 1970-01-01T00:00:00Z, [nsec] the
    nanoseconds within the second, [loc] the location used for display. The
    seconds are unbounded: the readings of a real clock are far from the ends
    of Go's 64-bit representation. *)
Record Time := {
  unix : Z;
  nsec : Z;
  loc : Location
}.

(** [func (t Time) In(loc *Location) Time] for a non-nil [loc]. With a nil
    [loc] it panics; that case is in [Gather], where the pointer is tested. *)
Definition In (t : Time) (l : Location) : Time :=
  {| unix := unix t; nsec := nsec t; loc := l |}.

(** A [Duration] is a count of nanoseconds held in an int64. *)
Definition Nanosecond : Z := 1.
Definition Second : Z := 1000000000 * Nanosecond.
Definition Hour : Z := 3600 * Second.

(** [func (t Time) Add(d Duration) Time] *)
Definition Add (t : Time) (d : Z) : Time :=
  let dsec := Z.quot d 1000000000 in
  let ns := nsec t + Z.rem d 1000000000 in
  let '(dsec, ns) :=
    if ns >=? 1000000000 then (dsec + 1, ns - 1000000000)
    else if ns <? 0 then (dsec - 1, ns + 1000000000)
    else (dsec, ns) in
  {| unix := unix t + dsec; nsec := ns; loc := loc t |}.

(** [func (t Time) abs() uint64], counted in seconds from 0001-01-01 in the
    time's own location. *)
Definition abs (t : Time) : Z :=
  unix t + offset_at (loc t) (unix t) + unixEpochDays * secondsPerDay.

(** [func (t Time) Date() (year, month, day)] *)
Definition Date_of (t : Time) : Z * Z * Z := absDate (abs t / secondsPerDay).

(** [func (t Time) Year() int] *)
Definition Year (t : Time) : Z := let '(year, _, _) := Date_of t in year.

(** [func (t Time) Clock() (hour, min, sec)] *)
Definition Clock_of (t : Time) : Z * Z * Z :=
  let sec := abs t mod secondsPerDay in
  let hour := sec / 3600 in
  let sec := sec - hour * 3600 in
  let min := sec / 60 in
  let sec := sec - min * 60 in
  (hour, min, sec).

(** [func Date(year, month, day, hour, min, sec, nsec, loc) Time] for a
    non-nil [loc]. *)
Definition Date (year month day hour min sec ns : Z) (l : Location) : Time :=
  let '(abs, ns) := dateAbs year month day hour min sec ns in
  let unix := abs - unixEpochDays * secondsPerDay in
  (* Look for zone offset for expected time, so we can adjust to UTC. *)
  let '(offset, start, end_) := lookup l unix in
  let unix :=
    if offset =? 0 then unix
    else
      let utc := unix - offset in
      let offset :=
        if (utc <? start) || (utc >=? end_) then offset_at l utc else offset in
      unix - offset in
  {| unix := unix; nsec := ns; loc := l |}.

(** The zone adjustment of [Date], by itself: the offset that [Date]
    subtracts from [unix], the seconds since 1970 of its date and clock read
    as if in UTC. It is the offset in force at [unix], unless [unix] less
    that offset lies outside the period in which that offset is in force;
    then it is the offset in force at [unix] less that offset. *)
Definition Date_offset (l : Location) (unix : Z) : Z :=
  let '(offset, start, end_) := lookup l unix in
  if offset =? 0 then 0
  else
    let utc := unix - offset in
    if (utc <? start) || (utc >=? end_) then offset_at l utc else offset.

(** The offset in force at [sec] is also in force at the wall-clock reading
    of [sec] taken as a count of seconds: no transition of the location lies
    between the two. It holds of every instant of a location without
    transitions. *)
Definition reads_back (l : Location) (sec : Z) : Prop :=
  offset_at l (sec + offset_at l sec) = offset_at l sec.

(** *** Decimal text ([time/format.go]) *)

Definition digit (n : Z) : ascii := ascii_of_N (Z.to_N (48 + n)).

Fixpoint utod (fuel : nat) (u : Z) (acc : string) : string :=
  match fuel with
  | O => acc
  | S f =>
      let acc := String (digit (u mod 10)) acc in
      if u <? 10 then acc else utod f (u / 10) acc
  end.

Fixpoint zeros (n : nat) : string :=
  match n with O => EmptyString | S k => String "0" (zeros k) end.

(** The two-digit and four-digit fields that [appendInt] writes: tens and
    ones of [u], and tens and ones of [u / 100] and of [u % 100]. *)
Definition two (n : Z) : string :=
  String (digit (n / 10)) (String (digit (n mod 10)) EmptyString).

Definition four (n : Z) : string :=
  String (digit (n / 100 / 10)) (String (digit (n / 100 mod 10))
    (String (digit (n mod 100 / 10)) (String (digit (n mod 100 mod 10)) EmptyString))).

(** [func appendInt(b []byte, x int, width int) []byte]: the text appended. *)
Definition appendInt (x width : Z) : string :=
  let u := Z.abs x in
  (if x <? 0 then "-" else EmptyString) +:+
  (* 2-digit and 4-digit fields are the most common in time formats. *)
  (if (width =? 2) && (u <? 100) then two u
   else if (width =? 4) && (u <? 10000) then four u
   else
     let ds := utod (S (Z.to_nat (Z.log2 u))) u EmptyString in
     zeros (Z.to_nat width - String.length ds) +:+ ds).

(** [func (t Time) Format(layout string) string] at the layout
    ["2006-01-02 15:04:05"], whose chunks are stdLongYear, "-",
    stdZeroMonth, "-", stdZeroDay, " ", stdHour, ":", stdZeroMinute, ":",
    stdZeroSecond. *)
Definition Format (t : Time) : string :=
  let '(year, month, day) := Date_of t in
  let '(hour, min, sec) := Clock_of t in
  appendInt year 4 +:+ "-" +:+ appendInt month 2 +:+ "-" +:+ appendInt day 2
  +:+ " " +:+ appendInt hour 2 +:+ ":" +:+ appendInt min 2 +:+ ":"
  +:+ appendInt sec 2.

(** *** Parsing ([time/format.go]) *)

Inductive ParseError : Type :=
| errBad                      (* "bad value for field" *)
| errAtoi                     (* "time: invalid number" *)
| errRange (field : string)   (* ": <field> out of range" *)
| errExtra (rest : string).   (* ": extra text: <rest>" *)

Definition isdigit (c : ascii) : bool :=
  ((48 <=? N_of_ascii c) && (N_of_ascii c <=? 57))%N.

Definition digitval (c : ascii) : Z := Z.of_N (N_of_ascii c) - 48.

(** [func isDigit(s string, i int) bool] *)
Definition isDigit (s : string) (i : nat) : bool :=
  match String.get i s with
  | Some c => isdigit c
  | None => false
  end.

Definition byte_at (s : string) (i : nat) : ascii :=
  match String.get i s with
  | Some c => c
  | None => Ascii.zero
  end.

(** [s[n:]] *)
Fixpoint drop_str (n : nat) (s : string) : string :=
  match n, s with
  | S k, String _ s' => drop_str k s'
  | _, _ => s
  end.

(** [func getnum(s string, fixed bool) (int, string, error)] *)
Definition getnum (s : string) (fixed : bool) : res ParseError (Z * string) :=
  if negb (isDigit s 0) then Err errBad
  else if negb (isDigit s 1) then
    if fixed then Err errBad
    else Ok (digitval (byte_at s 0), drop_str 1 s)
  else Ok (digitval (byte_at s 0) * 10 + digitval (byte_at s 1), drop_str 2 s).

(** [func leadingInt(s string) (x uint64, rem string, err error)]. Its
    overflow test needs nineteen digits or more; [atoi] is called below on
    at most nine. *)
Fixpoint leadingInt (s : string) (x : Z) : Z * string :=
  match s with
  | String c s' => if isdigit c then leadingInt s' (x * 10 + digitval c) else (x, s)
  | EmptyString => (x, s)
  end.

(** [func atoi(s string) (x int, err error)] *)
Definition atoi (s : string) : res ParseError Z :=
  let '(neg, s) :=
    match s with
    | String c s' =>
        if Ascii.eqb c "-" || Ascii.eqb c "+" then (Ascii.eqb c "-", s') else (false, s)
    | EmptyString => (false, s)
    end in
  let '(q, rem) := leadingInt s 0 in
  if (0 <? String.length rem)%nat then Err errAtoi
  else Ok (if neg then - q else q).

(** [func cutspace(s string) string] *)
Fixpoint cutspace (s : string) : string :=
  match s with
  | String c s' => if Ascii.eqb c " " then cutspace s' else s
  | EmptyString => s
  end.

(** [func skip(value, prefix string) (string, error)]; the loop runs at most
    once per byte of [prefix]. *)
Fixpoint skip_loop (fuel : nat) (value prefix : string) : res ParseError string :=
  match fuel, prefix with
  | _, EmptyString => Ok value
  | O, _ => Ok value
  | S f, String p prefix' =>
      if Ascii.eqb p " " then
        if (0 <? String.length value)%nat && negb (Ascii.eqb (byte_at value 0) " ")
        then Err errBad
        else skip_loop f (cutspace value) (cutspace prefix)
      else if (String.length value =? 0)%nat || negb (Ascii.eqb (byte_at value 0) p)
      then Err errBad
      else skip_loop f (drop_str 1 value) prefix'
  end.

Definition skip (value prefix : string) : res ParseError string :=
  skip_loop (String.length prefix) value prefix.

(** [func commaOrPeriod(b byte) bool] *)
Definition commaOrPeriod (b : ascii) : bool := Ascii.eqb b "." || Ascii.eqb b ",".

(** The [n] of the loop [for n = 2; n < len(value) && isDigit(value, n); n++]
    that measures a fractional second. *)
Fixpoint frac_end (fuel n : nat) (value : string) : nat :=
  match fuel with
  | O => n
  | S f => if isDigit value n then frac_end f (S n) value else n
  end.

(** [func parseNanoseconds(value string, nbytes int) (ns int, rangeErrString
    string, err error)] *)
Definition parseNanoseconds (value : string) (nbytes : nat) : res ParseError Z :=
  if negb (commaOrPeriod (byte_at value 0)) then Err errBad
  else
    let nbytes := if (10 <? nbytes)%nat then 10%nat else nbytes in
    let* ns := atoi (String.substring 1 (nbytes - 1) value) in
    if ns <? 0 then Err (errRange "fractional second")
    else
      (* scale by the number of missing digits, maximum length 10 *)
      Ok (ns * 10 ^ Z.of_nat (10 - nbytes)).

(** [func ParseInLocation(layout, value string, loc *Location) (Time, error)]
    at the layout ["2006-01-02 15:04:05"] and a non-nil [loc]. *)
Definition ParseInLocation (value : string) (l : Location) : res ParseError Time :=
  (* stdLongYear *)
  let* '(year, value) :=
    if (String.length value <? 4)%nat || negb (isDigit value 0) then Err errBad
    else
      let* year := atoi (String.substring 0 4 value) in
      Ok (year, drop_str 4 value) in
  (* "-" stdZeroMonth *)
  let* value := skip value "-" in
  let* '(month, value) := getnum value true in
  if (month <=? 0) || (12 <? month) then Err (errRange "month") else
  (* "-" stdZeroDay: any two-digit day here; the month, day, year
     combination is validated after parsing is complete *)
  let* value := skip value "-" in
  let* '(day, value) := getnum value true in
  (* " " stdHour *)
  let* value := skip value " " in
  let* '(hour, value) := getnum value false in
  if (hour <? 0) || (24 <=? hour) then Err (errRange "hour") else
  (* ":" stdZeroMinute *)
  let* value := skip value ":" in
  let* '(min, value) := getnum value true in
  if (min <? 0) || (60 <=? min) then Err (errRange "minute") else
  (* ":" stdZeroSecond *)
  let* value := skip value ":" in
  let* '(sec, value) := getnum value true in
  if (sec <? 0) || (60 <=? sec) then Err (errRange "second") else
  (* Special case: a fractional second in the input but none in the layout. *)
  let* '(ns, value) :=
    if (2 <=? String.length value)%nat && commaOrPeriod (byte_at value 0)
       && isDigit value 1
    then
      let n := frac_end (String.length value) 2 value in
      let* ns := parseNanoseconds value n in
      Ok (ns, drop_str n value)
    else Ok (0, value) in
  (* end of layout *)
  if (0 <? String.length value)%nat then Err (errExtra value) else
  (* Validate the day of the month. *)
  if (day <? 1) || (day >? daysIn month year) then Err (errRange "day") else
  Ok (Date year month day hour min sec ns l).

(** [func containsDotDot(s string) bool] *)
Fixpoint containsDotDot (s : string) : bool :=
  match s with
  | String "." (String "." _) => true
  | String _ s' => containsDotDot s'
  | EmptyString => false
  end.

(** [func LoadLocation(name string)], returning a [*Location] and an
    error. [zoneinfo] is the
    time zone database of the host and [local] its local zone; [None] is the
    result [(nil, err)]. *)
Definition LoadLocation (zoneinfo : string -> option Location) (local : Location)
    (name : string) : option Location :=
  if String.eqb name EmptyString || String.eqb name "UTC" then Some UTC
  else if String.eqb name "Local" then Some local
  else if containsDotDot name || Ascii.eqb (byte_at name 0) "/"
          || Ascii.eqb (byte_at name 0) "092" then None
  else zoneinfo name.

(** [func (d Duration) Seconds() float64] *)
Definition Seconds (d : Z) : Float64.float64 :=
  let sec := Z.quot d Second in
  let nsec := Z.rem d Second in
  Float64.add (Float64.of_int sec)
    (Float64.div (Float64.of_int nsec) (Float64.of_int 1000000000)).

End GoTime.

(** ** Go's [strconv] package on the number literals of JSON *)
Module GoStrconv.
Import GoTime Float64.

Fixpoint all_digits (s : string) : bool :=
  match s with
  | String c s' => isdigit c && all_digits s'
  | EmptyString => true
  end.

Fixpoint digits_value (s : string) (x : Z) : Z :=
  match s with
  | String c s' => digits_value s' (x * 10 + digitval c)
  | EmptyString => x
  end.

Definition cut_sign (s : string) : bool * string :=
  match s with
  | String c s' =>
      if Ascii.eqb c "-" then (true, s')
      else if Ascii.eqb c "+" then (false, s') else (false, s)
  | EmptyString => (false, s)
  end.

(** [strconv.ParseInt(s, 10, 64)]: [None] stands for an error (wrong syntax
    or a value out of the range of int64). *)
Definition ParseInt (s : string) : option Z :=
  let '(neg, ds) := cut_sign s in
  if (String.length ds =? 0)%nat || negb (all_digits ds) then None
  else
    let n := if neg then - digits_value ds 0 else digits_value ds 0 in
    if (n <? - 2 ^ 63) || (2 ^ 63 - 1 <? n) then None else Some n.

(** The digits at the head of [s] and what follows them. *)
Fixpoint span_digits (s : string) : string * string :=
  match s with
  | String c s' =>
      if isdigit c then let '(ds, r) := span_digits s' in (String c ds, r)
      else (EmptyString, s)
  | EmptyString => (EmptyString, s)
  end.

(** [strconv.ParseFloat(s, 64)] on a decimal literal: sign, digits, an
    optional fraction and an optional exponent. [None] stands for an error:
    wrong syntax, or a value that rounds to an infinity (ErrRange). *)
Definition ParseFloat (s : string) : option float64 :=
  let '(neg, s) := cut_sign s in
  let '(ip, s) := span_digits s in
  let '(fp, s) :=
    match s with
    | String c s' => if Ascii.eqb c "." then span_digits s' else (EmptyString, s)
    | EmptyString => (EmptyString, s)
    end in
  if (String.length ip + String.length fp =? 0)%nat then None else
  let exp10 :=
    match s with
    | EmptyString => Some 0
    | String c s' =>
        if Ascii.eqb c "e" || Ascii.eqb c "E" then
          let '(eneg, es) := cut_sign s' in
          if (String.length es =? 0)%nat || negb (all_digits es) then None
          else Some (if eneg then - digits_value es 0 else digits_value es 0)
        else None
    end in
  match exp10 with
  | None => None
  | Some e =>
      match digits_value (ip +:+ fp) 0 with
      | Zpos m =>
          match of_decimal neg m (e - Z.of_nat (String.length fp)) with
          | S754_infinity _ => None
          | f => Some f
          end
      | _ => Some (S754_zero neg)
      end
  end.

End GoStrconv.

(** ** Go's [encoding/json] package, decoding into [Equipment] *)
Module GoJSON.
Import Float64.

(** A JSON text after scanning. A number keeps its literal, which the
    decoder converts according to the type of the field it is stored in. *)
#[warnings="-register-all"]
Inductive json : Type :=
| JNull
| JBool (b : bool)
| JNumber (lit : string)
| JString (s : string)
| JArray (elems : list json)
| JObject (members : list (string * json)).

(** [type Equipment struct] and the anonymous struct types nested in it. *)
Record l1data := {
  AcCurrent : float64;
  AcVoltage : float64;
  AcFrequency : float64;
  ApparentPower : float64;
  ActivePower : float64;
  ReactivePower : float64;
  CosPhi : float64
}.

Record telemetry := {
  Date : string;
  TotalActivePower : float64;
  DcVoltage : float64;
  GroundFaultResistance : float64;
  PowerLimit : float64;
  TotalEnergy : float64;
  Temperature : float64;
  InverterMode : string;
  L1Data : l1data
}.

Record data := {
  Count : Z;
  Telemetries : list telemetry
}.

Record Equipment := {
  Data : data
}.

(** The zero values that [var target Equipment] starts from. *)
Definition zero_l1data : l1data :=
  {| AcCurrent := zero; AcVoltage := zero; AcFrequency := zero; ApparentPower := zero; ActivePower := zero; ReactivePower := zero; CosPhi := zero |}.

Definition zero_telemetry : telemetry :=
  {| Date := EmptyString; TotalActivePower := zero; DcVoltage := zero; GroundFaultResistance := zero; PowerLimit := zero; TotalEnergy := zero; Temperature := zero; InverterMode := EmptyString; L1Data := zero_l1data |}.

Definition zero_data : data := {| Count := 0; Telemetries := [] |}.
Definition zero_Equipment : Equipment := {| Data := zero_data |}.

(** Assignment to one field of a struct. *)
Definition set_AcCurrent (x : _) (t : l1data) : l1data :=
  {| AcCurrent := x; AcVoltage := AcVoltage t; AcFrequency := AcFrequency t; ApparentPower := ApparentPower t; ActivePower := ActivePower t; ReactivePower := ReactivePower t; CosPhi := CosPhi t |}.
Definition set_AcVoltage (x : _) (t : l1data) : l1data :=
  {| AcCurrent := AcCurrent t; AcVoltage := x; AcFrequency := AcFrequency t; ApparentPower := ApparentPower t; ActivePower := ActivePower t; ReactivePower := ReactivePower t; CosPhi := CosPhi t |}.
Definition set_AcFrequency (x : _) (t : l1data) : l1data :=
  {| AcCurrent := AcCurrent t; AcVoltage := AcVoltage t; AcFrequency := x; ApparentPower := ApparentPower t; ActivePower := ActivePower t; ReactivePower := ReactivePower t; CosPhi := CosPhi t |}.
Definition set_ApparentPower (x : _) (t : l1data) : l1data :=
  {| AcCurrent := AcCurrent t; AcVoltage := AcVoltage t; AcFrequency := AcFrequency t; ApparentPower := x; ActivePower := ActivePower t; ReactivePower := ReactivePower t; CosPhi := CosPhi t |}.
Definition set_ActivePower (x : _) (t : l1data) : l1data :=
  {| AcCurrent := AcCurrent t; AcVoltage := AcVoltage t; AcFrequency := AcFrequency t; ApparentPower := ApparentPower t; ActivePower := x; ReactivePower := ReactivePower t; CosPhi := CosPhi t |}.
Definition set_ReactivePower (x : _) (t : l1data) : l1data :=
  {| AcCurrent := AcCurrent t; AcVoltage := AcVoltage t; AcFrequency := AcFrequency t; ApparentPower := ApparentPower t; ActivePower := ActivePower t; ReactivePower := x; CosPhi := CosPhi t |}.
Definition set_CosPhi (x : _) (t : l1data) : l1data :=
  {| AcCurrent := AcCurrent t; AcVoltage := AcVoltage t; AcFrequency := AcFrequency t; ApparentPower := ApparentPower t; ActivePower := ActivePower t; ReactivePower := ReactivePower t; CosPhi := x |}.
Definition set_Date (x : _) (t : telemetry) : telemetry :=
  {| Date := x; TotalActivePower := TotalActivePower t; DcVoltage := DcVoltage t; GroundFaultResistance := GroundFaultResistance t; PowerLimit := PowerLimit t; TotalEnergy := TotalEnergy t; Temperature := Temperature t; InverterMode := InverterMode t; L1Data := L1Data t |}.
Definition set_TotalActivePower (x : _) (t : telemetry) : telemetry :=
  {| Date := Date t; TotalActivePower := x; DcVoltage := DcVoltage t; GroundFaultResistance := GroundFaultResistance t; PowerLimit := PowerLimit t; TotalEnergy := TotalEnergy t; Temperature := Temperature t; InverterMode := InverterMode t; L1Data := L1Data t |}.
Definition set_DcVoltage (x : _) (t : telemetry) : telemetry :=
  {| Date := Date t; TotalActivePower := TotalActivePower t; DcVoltage := x; GroundFaultResistance := GroundFaultResistance t; PowerLimit := PowerLimit t; TotalEnergy := TotalEnergy t; Temperature := Temperature t; InverterMode := InverterMode t; L1Data := L1Data t |}.
Definition set_GroundFaultResistance (x : _) (t : telemetry) : telemetry :=
  {| Date := Date t; TotalActivePower := TotalActivePower t; DcVoltage := DcVoltage t; GroundFaultResistance := x; PowerLimit := PowerLimit t; TotalEnergy := TotalEnergy t; Temperature := Temperature t; InverterMode := InverterMode t; L1Data := L1Data t |}.
Definition set_PowerLimit (x : _) (t : telemetry) : telemetry :=
  {| Date := Date t; TotalActivePower := TotalActivePower t; DcVoltage := DcVoltage t; GroundFaultResistance := GroundFaultResistance t; PowerLimit := x; TotalEnergy := TotalEnergy t; Temperature := Temperature t; InverterMode := InverterMode t; L1Data := L1Data t |}.
Definition set_TotalEnergy (x : _) (t : telemetry) : telemetry :=
  {| Date := Date t; TotalActivePower := TotalActivePower t; DcVoltage := DcVoltage t; GroundFaultResistance := GroundFaultResistance t; PowerLimit := PowerLimit t; TotalEnergy := x; Temperature := Temperature t; InverterMode := InverterMode t; L1Data := L1Data t |}.
Definition set_Temperature (x : _) (t : telemetry) : telemetry :=
  {| Date := Date t; TotalActivePower := TotalActivePower t; DcVoltage := DcVoltage t; GroundFaultResistance := GroundFaultResistance t; PowerLimit := PowerLimit t; TotalEnergy := TotalEnergy t; Temperature := x; InverterMode := InverterMode t; L1Data := L1Data t |}.
Definition set_InverterMode (x : _) (t : telemetry) : telemetry :=
  {| Date := Date t; TotalActivePower := TotalActivePower t; DcVoltage := DcVoltage t; GroundFaultResistance := GroundFaultResistance t; PowerLimit := PowerLimit t; TotalEnergy := TotalEnergy t; Temperature := Temperature t; InverterMode := x; L1Data := L1Data t |}.
Definition set_L1Data (x : _) (t : telemetry) : telemetry :=
  {| Date := Date t; TotalActivePower := TotalActivePower t; DcVoltage := DcVoltage t; GroundFaultResistance := GroundFaultResistance t; PowerLimit := PowerLimit t; TotalEnergy := TotalEnergy t; Temperature := Temperature t; InverterMode := InverterMode t; L1Data := x |}.
Definition set_Count (x : _) (t : data) : data :=
  {| Count := x; Telemetries := Telemetries t |}.
Definition set_Telemetries (x : _) (t : data) : data :=
  {| Count := Count t; Telemetries := x |}.
Definition set_Data (x : _) (t : Equipment) : Equipment :=
  {| Data := x |}.

(** [type UnmarshalTypeError struct]: a JSON value ([Value]) that is not
    appropriate for a Go type ([GoType]); the anonymous struct types are
    named "struct" for short. *)
Record UnmarshalTypeError := {
  Value : string;
  GoType : string
}.

Inductive DecodeError : Type :=
| SyntaxError                          (* the body is not a JSON text *)
| TypeError (e : UnmarshalTypeError).

Definition describe (v : json) : string :=
  match v with
  | JNull => "null"
  | JBool _ => "bool"
  | JNumber _ => "number"
  | JString _ => "string"
  | JArray _ => "array"
  | JObject _ => "object"
  end.

Definition type_error {A} (v : json) (ty : string) : res DecodeError A :=
  Err (TypeError {| Value := describe v; GoType := ty |}).

(** A number literal that [strconv] refuses for the type of the field. *)
Definition number_error {A} (lit : string) (ty : string) : res DecodeError A :=
  Err (TypeError {| Value := "number " +:+ lit; GoType := ty |}).

(** Decoding stores into a value that already exists: [decoder T] takes the
    JSON value and the current content of the destination. A JSON null
    leaves a number, a string or a struct as it is. The decoder of Go goes
    on after a type error and reports the first one when it is done; as
    [Gather] drops the target on any error, decoding stops at the first. *)
Definition decoder (T : Type) : Type := json -> T -> res DecodeError T.

Definition decode_float64 : decoder float64 := fun v old =>
  match v with
  | JNull => Ok old
  | JNumber lit =>
      match GoStrconv.ParseFloat lit with
      | Some f => Ok f
      | None => number_error lit "float64"
      end
  | _ => type_error v "float64"
  end.

Definition decode_int : decoder Z := fun v old =>
  match v with
  | JNull => Ok old
  | JNumber lit =>
      match GoStrconv.ParseInt lit with
      | Some n => Ok n
      | None => number_error lit "int"
      end
  | _ => type_error v "int"
  end.

Definition decode_string : decoder string := fun v old =>
  match v with
  | JNull => Ok old
  | JString s => Ok s
  | _ => type_error v "string"
  end.

(** Keys are matched to field names exactly or, failing that, under case
    folding. Folding maps the ASCII letters to lower case and the two
    non-ASCII runes that fold to an ASCII letter, U+017F (to s) and U+212A
    (to k), given here by their UTF-8 bytes. *)
Definition lower (c : ascii) : ascii :=
  let n := N_of_ascii c in
  if ((65 <=? n) && (n <=? 90))%N then ascii_of_N (n + 32) else c.

Fixpoint foldName (s : string) : string :=
  match s with
  | String "197" (String "191" s') => String "s" (foldName s')
  | String "226" (String "132" (String "170" s')) => String "k" (foldName s')
  | String c s' => String (lower c) (foldName s')
  | EmptyString => EmptyString
  end.

Definition equalFold (a b : string) : bool := String.eqb (foldName a) (foldName b).

(** The field a key selects: the first whose name equals the key, else the
    first whose name equals it under folding. *)
Definition find_field {T} (fields : list (string * decoder T)) (key : string)
  : option (decoder T) :=
  match List.find (fun f => String.eqb (fst f) key) fields with
  | Some f => Some (snd f)
  | None =>
      match List.find (fun f => equalFold (fst f) key) fields with
      | Some f => Some (snd f)
      | None => None
      end
  end.

(** [func (d *decodeState) object(v reflect.Value)] for a struct: members
    are stored in the order of the text; a key that selects no field is
    skipped together with its value. *)
Fixpoint decode_members {T} (fields : list (string * decoder T))
    (members : list (string * json)) (t : T) : res DecodeError T :=
  match members with
  | [] => Ok t
  | (key, v) :: members' =>
      let* t :=
        match find_field fields key with
        | Some dec => dec v t
        | None => Ok t
        end in
      decode_members fields members' t
  end.

Definition decode_struct {T} (ty : string) (fields : list (string * decoder T))
  : decoder T := fun v old =>
  match v with
  | JNull => Ok old
  | JObject members => decode_members fields members old
  | _ => type_error v ty
  end.

(** [func (d *decodeState) array(v reflect.Value)] for a slice: element [i]
    of the text is stored into element [i] of the slice, which is a zero
    value when the slice was shorter; the slice is cut to the length of
    the text. A JSON null sets the slice to nil. *)
Fixpoint decode_elems {T} (dec : decoder T) (z : T) (elems : list json)
    (old : list T) : res DecodeError (list T) :=
  match elems with
  | [] => Ok []
  | v :: elems' =>
      let* x := dec v (hd z old) in
      let* xs := decode_elems dec z elems' (tl old) in
      Ok (x :: xs)
  end.

Definition decode_slice {T} (ty : string) (dec : decoder T) (z : T)
  : decoder (list T) := fun v old =>
  match v with
  | JNull => Ok []
  | JArray elems => decode_elems dec z elems old
  | _ => type_error v ty
  end.

(** A field of a struct: its JSON name and how a value is stored in it. *)
Definition field {T F} (key : string) (get : T -> F) (set : F -> T -> T)
    (dec : decoder F) : string * decoder T :=
  (key, fun v t => let* x := dec v (get t) in Ok (set x t)).

Definition l1data_fields : list (string * decoder l1data) :=
  [ field "acCurrent" AcCurrent set_AcCurrent decode_float64;
    field "acVoltage" AcVoltage set_AcVoltage decode_float64;
    field "acFrequency" AcFrequency set_AcFrequency decode_float64;
    field "apparentPower" ApparentPower set_ApparentPower decode_float64;
    field "activePower" ActivePower set_ActivePower decode_float64;
    field "reactivePower" ReactivePower set_ReactivePower decode_float64;
    field "cosPhi" CosPhi set_CosPhi decode_float64 ].

Definition decode_l1data : decoder l1data := decode_struct "struct" l1data_fields.

Definition telemetry_fields : list (string * decoder telemetry) :=
  [ field "date" Date set_Date decode_string;
    field "totalActivePower" TotalActivePower set_TotalActivePower decode_float64;
    field "dcVoltage" DcVoltage set_DcVoltage decode_float64;
    field "groundFaultResistance" GroundFaultResistance set_GroundFaultResistance decode_float64;
    field "powerLimit" PowerLimit set_PowerLimit decode_float64;
    field "totalEnergy" TotalEnergy set_TotalEnergy decode_float64;
    field "temperature" Temperature set_Temperature decode_float64;
    field "inverterMode" InverterMode set_InverterMode decode_string;
    field "L1Data" L1Data set_L1Data decode_l1data ].

Definition decode_telemetry : decoder telemetry :=
  decode_struct "struct" telemetry_fields.

Definition data_fields : list (string * decoder data) :=
  [ field "count" Count set_Count decode_int;
    field "telemetries" Telemetries set_Telemetries
      (decode_slice "[]struct" decode_telemetry zero_telemetry) ].

Definition decode_data : decoder data := decode_struct "struct" data_fields.

Definition Equipment_fields : list (string * decoder Equipment) :=
  [ field "data" Data set_Data decode_data ].

Definition decode_Equipment : decoder Equipment :=
  decode_struct "solaredge.Equipment" Equipment_fields.

(** What [resp.Body] holds, as the scanner of the decoder sees it: the first
    JSON value of the stream, or no JSON value. *)
Inductive body : Type :=
| NotJSON
| Text (v : json).

(** [json.NewDecoder(resp.Body).Decode(&target)] on [var target Equipment]. *)
Definition Decode (b : body) : res DecodeError Equipment :=
  match b with
  | NotJSON => Err SyntaxError
  | Text v => decode_Equipment v zero_Equipment
  end.

End GoJSON.

(** ** Go's [net/url] package: query strings *)
Module GoURL.
Import GoTime.

(** [type Values map[string][]string] *)
Abbreviation Values := (gmap string (list string)).

(** [func (v Values) Add(key, value string)] *)
Definition Values_Add (v : Values) (key value : string) : Values :=
  <[key := default [] (v !! key) ++ [value]]> v.

Definition upperhex (n : N) : ascii :=
  if (n <? 10)%N then ascii_of_N (48 + n) else ascii_of_N (55 + n).

(** [func shouldEscape(c byte, mode encoding) bool] at the mode
    encodeQueryComponent: letters, digits and the marks - _ . ~ are kept. *)
Definition shouldEscape (c : ascii) : bool :=
  let n := N_of_ascii c in
  negb (((97 <=? n) && (n <=? 122)) || ((65 <=? n) && (n <=? 90))
        || ((48 <=? n) && (n <=? 57))
        || (n =? 45) || (n =? 95) || (n =? 46) || (n =? 126))%N.

(** [func QueryEscape(s string) string] *)
Fixpoint QueryEscape (s : string) : string :=
  match s with
  | EmptyString => EmptyString
  | String c s' =>
      if Ascii.eqb c " " then String "+" (QueryEscape s')
      else if shouldEscape c then
        String "%" (String (upperhex (N_of_ascii c / 16))
          (String (upperhex (N_of_ascii c mod 16)) (QueryEscape s')))
      else String c (QueryEscape s')
  end.

Definition ishex (c : ascii) : bool :=
  let n := N_of_ascii c in
  (((48 <=? n) && (n <=? 57)) || ((97 <=? n) && (n <=? 102))
   || ((65 <=? n) && (n <=? 70)))%N.

Definition unhex (c : ascii) : N :=
  let n := N_of_ascii c in
  (if (48 <=? n) && (n <=? 57) then n - 48
   else if (97 <=? n) && (n <=? 102) then n - 97 + 10
   else if (65 <=? n) && (n <=? 70) then n - 65 + 10
   else 0)%N.

(** [func QueryUnescape(s string) (string, error)]; [None] is an
    [EscapeError]. *)
Fixpoint QueryUnescape (s : string) : option string :=
  match s with
  | EmptyString => Some EmptyString
  | String "%" (String a (String b s')) =>
      if ishex a && ishex b then
        match QueryUnescape s' with
        | Some r => Some (String (ascii_of_N (unhex a * 16 + unhex b)) r)
        | None => None
        end
      else None
  | String "%" _ => None
  | String c s' =>
      match QueryUnescape s' with
      | Some r => Some (String (if Ascii.eqb c "+" then " "%char else c) r)
      | None => None
      end
  end.

(** [strings.Cut(s, sep)] for a separator of one byte: the text before the
    first [sep] and the text after it. *)
Fixpoint cut (sep : ascii) (s : string) : string * string :=
  match s with
  | EmptyString => (EmptyString, EmptyString)
  | String c s' =>
      if Ascii.eqb c sep then (EmptyString, s')
      else let '(a, b) := cut sep s' in (String c a, b)
  end.

Fixpoint contains (sep : ascii) (s : string) : bool :=
  match s with
  | EmptyString => false
  | String c s' => Ascii.eqb c sep || contains sep s'
  end.

(** [func parseQuery(m Values, query string) (err error)]; pairs that do
    not parse are left out, as [Query] discards the error. Each turn of the
    loop removes at least one byte of [query]. *)
Fixpoint parseQuery (fuel : nat) (m : Values) (query : string) : Values :=
  match fuel with
  | O => m
  | S f =>
      if String.eqb query EmptyString then m
      else
        let '(key, query) := cut "&" query in
        if contains ";" key then parseQuery f m query
        else if String.eqb key EmptyString then parseQuery f m query
        else
          let '(key, value) := cut "=" key in
          match QueryUnescape key, QueryUnescape value with
          | Some key, Some value => parseQuery f (Values_Add m key value) query
          | _, _ => parseQuery f m query
          end
  end.

(** Sorting of the keys, by bytes. *)
Fixpoint insert_sorted (k : string) (l : list string) : list string :=
  match l with
  | [] => [k]
  | x :: l' => if String.leb k x then k :: l else x :: insert_sorted k l'
  end.

Definition sort_keys (l : list string) : list string :=
  fold_right insert_sorted [] l.

(** [func (v Values) Encode() string]: "bar=baz&foo=quux", sorted by key. *)
Definition Values_Encode (v : Values) : string :=
  let keys := sort_keys (elements (dom v)) in
  let pairs :=
    flat_map (fun k =>
      map (fun x => QueryEscape k +:+ "=" +:+ QueryEscape x)
          (default [] (v !! k))) keys in
  match pairs with
  | [] => EmptyString
  | p :: ps => fold_left (fun acc q => acc +:+ "&" +:+ q) ps p
  end.

(** [type URL struct]: the fields that parsing the address of the plugin can
    set. *)
Record URL := {
  Scheme : string;
  Host : string;
  Path : string;
  RawPath : string;
  ForceQuery : bool;
  RawQuery : string;
  Fragment : string
}.

Definition set_RawQuery (q : string) (u : URL) : URL :=
  {| Scheme := Scheme u; Host := Host u; Path := Path u; RawPath := RawPath u;
     ForceQuery := ForceQuery u; RawQuery := q; Fragment := Fragment u |}.

(** [func (u *URL) Query() Values] *)
Definition Query (u : URL) : Values :=
  parseQuery (S (String.length (RawQuery u))) ∅ (RawQuery u).

End GoURL.

(** ** The plugin: [package solaredge] *)
Module SolarEdge.
Import Float64 GoURL GoJSON.

(** *** [net/http] as far as the plugin sees it *)

Record http_Transport := {
  ResponseHeaderTimeout : Z
}.

(** [type Client struct]; a nil [Transport] stands for [DefaultTransport],
    and a [Timeout] of zero means no timeout. *)
Record http_Client := {
  Transport : option http_Transport;
  Timeout : Z
}.

(** [var DefaultClient = &Client{}] *)
Definition DefaultClient : http_Client := {| Transport := None; Timeout := 0 |}.

Record http_Response := {
  StatusCode : Z;
  Body : body
}.

Definition StatusOK : Z := 200.

(** *** The types of the plugin *)

Definition serverURL : string := "https://monitoringapi.solaredge.com/equipment".

(** [type RealHTTPClient struct { client *http.Client }] *)
Record RealHTTPClient := {
  http_client : option http_Client
}.

(** [func (c *RealHTTPClient) SetHTTPClient(client *http.Client)] *)
Definition SetHTTPClient (c : RealHTTPClient) (client : http_Client) : RealHTTPClient :=
  {| http_client := Some client |}.

(** [func (c *RealHTTPClient) HTTPClient() *http.Client] *)
Definition HTTPClient (c : RealHTTPClient) : option http_Client := http_client c.

(** [type SolarEdge struct]; [client] is the [*RealHTTPClient] that [init]
    installs. *)
Record SolarEdge := {
  Name : string;
  SiteID : string;
  SerialNumber : string;
  APIKey : string;
  TimeZone : string;
  client : RealHTTPClient;
  ResponseTimeout : Z
}.

Definition set_client (c : RealHTTPClient) (s : SolarEdge) : SolarEdge :=
  {| Name := Name s; SiteID := SiteID s; SerialNumber := SerialNumber s;
     APIKey := APIKey s; TimeZone := TimeZone s; client := c;
     ResponseTimeout := ResponseTimeout s |}.

(** The collector that [init] registers, before the configuration file
    fills in its exported fields. *)
Definition registered : SolarEdge :=
  {| Name := EmptyString; SiteID := EmptyString; SerialNumber := EmptyString;
     APIKey := EmptyString; TimeZone := EmptyString;
     client := {| http_client := None |};
     ResponseTimeout := 5 * GoTime.Second |}.

(** *** What [Gather] produces *)

(** The values stored in [fields], a [map[string]interface{}]. *)
Inductive value : Type :=
| VFloat (f : float64)
| VString (s : string).

(** The arguments of one call of [acc.AddFields]. *)
Record Point := {
  measurement : string;
  fields : gmap string value;
  tags : gmap string string;
  timestamp : GoTime.Time
}.

(** The errors [Gather] returns, by the statement that produces them. *)
Inductive error : Type :=
| InvalidServerURL (equipmentURL : string)
| GetError (msg : string)
| UnexpectedStatus (url : string) (got want : Z)
| DecodeFailed (e : DecodeError)
| TimeParseFailed (e : GoTime.ParseError).

(** *** The surroundings of one call of [Gather] *)
Record World := {
  (** the reading of the clock when [endTime] is taken *)
  now : GoTime.Time;
  (** the time zone database of the host *)
  zoneinfo : string -> option GoTime.Location;
  (** what a GET of an address through a client comes back with: a
      response, or the message of a transport error *)
  roundTrip : http_Client -> string -> res string http_Response;
  (** [time.Since(start)] when the GET is back, in nanoseconds *)
  since : Z
}.

(** *** State, early exit

    A call of [Gather] changes the collector, appends to the accumulator and
    sends requests; it ends at the end of its body, at a [return err], or in
    a run-time panic. *)
Record State := {
  self : SolarEdge;
  acc : list Point;
  sent : list (http_Client * string)
}.

Inductive stop : Type :=
| Return (err : error)
| Panic (msg : string).

Definition M (A : Type) : Type := State -> res stop A * State.

Definition ret {A} (a : A) : M A := fun st => (Ok a, st).

Definition bind {A B} (m : M A) (k : A -> M B) : M B := fun st =>
  match m st with
  | (Ok a, st') => k a st'
  | (Err e, st') => (Err e, st')
  end.

Definition return_err {A} (e : error) : M A := fun st => (Err (Return e), st).
Definition panic {A} (msg : string) : M A := fun st => (Err (Panic msg), st).

Declare Scope gather_scope.
Delimit Scope gather_scope with gather.
Notation "x <- e ;; k" := (bind e (fun x => k))
  (at level 100, e at next level, k at level 200, right associativity)
  : gather_scope.
Notation "e ;; k" := (bind e (fun _ => k))
  (at level 100, k at level 200, right associativity) : gather_scope.
Local Open Scope gather_scope.

Definition get_self : M SolarEdge := fun st => (Ok (self st), st).

Definition put_client (c : RealHTTPClient) : M unit := fun st =>
  (Ok tt, {| self := set_client c (self st); acc := acc st; sent := sent st |}).

(** [acc.AddFields(measurement, fields, tags, t)] *)
Definition AddFields (name : string) (fs : gmap string value)
    (tg : gmap string string) (t : GoTime.Time) : M unit := fun st =>
  (Ok tt,
   {| self := self st;
      acc := acc st ++ [{| measurement := name; fields := fs; tags := tg;
                           timestamp := t |}];
      sent := sent st |}).

(** [func (c *Client) Get(url string) (resp *Response, err error)] *)
Definition Client_Get (w : World) (c : http_Client) (url : string)
  : M (res string http_Response) := fun st =>
  (Ok (roundTrip w c url),
   {| self := self st; acc := acc st; sent := sent st ++ [(c, url)] |}).

(** [func Get(url string) (resp *Response, err error)]: "Get is a wrapper
    around DefaultClient.Get". *)
Definition http_Get (w : World) (url : string) : M (res string http_Response) :=
  Client_Get w DefaultClient url.

(** [func (c *RealHTTPClient) MakeRequest(req *http.Request)], which is
    [c.client.Do(req)], for a GET of [url]. *)
Definition MakeRequest (w : World) (c : RealHTTPClient) (url : string)
  : M (res string http_Response) :=
  match http_client c with
  | Some cl => Client_Get w cl url
  | None => panic "invalid memory address or nil pointer dereference"
  end.

(** [if err != nil { return f(err) }] *)
Definition or_return {E A} (r : res E A) (f : E -> error) : M A :=
  match r with
  | Ok a => ret a
  | Err e => return_err (f e)
  end.

(** [equipmentURL := fmt.Sprintf("%s/%s/%s/data", serverURL, s.SiteID,
    s.SerialNumber)] *)
Definition equipmentURL (s : SolarEdge) : string :=
  serverURL +:+ "/" +:+ SiteID s +:+ "/" +:+ SerialNumber s +:+ "/data".

(** The query of the request: [params := requestURL.Query()] and the three
    calls of [params.Add]. *)
Definition request_params (s : SolarEdge) (requestURL : URL)
    (startTime endTime : GoTime.Time) : Values :=
  let params := Query requestURL in
  let params := Values_Add params "api_key" (APIKey s) in
  let params := Values_Add params "startTime" (GoTime.Format startTime) in
  let params := Values_Add params "endTime" (GoTime.Format endTime) in
  params.

(** The map [fields] that the loop fills for one sample. *)
Definition point_fields (responseTime : float64) (telemetry : telemetry)
  : gmap string value :=
  let fields : gmap string value := ∅ in
  let fields := <["response_time" := VFloat responseTime]> fields in
  let fields := <["totalActivePower" := VFloat (TotalActivePower telemetry)]> fields in
  let fields := <["dcVoltage" := VFloat (DcVoltage telemetry)]> fields in
  let fields := <["groundFaultResistance" := VFloat (GroundFaultResistance telemetry)]> fields in
  let fields := <["powerLimit" := VFloat (PowerLimit telemetry)]> fields in
  let fields := <["totalEnergy" := VFloat (TotalEnergy telemetry)]> fields in
  let fields := <["temperature" := VFloat (Temperature telemetry)]> fields in
  let fields := <["inverterMode" := VString (InverterMode telemetry)]> fields in
  let fields := <["acCurrent" := VFloat (AcCurrent (L1Data telemetry))]> fields in
  let fields := <["acVoltage" := VFloat (AcVoltage (L1Data telemetry))]> fields in
  let fields := <["acFrequency" := VFloat (AcFrequency (L1Data telemetry))]> fields in
  let fields := <["apparentPower" := VFloat (ApparentPower (L1Data telemetry))]> fields in
  let fields := <["activePower" := VFloat (ActivePower (L1Data telemetry))]> fields in
  let fields := <["reactivePower" := VFloat (ReactivePower (L1Data telemetry))]> fields in
  let fields := <["cosPhi" := VFloat (CosPhi (L1Data telemetry))]> fields in
  fields.

(** The first statement of [Gather]: the HTTP client is made when the
    collector has none. *)
Definition ensure_client : M unit :=
  s <- get_self ;;
  match HTTPClient (client s) with
  | None =>
      let tr := {| ResponseHeaderTimeout := ResponseTimeout s |} in
      let client' := {| Transport := Some tr; Timeout := ResponseTimeout s |} in
      put_client (SetHTTPClient (client s) client')
  | Some _ => ret tt
  end.

(** The collector as [ensure_client] leaves it. *)
Definition initialized (s : SolarEdge) : SolarEdge :=
  match HTTPClient (client s) with
  | None =>
      set_client
        (SetHTTPClient (client s)
           {| Transport := Some {| ResponseHeaderTimeout := ResponseTimeout s |};
              Timeout := ResponseTimeout s |}) s
  | Some _ => s
  end.

(** The window of the query in the location [l]: [endTime] and
    [startTime] of [Gather]. *)
Definition endTime (w : World) (l : GoTime.Location) : GoTime.Time :=
  GoTime.In (now w) l.

Definition startTime (w : World) (l : GoTime.Location) : GoTime.Time :=
  GoTime.Add (endTime w l) (- (6 * 24 * GoTime.Hour)).

(** The URL that [Gather] requests when [url.Parse] has returned [u] and
    [LoadLocation] has returned [l]. *)
Definition requestURL (s : SolarEdge) (w : World) (u : URL) (l : GoTime.Location)
  : URL :=
  set_RawQuery
    (Values_Encode (request_params s u (startTime w l) (endTime w l))) u.

(** The point that the loop adds for a sample whose date has parsed. *)
Definition point_of (name : string) (responseTime : float64) (t : telemetry)
    (date : GoTime.Time) : Point :=
  {| measurement := name; fields := point_fields responseTime t; tags := ∅;
     timestamp := date |}.

(** The keys of [fields]. *)
Definition field_names : gset string :=
  {[ "response_time"; "totalActivePower"; "dcVoltage"; "groundFaultResistance";
     "powerLimit"; "totalEnergy"; "temperature"; "inverterMode"; "acCurrent";
     "acVoltage"; "acFrequency"; "apparentPower"; "activePower";
     "reactivePower"; "cosPhi" ]}.

(** The dates of the samples that precede the first sample whose date does
    not parse, and the error of that sample if there is one. *)
Fixpoint parse_dates (l : GoTime.Location) (ts : list telemetry)
  : list GoTime.Time * option GoTime.ParseError :=
  match ts with
  | [] => ([], None)
  | t :: ts' =>
      match GoTime.ParseInLocation (Date t) l with
      | Ok d => let '(ds, e) := parse_dates l ts' in (d :: ds, e)
      | Err e => ([], Some e)
      end
  end.

(** The world [w] with a server that answers every request with [resp]. *)
Definition answering (w : World) (resp : http_Response) : World :=
  {| now := now w; zoneinfo := zoneinfo w;
     roundTrip := fun _ _ => Ok resp; since := since w |}.

Section Gather.

(** [url.Parse] and the method [String] of [URL] are parameters; [None] is
    the result [(nil, err)] of [url.Parse]. *)
Variable url_Parse : string -> option URL.
Variable URL_String : URL -> string.

(** The body of [for _, telemetry := range target.Data.Telemetries]. *)
Fixpoint gather_loop (loc : GoTime.Location) (responseTime : float64)
    (tags : gmap string string) (telemetries : list telemetry) : M unit :=
  match telemetries with
  | [] => ret tt
  | telemetry :: rest =>
      date <- or_return (GoTime.ParseInLocation (Date telemetry) loc)
                TimeParseFailed ;;
      let fields := point_fields responseTime telemetry in
      s <- get_self ;;
      AddFields (Name s) fields tags date ;;
      gather_loop loc responseTime tags rest
  end.

(** [func (s *SolarEdge) Gather(acc telegraf.Accumulator) error] *)
Definition Gather (w : World) : M unit :=
  ensure_client ;;
  s <- get_self ;;
  let equipmentURL := equipmentURL s in
  requestURL <-
    match url_Parse equipmentURL with
    | Some u => ret u
    | None => return_err (InvalidServerURL equipmentURL)
    end ;;
  (* loc, _ := time.LoadLocation(s.TimeZone): the error is dropped *)
  let loc := GoTime.LoadLocation (zoneinfo w) (GoTime.loc (now w)) (TimeZone s) in
  (* time.Now().In(loc) panics on a nil loc *)
  loc <-
    match loc with
    | Some l => ret l
    | None => panic "time: missing Location in call to Time.In"
    end ;;
  let endTime := GoTime.In (now w) loc in
  let startTime := GoTime.Add endTime (- (6 * 24 * GoTime.Hour)) in
  let params := request_params s requestURL startTime endTime in
  let requestURL := set_RawQuery (Values_Encode params) requestURL in
  r <- http_Get w (URL_String requestURL) ;;
  resp <- or_return r GetError ;;
  let responseTime := GoTime.Seconds (since w) in
  if negb (StatusCode resp =? StatusOK) then
    return_err (UnexpectedStatus (URL_String requestURL) (StatusCode resp) StatusOK)
  else
    target <- or_return (Decode (Body resp)) DecodeFailed ;;
    let tags : gmap string string := ∅ in
    gather_loop loc responseTime tags (Telemetries (Data target)).

(** The host calls [Gather] once per interval, whatever the last call
    returned: the state after the cycles that meet the worlds [ws]. *)
Fixpoint cycles (ws : list World) (st : State) : State :=
  match ws with
  | [] => st
  | w :: ws' => cycles ws' (snd (Gather w st))
  end.

End Gather.

End SolarEdge.

(** ** Concrete collectors, hosts and responses *)
Module Samples.
Import Float64 GoURL GoJSON SolarEdge.

(** Time zones. MST has no transitions; for Europe/London the table holds
    the two transitions of 2024: to summer time on 31 March at 01:00 UTC
    and back on 27 October at 01:00 UTC. *)
Definition MST : GoTime.Location :=
  {| GoTime.name := "MST"; GoTime.offset0 := -25200; GoTime.tx := [] |}.

Definition London : GoTime.Location :=
  {| GoTime.name := "Europe/London"; GoTime.offset0 := 0;
     GoTime.tx := [(1711846800, 3600); (1729990800, 0)] |}.

Definition host_zoneinfo (name : string) : option GoTime.Location :=
  if String.eqb name "MST" then Some MST
  else if String.eqb name "Europe/London" then Some London
  else None.

(** 2024-10-27 00:30:00 UTC, half an hour before London leaves summer
    time. *)
Definition before_fall_back : GoTime.Time :=
  {| GoTime.unix := 1729989000; GoTime.nsec := 0; GoTime.loc := London |}.

(** 2024-01-07 12:00:00.123456789 UTC. *)
Definition noon : GoTime.Time :=
  {| GoTime.unix := 1704628800; GoTime.nsec := 123456789; GoTime.loc := GoTime.UTC |}.

(** Europe/Berlin and America/New_York with their transitions of 2024:
    Berlin goes to summer time on 31 March at 01:00 UTC and back on
    27 October at 01:00 UTC, New York on 10 March at 07:00 UTC and back on
    3 November at 06:00 UTC. *)
Definition Berlin : GoTime.Location :=
  {| GoTime.name := "Europe/Berlin"; GoTime.offset0 := 3600;
     GoTime.tx := [(1711846800, 7200); (1729990800, 3600)] |}.

Definition New_York : GoTime.Location :=
  {| GoTime.name := "America/New_York"; GoTime.offset0 := -18000;
     GoTime.tx := [(1710054000, -14400); (1730613600, -18000)] |}.

(** 2024-03-31 00:30:00 UTC, half an hour before Berlin goes to summer
    time, and 2024-03-10 08:00:00 UTC, an hour after New York has. *)
Definition before_spring_forward : GoTime.Time :=
  {| GoTime.unix := 1711845000; GoTime.nsec := 0; GoTime.loc := GoTime.UTC |}.

Definition after_spring_forward : GoTime.Time :=
  {| GoTime.unix := 1710057600; GoTime.nsec := 0; GoTime.loc := GoTime.UTC |}.

(** An instance of the two parameters of [Gather] for addresses
    "https://host/path" written with letters, digits and the marks
    - . _ / : only. On these [url.Parse] stores host and path as they
    stand and [String] puts them back. Every other address is refused,
    which [url.Parse] itself need not do. *)
Definition plain_char (c : ascii) : bool :=
  let n := N_of_ascii c in
  (((97 <=? n) && (n <=? 122)) || ((65 <=? n) && (n <=? 90))
   || ((45 <=? n) && (n <=? 58)) || (n =? 95))%N.

Fixpoint all_plain (s : string) : bool :=
  match s with
  | EmptyString => true
  | String c s' => plain_char c && all_plain s'
  end.

Definition plain_url_Parse (s : string) : option URL :=
  if all_plain s && String.prefix "https://" s then
    let '(host, path) := cut "/" (GoTime.drop_str 8 s) in
    Some {| Scheme := "https"; Host := host; Path := String "/" path;
            RawPath := EmptyString; ForceQuery := false;
            RawQuery := EmptyString; Fragment := EmptyString |}
  else None.

Definition plain_URL_String (u : URL) : string :=
  Scheme u +:+ "://" +:+ Host u +:+ Path u +:+
  (if String.eqb (RawQuery u) EmptyString then EmptyString
   else "?" +:+ RawQuery u).

(** What [plain_url_Parse] returns on the address of the collector
    below. *)
Definition parsed_address : URL :=
  {| Scheme := "https"; Host := "monitoringapi.solaredge.com";
     Path := "/equipment/123456/12345678-00/data"; RawPath := EmptyString;
     ForceQuery := false; RawQuery := EmptyString; Fragment := EmptyString |}.

(** The collector of the sample configuration. *)
Definition configured (zone : string) : SolarEdge :=
  {| Name := "solaredge"; SiteID := "123456"; SerialNumber := "12345678-00";
     APIKey := "L4QLVQ1LOKCQX2193VSEICXW61NP6B1O"; TimeZone := zone;
     client := {| http_client := None |};
     ResponseTimeout := 5 * GoTime.Second |}.

Definition fresh (s : SolarEdge) : State := {| self := s; acc := []; sent := [] |}.

(** A host on which every GET comes back after a quarter of a second with
    the given response. *)
Definition host (resp : http_Response) : World :=
  {| now := noon; zoneinfo := host_zoneinfo;
     roundTrip := fun _ _ => Ok resp; since := 250000000 |}.

Definition sample (date : string) : json :=
  JObject [ ("date", JString date); ("totalActivePower", JNumber "1500.5");
            ("dcVoltage", JNumber "380"); ("inverterMode", JString "MPPT");
            ("L1Data", JObject [ ("acCurrent", JNumber "6.2");
                                 ("cosPhi", JNumber "1") ]) ].

Definition telemetries_body (count : string) (samples : list json) : body :=
  Text (JObject [ ("data", JObject [ ("count", JNumber count);
                                     ("telemetries", JArray samples) ]) ]).

(** Two samples, the second with a date that is not in the layout. *)
Definition second_date_malformed : http_Response :=
  {| StatusCode := 200;
     Body := telemetries_body "2"
               [ sample "2024-01-01 00:00:00"; sample "2024-01-01T00:15:00Z" ] |}.

(** Two samples under a count of five. *)
Definition count_five_two_samples : http_Response :=
  {| StatusCode := 200;
     Body := telemetries_body "5"
               [ sample "2024-01-01 00:00:00"; sample "2024-01-01 00:15:00" ] |}.

(** One sample, with a date in another layout. *)
Definition one_date_malformed : http_Response :=
  {| StatusCode := 200;
     Body := telemetries_body "1" [ sample "01/01/2024 00:00:00" ] |}.

(** An object whose member "data" is a number. *)
Definition data_is_a_number : http_Response :=
  {| StatusCode := 200; Body := Text (JObject [ ("data", JNumber "5") ]) |}.

(** An object with none of the expected keys. *)
Definition no_expected_key : http_Response :=
  {| StatusCode := 200;
     Body := Text (JObject [ ("version", JString "1.0"); ("errors", JArray []) ]) |}.

Definition empty_object : http_Response :=
  {| StatusCode := 200; Body := Text (JObject []) |}.

Definition service_unavailable : http_Response :=
  {| StatusCode := 503; Body := Text (JString "Service Unavailable") |}.

(** A host whose server takes a minute to answer: a GET through a client
    with a shorter timeout ends in the timeout error of [net/http], a GET
    through a client without timeout (zero) gets the response. *)
Definition slow_host (resp : http_Response) : World :=
  {| now := noon; zoneinfo := host_zoneinfo;
     roundTrip := fun c _ =>
       if (Timeout c =? 0) || (60 * GoTime.Second <? Timeout c) then Ok resp
       else Err "net/http: request canceled (Client.Timeout exceeded while awaiting headers)"%string;
     since := 60 * GoTime.Second |}.

(** [Gather] with the instance of its parameters. *)
Definition Gather_plain : World -> M unit := Gather plain_url_Parse plain_URL_String.

(** The struct a body decodes to, and its samples. *)
Definition decoded (b : body) : Equipment :=
  match Decode b with
  | Ok target => target
  | Err _ => zero_Equipment
  end.

Definition decoded_sample (b : body) (i : nat) : telemetry :=
  nth i (Telemetries (Data (decoded b))) zero_telemetry.

End Samples.

(** ** The text of an encoded query

    [Encode] writes each pair as key, "=", value, with both sides escaped,
    and puts "&" between two pairs. The definitions below name these
    pieces; the round trip through [parseQuery] is stated with them. *)
Module QueryText.
Import GoURL.

(** A byte that neither separates two pairs nor splits a pair. *)
Definition query_safe (c : ascii) : bool :=
  negb (Ascii.eqb c "&" || Ascii.eqb c "=" || Ascii.eqb c ";").

Fixpoint all_safe (s : string) : bool :=
  match s with
  | EmptyString => true
  | String c s' => query_safe c && all_safe s'
  end.

(** One pair of an encoded query. *)
Definition pair_text (key value : string) : string :=
  QueryEscape key +:+ "=" +:+ QueryEscape value.

(** The pairs of [Encode], in the order of the text: the keys sorted, the
    values of a key in the order of its list. *)
Definition pairs_of (v : Values) : list (string * string) :=
  flat_map (fun k => map (fun x => (k, x)) (default [] (v !! k)))
    (sort_keys (elements (dom v))).

(** The texts with "&" between them, built as the loop of [Encode] builds
    its buffer. *)
Definition join (texts : list string) : string :=
  match texts with
  | [] => EmptyString
  | p :: ps => fold_left (fun acc q => acc +:+ "&" +:+ q) ps p
  end.

End QueryText.

(** ** More collectors, hosts and responses *)
Module MoreSamples.
Import Float64 GoURL GoJSON SolarEdge Samples.

(** A site id with a percent sign that starts no escape: [url.Parse]
    refuses the address ("invalid URL escape"), and so does
    [plain_url_Parse]. *)
Definition bad_escape_site : SolarEdge :=
  {| Name := "solaredge"; SiteID := "%zz"; SerialNumber := "12345678-00";
     APIKey := "L4QLVQ1LOKCQX2193VSEICXW61NP6B1O"; TimeZone := "MST";
     client := {| http_client := None |};
     ResponseTimeout := 5 * GoTime.Second |}.

(** A host that cannot resolve the name of the server: every GET ends in a
    transport error. *)
Definition unreachable_host : World :=
  {| now := noon; zoneinfo := host_zoneinfo;
     roundTrip := fun _ _ =>
       Err "dial tcp: lookup monitoringapi.solaredge.com: no such host"%string;
     since := 30000000 |}.

(** A response with status 200 whose body is not JSON. *)
Definition not_json : http_Response := {| StatusCode := 200; Body := NotJSON |}.

(** The members of a sample that names its date "time". *)
Definition undated : list (string * json) :=
  [ ("time", JString "2024-01-01 00:00:00"); ("totalActivePower", JNumber "1500.5");
    ("temperature", JNumber "41.5") ].

(** The same sample with its keys in other cases. *)
Definition shouting : list (string * json) :=
  [ ("DATE", JString "2024-01-01 00:00:00"); ("TotalActivePower", JNumber "1500.5");
    ("TEMPERATURE", JNumber "41.5") ].

Definition quiet : list (string * json) :=
  [ ("date", JString "2024-01-01 00:00:00"); ("totalActivePower", JNumber "1500.5");
    ("temperature", JNumber "41.5") ].

(** The struct a sample decodes to. *)
Definition decoded_telemetry (v : json) : telemetry :=
  match decode_telemetry v zero_telemetry with
  | Ok t => t
  | Err _ => zero_telemetry
  end.

(** Values with the bytes that a query gives a meaning to. *)
Definition special_values : Values :=
  Values_Add (Values_Add (Values_Add ∅ "q" "a&b=c") "q" "100% sure") "site id" "12;34".

End MoreSamples.

(** * Properties *)

(** ** Formatting and parsing of instants *)
Module GoTimeFacts.
Import GoTime.

(** *** The calendar *)

Lemma absYearDay_spec (days : Z) :
  let '(y, d) := absYearDay days in
  daysSinceEpoch y + d = days /\ 0 <= d < 365 + (if isLeap y then 1 else 0).
Proof.
  unfold absYearDay, daysSinceEpoch, isLeap,
    daysPer400Years, daysPer100Years, daysPer4Years.
  rewrite !Z.shiftr_div_pow2 by lia. change (2 ^ 2) with 4.
  split; [Z.to_euclidean_division_equations; lia|].
  split; [Z.to_euclidean_division_equations; lia|].
  match goal with |- context [if ?b then _ else _] => destruct b eqn:E end.
  - Z.to_euclidean_division_equations; lia.
  - rewrite andb_false_iff, orb_false_iff, negb_false_iff, !Z.eqb_eq, !Z.eqb_neq in E.
    Z.to_euclidean_division_equations; lia.
Qed.

Lemma all_from_spec (p : Z -> bool) (n : nat) (r : Z) :
  all_from n r p = true -> forall x, r <= x < r + Z.of_nat n -> p x = true.
Proof.
  revert r. induction n as [|k IH]; intros r H x Hx; [lia|].
  cbn [all_from] in H. apply andb_true_iff in H as [Hr Hk].
  destruct (Z.eq_dec x r) as [->|Hne]; [exact Hr|].
  apply (IH (r + 1) Hk). lia.
Qed.

Lemma monthDay_spec (leap : bool) (yday : Z) :
  0 <= yday < 365 + (if leap then 1 else 0) ->
  let '(m, d) := monthDay leap yday in
  1 <= m <= 12 /\
  1 <= d <= (if (m =? 2) && leap then 29 else daysBefore_at m - daysBefore_at (m - 1)) /\
  d <= 31 /\
  daysBefore_at (m - 1) + (if leap && (m >=? 3) then 1 else 0) + (d - 1) = yday.
Proof.
  intros H.
  assert (Hok : monthDay_ok leap yday = true).
  { destruct leap.
    - apply (all_from_spec (monthDay_ok true) 366 0); [vm_compute; reflexivity | lia].
    - apply (all_from_spec (monthDay_ok false) 365 0); [vm_compute; reflexivity | lia]. }
  unfold monthDay_ok in Hok. destruct (monthDay leap yday) as [m d].
  rewrite !andb_true_iff, !Z.leb_le, Z.eqb_eq in Hok. lia.
Qed.

Lemma norm_id (hi lo base : Z) : 0 <= lo < base -> norm hi lo base = (hi, lo).
Proof.
  intros H. unfold norm.
  destruct (lo <? 0) eqn:E1; [apply Z.ltb_lt in E1; lia|].
  destruct (lo >=? base) eqn:E2; [|reflexivity].
  rewrite Z.geb_leb in E2. apply Z.leb_le in E2. lia.
Qed.

(** [Date] undoes [absDate] and the split of the second of the day. *)
Lemma dateAbs_absDate (days hour min sec ns : Z) :
  0 <= hour < 24 -> 0 <= min < 60 -> 0 <= sec < 60 -> 0 <= ns < 1000000000 ->
  let '(y, m, d) := absDate days in
  dateAbs y m d hour min sec ns
  = (days * secondsPerDay + (hour * 3600 + min * 60 + sec), ns).
Proof.
  intros Hh Hm Hs Hns. unfold absDate.
  pose proof (absYearDay_spec days) as HY.
  destruct (absYearDay days) as [y yday]. destruct HY as [HY Hyd].
  pose proof (monthDay_spec (isLeap y) yday Hyd) as HM.
  destruct (monthDay (isLeap y) yday) as [m d]. destruct HM as (Hm1 & Hd & _ & HM).
  unfold dateAbs.
  rewrite (norm_id y (m - 1) 12) by lia.
  rewrite (norm_id sec ns 1000000000) by lia.
  rewrite (norm_id min sec 60), (norm_id hour min 60), (norm_id d hour 24) by lia.
  replace (m - 1 + 1) with m by lia.
  destruct (isLeap y && (m >=? 3)); f_equal; lia.
Qed.

Lemma absDate_valid (days : Z) :
  let '(y, m, d) := absDate days in
  1 <= m <= 12 /\ 1 <= d <= daysIn m y /\ d <= 31.
Proof.
  unfold absDate.
  pose proof (absYearDay_spec days) as HY.
  destruct (absYearDay days) as [y yday]. destruct HY as [_ Hyd].
  pose proof (monthDay_spec (isLeap y) yday Hyd) as HM.
  destruct (monthDay (isLeap y) yday) as [m d]. destruct HM as (Hm1 & Hd & Hd31 & _).
  unfold daysIn. split; [exact Hm1 | split; [exact Hd | exact Hd31]].
Qed.

(** *** Decimal text *)

Lemma N_of_digit (n : Z) : 0 <= n <= 9 -> N_of_ascii (digit n) = Z.to_N (48 + n).
Proof. intros H. unfold digit. apply N_ascii_embedding. lia. Qed.

Lemma isdigit_digit (n : Z) : 0 <= n <= 9 -> isdigit (digit n) = true.
Proof.
  intros H. unfold isdigit. rewrite (N_of_digit n H).
  apply andb_true_iff. split; apply N.leb_le; lia.
Qed.

Lemma digitval_digit (n : Z) : 0 <= n <= 9 -> digitval (digit n) = n.
Proof. intros H. unfold digitval. rewrite (N_of_digit n H). lia. Qed.

Lemma digit_not_space (n : Z) : 0 <= n <= 9 -> Ascii.eqb (digit n) " " = false.
Proof.
  intros H. apply Ascii.eqb_neq. intros E.
  apply (f_equal N_of_ascii) in E. rewrite (N_of_digit n H) in E.
  cbn in E. lia.
Qed.

Lemma getnum_digits (a b : Z) (rest : string) (fixed : bool) :
  0 <= a <= 9 -> 0 <= b <= 9 ->
  getnum (String (digit a) (String (digit b) rest)) fixed = Ok (a * 10 + b, rest).
Proof.
  intros Ha Hb. unfold getnum, isDigit, byte_at. cbn [String.get drop_str].
  rewrite !isdigit_digit, !digitval_digit by assumption. reflexivity.
Qed.

Lemma append_cons (c : ascii) (s t : string) : String c s +:+ t = String c (s +:+ t).
Proof. reflexivity. Qed.

Lemma append_nil (t : string) : EmptyString +:+ t = t.
Proof. reflexivity. Qed.

Lemma append_empty_r (s : string) : s +:+ EmptyString = s.
Proof. induction s as [|c s IH]; [reflexivity|]. rewrite append_cons, IH. reflexivity. Qed.

Lemma appendInt_two (n : Z) : 0 <= n < 100 -> appendInt n 2 = two n.
Proof.
  intros H. unfold appendInt, two.
  destruct (n <? 0) eqn:E; [apply Z.ltb_lt in E; lia|].
  rewrite (Z.abs_eq n) by lia. cbn [Z.eqb Pos.eqb andb].
  destruct (n <? 100) eqn:E1; [reflexivity | apply Z.ltb_ge in E1; lia].
Qed.

Lemma appendInt_four (n : Z) : 0 <= n < 10000 -> appendInt n 4 = four n.
Proof.
  intros H. unfold appendInt, four.
  destruct (n <? 0) eqn:E; [apply Z.ltb_lt in E; lia|].
  rewrite (Z.abs_eq n) by lia. cbn [Z.eqb Pos.eqb andb].
  destruct (n <? 10000) eqn:E1; [reflexivity | apply Z.ltb_ge in E1; lia].
Qed.

Lemma parse_two (n : Z) (rest : string) (fixed : bool) :
  0 <= n < 100 -> getnum (two n +:+ rest) fixed = Ok (n, rest).
Proof.
  intros H. unfold two. rewrite !append_cons, append_nil.
  rewrite getnum_digits by (Z.to_euclidean_division_equations; lia).
  do 2 f_equal. Z.to_euclidean_division_equations; lia.
Qed.

Lemma digit_eqb_low (n : Z) (c : ascii) :
  0 <= n <= 9 -> (N_of_ascii c < 48)%N -> Ascii.eqb (digit n) c = false.
Proof.
  intros H Hc. apply Ascii.eqb_neq. intros E. subst c.
  rewrite (N_of_digit n H) in Hc. lia.
Qed.

Lemma atoi_four (a b c d : Z) :
  0 <= a <= 9 -> 0 <= b <= 9 -> 0 <= c <= 9 -> 0 <= d <= 9 ->
  atoi (String (digit a) (String (digit b) (String (digit c)
         (String (digit d) EmptyString))))
  = Ok (((a * 10 + b) * 10 + c) * 10 + d).
Proof.
  intros Ha Hb Hc Hd. unfold atoi.
  rewrite !(digit_eqb_low a) by (assumption || (cbn; lia)).
  cbn [orb leadingInt].
  rewrite !isdigit_digit, !digitval_digit by assumption.
  cbn [String.length Nat.ltb Nat.leb]. do 2 f_equal.
Qed.

Lemma parse_four (y : Z) (rest : string) :
  0 <= y < 10000 ->
  (if (String.length (four y +:+ rest) <? 4)%nat
      || negb (isDigit (four y +:+ rest) 0)
   then Err errBad
   else
     let* year := atoi (String.substring 0 4 (four y +:+ rest)) in
     Ok (year, drop_str 4 (four y +:+ rest)))
  = Ok (y, rest).
Proof.
  intros H. unfold four. rewrite !append_cons, append_nil.
  unfold isDigit.
  cbn [String.length Nat.ltb Nat.leb String.get String.substring drop_str orb].
  rewrite isdigit_digit by (Z.to_euclidean_division_equations; lia).
  cbn [negb].
  replace (String.substring 0 0 rest) with EmptyString by (destruct rest; reflexivity).
  rewrite atoi_four by (Z.to_euclidean_division_equations; lia).
  cbn [res_bind]. do 2 f_equal. Z.to_euclidean_division_equations; lia.
Qed.

Lemma skip_byte (c : ascii) (rest : string) :
  Ascii.eqb c " " = false ->
  skip (String c rest) (String c EmptyString) = Ok rest.
Proof.
  intros H. unfold skip, byte_at.
  cbn [String.length skip_loop String.get Nat.eqb orb drop_str].
  rewrite H, Ascii.eqb_refl. reflexivity.
Qed.

Lemma skip_space_two (n : Z) (rest : string) :
  0 <= n < 100 ->
  skip (String " " (two n +:+ rest)) " " = Ok (two n +:+ rest).
Proof.
  intros H. unfold skip, byte_at, two. rewrite !append_cons, append_nil.
  cbn [String.length skip_loop String.get Nat.ltb Nat.leb andb negb
       Ascii.eqb Bool.eqb cutspace].
  rewrite digit_not_space by (Z.to_euclidean_division_equations; lia).
  reflexivity.
Qed.

Lemma parse_layout (year month day hour min sec : Z) (l : Location) :
  0 <= year < 10000 -> 1 <= month <= 12 -> 1 <= day <= daysIn month year ->
  day < 100 ->
  0 <= hour < 24 -> 0 <= min < 60 -> 0 <= sec < 60 ->
  ParseInLocation
    (four year +:+ "-" +:+ two month +:+ "-" +:+ two day +:+ " " +:+ two hour
     +:+ ":" +:+ two min +:+ ":" +:+ two sec) l
  = Ok (Date year month day hour min sec 0 l).
Proof.
  intros Hy Hmo Hd Hd' Hh Hmi Hs.
  unfold ParseInLocation.
  rewrite parse_four by assumption. cbn [res_bind].
  rewrite append_cons, append_nil, skip_byte by reflexivity. cbn [res_bind].
  rewrite parse_two by lia. cbn [res_bind].
  replace ((month <=? 0) || (12 <? month)) with false by lia.
  rewrite append_cons, append_nil, skip_byte by reflexivity. cbn [res_bind].
  rewrite parse_two by lia. cbn [res_bind].
  rewrite append_cons, append_nil, skip_space_two by lia. cbn [res_bind].
  rewrite parse_two by lia. cbn [res_bind].
  replace ((hour <? 0) || (24 <=? hour)) with false by lia.
  rewrite append_cons, append_nil, skip_byte by reflexivity. cbn [res_bind].
  rewrite parse_two by lia. cbn [res_bind].
  replace ((min <? 0) || (60 <=? min)) with false by lia.
  rewrite append_cons, append_nil, skip_byte by reflexivity. cbn [res_bind].
  rewrite <- (append_empty_r (two sec)).
  rewrite parse_two by lia. cbn [res_bind].
  replace ((sec <? 0) || (60 <=? sec)) with false by lia.
  cbn [String.length Nat.leb andb res_bind Nat.ltb].
  replace ((day <? 1) || (day >? daysIn month year)) with false by lia.
  reflexivity.
Qed.

(** *** Formatting and parsing *)

Lemma Clock_of_range (t : Time) :
  let '(hour, min, sec) := Clock_of t in
  0 <= hour < 24 /\ 0 <= min < 60 /\ 0 <= sec < 60 /\
  hour * 3600 + min * 60 + sec = abs t mod secondsPerDay.
Proof.
  unfold Clock_of, secondsPerDay. Z.to_euclidean_division_equations; lia.
Qed.

Lemma Format_digits (t : Time) :
  0 <= Year t <= 9999 ->
  let '(year, month, day) := Date_of t in
  let '(hour, min, sec) := Clock_of t in
  Format t = four year +:+ "-" +:+ two month +:+ "-" +:+ two day +:+ " "
             +:+ two hour +:+ ":" +:+ two min +:+ ":" +:+ two sec.
Proof.
  unfold Format, Year. intros Hy.
  pose proof (absDate_valid (abs t / secondsPerDay)) as HD.
  pose proof (Clock_of_range t) as HC.
  unfold Date_of in *.
  destruct (absDate (abs t / secondsPerDay)) as [[year month] day].
  destruct (Clock_of t) as [[hour min] sec].
  destruct HD as (Hm & Hd & Hd31). destruct HC as (Hh & Hmi & Hs & _).
  rewrite appendInt_four by lia. rewrite !appendInt_two by lia. reflexivity.
Qed.

Lemma Date_reads_back (t : Time) (ns : Z) :
  0 <= ns < 1000000000 ->
  reads_back (loc t) (unix t) ->
  let '(year, month, day) := Date_of t in
  let '(hour, min, sec) := Clock_of t in
  Date year month day hour min sec ns (loc t)
  = {| unix := unix t; nsec := ns; loc := loc t |}.
Proof.
  unfold reads_back. intros Hns Hrb.
  pose proof (Clock_of_range t) as HC.
  unfold Date_of.
  pose proof (dateAbs_absDate (abs t / secondsPerDay)) as HA.
  destruct (absDate (abs t / secondsPerDay)) as [[year month] day].
  destruct (Clock_of t) as [[hour min] sec].
  destruct HC as (Hh & Hmi & Hs & Hsum).
  specialize (HA hour min sec ns Hh Hmi Hs Hns).
  unfold Date. rewrite HA, Hsum.
  replace (abs t / secondsPerDay * secondsPerDay + abs t mod secondsPerDay
           - unixEpochDays * secondsPerDay)
    with (unix t + offset_at (loc t) (unix t))
    by (unfold abs, secondsPerDay; Z.to_euclidean_division_equations; lia).
  unfold offset_at in *.
  destruct (lookup (loc t) (unix t + fst (fst (lookup (loc t) (unix t)))))
    as [[o1 start] end_] eqn:E1.
  cbn [fst] in Hrb. subst o1.
  set (off := fst (fst (lookup (loc t) (unix t)))) in *.
  destruct (off =? 0) eqn:E0.
  - apply Z.eqb_eq in E0. rewrite E0. f_equal. lia.
  - replace (unix t + off - off) with (unix t) by lia.
    fold off.
    destruct ((unix t <? start) || (unix t >=? end_)); f_equal; lia.
Qed.

Lemma Format_ParseInLocation (t : Time) :
  0 <= Year t <= 9999 ->
  reads_back (loc t) (unix t) ->
  ParseInLocation (Format t) (loc t)
  = Ok {| unix := unix t; nsec := 0; loc := loc t |}.
Proof.
  intros Hy Hrb.
  pose proof (Format_digits t Hy) as HF.
  pose proof (Date_reads_back t 0 ltac:(lia) Hrb) as HD.
  pose proof (absDate_valid (abs t / secondsPerDay)) as HV.
  pose proof (Clock_of_range t) as HC.
  unfold Year, Date_of in *.
  destruct (absDate (abs t / secondsPerDay)) as [[year month] day].
  destruct (Clock_of t) as [[hour min] sec].
  destruct HV as (Hm & Hd & Hd31). destruct HC as (Hh & Hmi & Hs & _).
  rewrite HF, parse_layout by lia. rewrite HD. reflexivity.
Qed.

Lemma reads_back_fixed (l : Location) (sec : Z) : tx l = [] -> reads_back l sec.
Proof.
  intros H. unfold reads_back, offset_at, lookup. rewrite H. reflexivity.
Qed.

(** The instant that [Date] makes of the date and the clock of an instant. *)
Lemma Date_of_shown (t : Time) (ns : Z) (l : Location) :
  0 <= ns < 1000000000 ->
  let '(year, month, day) := Date_of t in
  let '(hour, min, sec) := Clock_of t in
  let wall := unix t + offset_at (loc t) (unix t) in
  Date year month day hour min sec ns l
  = {| unix := wall - Date_offset l wall; nsec := ns; loc := l |}.
Proof.
  intros Hns.
  pose proof (Clock_of_range t) as HC.
  unfold Date_of.
  pose proof (dateAbs_absDate (abs t / secondsPerDay)) as HA.
  destruct (absDate (abs t / secondsPerDay)) as [[year month] day].
  destruct (Clock_of t) as [[hour min] sec].
  destruct HC as (Hh & Hmi & Hs & Hsum).
  specialize (HA hour min sec ns Hh Hmi Hs Hns).
  cbv zeta. unfold Date. rewrite HA, Hsum.
  replace (abs t / secondsPerDay * secondsPerDay + abs t mod secondsPerDay
           - unixEpochDays * secondsPerDay)
    with (unix t + offset_at (loc t) (unix t))
    by (unfold abs, secondsPerDay; Z.to_euclidean_division_equations; lia).
  unfold Date_offset.
  destruct (lookup l (unix t + offset_at (loc t) (unix t))) as [[offset start] end_].
  destruct (offset =? 0); [f_equal; lia|].
  destruct ((unix t + offset_at (loc t) (unix t) - offset <? start)
            || (unix t + offset_at (loc t) (unix t) - offset >=? end_)); reflexivity.
Qed.

(** What the text of an instant of the years 0 to 9999 is read back as. *)
Lemma Format_ParseInLocation_shown (t : Time) :
  0 <= Year t <= 9999 ->
  ParseInLocation (Format t) (loc t)
  = Ok {| unix := unix t + offset_at (loc t) (unix t)
                  - Date_offset (loc t) (unix t + offset_at (loc t) (unix t));
          nsec := 0; loc := loc t |}.
Proof.
  intros Hy.
  pose proof (Format_digits t Hy) as HF.
  pose proof (Date_of_shown t 0 (loc t) ltac:(lia)) as HD.
  pose proof (absDate_valid (abs t / secondsPerDay)) as HV.
  pose proof (Clock_of_range t) as HC.
  unfold Year, Date_of in *.
  destruct (absDate (abs t / secondsPerDay)) as [[year month] day].
  destruct (Clock_of t) as [[hour min] sec].
  destruct HV as (Hm & Hd & Hd31). destruct HC as (Hh & Hmi & Hs & _).
  rewrite HF, parse_layout by lia. rewrite HD. reflexivity.
Qed.

(** When the offset in force at an instant is also in force at its
    wall-clock reading, it is the offset that [Date] settles on. *)
Lemma reads_back_Date_offset (l : Location) (sec : Z) :
  reads_back l sec -> Date_offset l (sec + offset_at l sec) = offset_at l sec.
Proof.
  unfold reads_back, Date_offset, offset_at. intros Hrb.
  destruct (lookup l (sec + fst (fst (lookup l sec)))) as [[o1 start] end_] eqn:E1.
  cbn [fst] in Hrb. subst o1.
  set (off := fst (fst (lookup l sec))) in *.
  destruct (off =? 0) eqn:E0; [apply Z.eqb_eq in E0; lia|].
  replace (sec + off - off) with sec by lia. fold off.
  destruct ((sec <? start) || (sec >=? end_)); reflexivity.
Qed.

(** *** Years that the layout does not hold *)

Lemma utod_digits (fuel : nat) (u : Z) (acc : string) :
  0 <= u ->
  exists ds : list Z,
    Forall (fun d => 0 <= d <= 9) ds /\
    utod fuel u acc = fold_right (fun d s => String (digit d) s) acc ds /\
    forall k : nat, (k < fuel)%nat -> 10 ^ Z.of_nat k <= u -> (k < length ds)%nat.
Proof.
  revert u acc. induction fuel as [|f IH]; intros u acc Hu.
  - exists []. split; [constructor|]. split; [reflexivity|]. intros k Hk. lia.
  - cbn [utod]. destruct (u <? 10) eqn:E.
    + apply Z.ltb_lt in E. exists [u mod 10].
      split; [constructor; [Z.to_euclidean_division_equations; lia | constructor]|].
      split; [reflexivity|].
      intros k _ Hk. destruct k as [|k]; [cbn; lia|].
      exfalso. rewrite Nat2Z.inj_succ, Z.pow_succ_r in Hk by lia.
      pose proof (Z.pow_pos_nonneg 10 (Z.of_nat k) ltac:(lia) ltac:(lia)). lia.
    + apply Z.ltb_ge in E.
      destruct (IH (u / 10) (String (digit (u mod 10)) acc)
                  ltac:(Z.to_euclidean_division_equations; lia))
        as (ds & HF & HE & HL).
      exists (ds ++ [u mod 10]).
      split; [apply Forall_app; split;
              [exact HF
              | constructor; [Z.to_euclidean_division_equations; lia | constructor]]|].
      split; [rewrite HE, fold_right_app; reflexivity|].
      intros k Hk H10. rewrite length_app. cbn [length].
      destruct k as [|k]; [lia|].
      assert (k < length ds)%nat; [|lia].
      apply HL; [lia|].
      rewrite Nat2Z.inj_succ, Z.pow_succ_r in H10 by lia.
      Z.to_euclidean_division_equations; lia.
Qed.

Lemma length_digits (ds : list Z) :
  String.length (fold_right (fun d s => String (digit d) s) EmptyString ds) = length ds.
Proof. induction ds as [|d ds IH]; [reflexivity|]. cbn. rewrite IH. reflexivity. Qed.

Lemma skip_digit_dash (d : Z) (rest : string) :
  0 <= d <= 9 -> skip (String (digit d) rest) "-" = Err errBad.
Proof.
  intros H. unfold skip.
  cbn [String.length skip_loop Nat.eqb orb].
  change (Ascii.eqb "-" " ") with false. cbv iota.
  unfold byte_at. cbn [String.get].
  rewrite (digit_eqb_low d "-" H) by (cbn; lia). reflexivity.
Qed.

Lemma ParseInLocation_long_year (year : Z) (rest : string) (l : Location) :
  10000 <= year -> ParseInLocation (appendInt year 4 +:+ rest) l = Err errBad.
Proof.
  intros Hy. unfold appendInt.
  destruct (year <? 0) eqn:E; [apply Z.ltb_lt in E; lia|].
  rewrite (Z.abs_eq year) by lia. cbn [Z.eqb Pos.eqb andb].
  destruct (year <? 10000) eqn:E1; [apply Z.ltb_lt in E1; lia|].
  rewrite append_nil.
  destruct (utod_digits (S (Z.to_nat (Z.log2 year))) year EmptyString ltac:(lia))
    as (ds & HF & HE & HL).
  assert (Hlen : (4 < length ds)%nat).
  { apply HL; [|cbn; lia].
    pose proof (Z.log2_le_mono 8192 year ltac:(lia)) as Hlog.
    change (Z.log2 8192) with 13 in Hlog. lia. }
  rewrite HE, length_digits.
  replace (Z.to_nat 4 - length ds)%nat with 0%nat by lia. cbn [zeros].
  rewrite append_nil.
  destruct ds as [|a [|b [|c [|d [|e ds]]]]]; cbn [length] in Hlen; try lia.
  repeat match goal with
         | H : Forall _ (_ :: _) |- _ => apply Forall_cons in H; destruct H as [? H]
         end.
  cbn [fold_right]. rewrite !append_cons.
  unfold ParseInLocation, isDigit.
  cbn [String.length Nat.ltb Nat.leb String.get String.substring drop_str orb].
  rewrite isdigit_digit by assumption. cbn [negb].
  rewrite atoi_four by assumption. cbn [res_bind].
  rewrite skip_digit_dash by assumption. reflexivity.
Qed.

Lemma ParseInLocation_negative_year (year : Z) (rest : string) (l : Location) :
  year < 0 -> ParseInLocation (appendInt year 4 +:+ rest) l = Err errBad.
Proof.
  intros Hy. unfold appendInt.
  destruct (year <? 0) eqn:E; [|apply Z.ltb_ge in E; lia].
  rewrite !append_cons, append_nil.
  unfold ParseInLocation, isDigit. cbn [String.get].
  change (isdigit "-") with false. cbn [negb]. rewrite orb_true_r. reflexivity.
Qed.

Lemma Format_year_out (t : Time) :
  ~ 0 <= Year t <= 9999 -> ParseInLocation (Format t) (loc t) = Err errBad.
Proof.
  intros Hy. unfold Format, Year in *.
  destruct (Date_of t) as [[year month] day]. destruct (Clock_of t) as [[hour min] sec].
  destruct (Z_lt_le_dec year 0) as [Hneg|Hpos].
  - apply ParseInLocation_negative_year, Hneg.
  - apply ParseInLocation_long_year. lia.
Qed.

(** C5, as amended: an instant shown in a location, written in the layout
    of the plugin and parsed back in the same location, is the same instant
    cut to the whole second if and only if its year in the location is
    between 0 and 9999 and the offset that the parser settles on for the
    wall-clock reading ([Date_offset]) is the offset in force at the
    instant. Outside these years the text is refused; within them the parser
    returns the wall-clock reading less the offset it settles on. *)
Theorem Format_ParseInLocation_round_trip (t : Time) (l : Location) :
  ParseInLocation (Format (In t l)) l
  = Ok {| unix := unix t; nsec := 0; loc := l |}
  <-> 0 <= Year (In t l) <= 9999 /\
      Date_offset l (unix t + offset_at l (unix t)) = offset_at l (unix t).
Proof.
  pose proof (Format_ParseInLocation_shown (In t l)) as HS.
  pose proof (Format_year_out (In t l)) as HO.
  cbn [unix loc In] in HS, HO.
  split.
  - intros H.
    destruct (Z_le_dec 0 (Year (In t l))) as [H0|H0];
      [destruct (Z_le_dec (Year (In t l)) 9999) as [H1|H1]|].
    + split; [lia|].
      rewrite HS in H by lia. injection H as H. lia.
    + rewrite HO in H by lia. discriminate H.
    + rewrite HO in H by lia. discriminate H.
  - intros [Hy Ho]. rewrite (HS Hy), Ho. do 2 f_equal. lia.
Qed.

Lemma Format_ParseInLocation_round_trip_witness :
  ParseInLocation (Format (In Samples.before_spring_forward Samples.Berlin)) Samples.Berlin
  = Ok {| unix := unix Samples.before_spring_forward; nsec := 0; loc := Samples.Berlin |} /\
  ParseInLocation (Format (In Samples.after_spring_forward Samples.New_York)) Samples.New_York
  = Ok {| unix := unix Samples.after_spring_forward; nsec := 0; loc := Samples.New_York |} /\
  ParseInLocation (Format (In Samples.noon Samples.London)) Samples.London
  = Ok {| unix := unix Samples.noon; nsec := 0; loc := Samples.London |}.
Proof.
  split; [|split].
  - apply (proj2 (Format_ParseInLocation_round_trip Samples.before_spring_forward Samples.Berlin)).
    split; [vm_compute; split; discriminate | vm_compute; reflexivity].
  - apply (proj2 (Format_ParseInLocation_round_trip Samples.after_spring_forward Samples.New_York)).
    split; [vm_compute; split; discriminate | vm_compute; reflexivity].
  - apply (proj2 (Format_ParseInLocation_round_trip Samples.noon Samples.London)).
    split; [vm_compute; split; discriminate | vm_compute; reflexivity].
Defined.

(** In a location without transitions the round trip holds of every instant
    of the years 0 to 9999. *)
Lemma Format_ParseInLocation_fixed (t : Time) (l : Location) :
  tx l = [] -> 0 <= Year (In t l) <= 9999 ->
  ParseInLocation (Format (In t l)) l
  = Ok {| unix := unix t; nsec := 0; loc := l |}.
Proof.
  intros H Hy. apply (Format_ParseInLocation (In t l) Hy).
  apply reads_back_fixed, H.
Qed.

(** C5 as stated fails. On 27 October 2024 London leaves summer time at
    01:00 UTC. The instant 00:30:00 UTC of that day is written as
    "2024-10-27 01:30:00", and that text is parsed back as 01:30:00 UTC, an
    hour later. *)
Lemma Format_ParseInLocation_fall_back :
  0 <= Year Samples.before_fall_back <= 9999 /\
  Format Samples.before_fall_back = "2024-10-27 01:30:00"%string /\
  ParseInLocation (Format Samples.before_fall_back) Samples.London
  = Ok {| unix := unix Samples.before_fall_back + 3600; nsec := 0;
          loc := Samples.London |} /\
  ParseInLocation (Format Samples.before_fall_back) Samples.London
  <> Ok {| unix := unix Samples.before_fall_back; nsec := 0;
           loc := Samples.London |}.
Proof.
  split; [vm_compute; split; discriminate|].
  split; [vm_compute; reflexivity|].
  split; [vm_compute; reflexivity|].
  vm_compute. discriminate.
Qed.

(** The bound on the year is needed as well: the first second of the year
    10000 is written with five digits for the year, of which the parser
    reads four. *)
Lemma Format_ParseInLocation_year_10000 :
  Format {| unix := 253402300800; nsec := 0; loc := UTC |}
  = "10000-01-01 00:00:00"%string /\
  ParseInLocation (Format {| unix := 253402300800; nsec := 0; loc := UTC |}) UTC
  = Err errBad.
Proof. split; vm_compute; reflexivity. Qed.

(** No parser could do better on the day of the transition: two instants an
    hour apart have the same text. *)
Lemma Format_not_injective :
  Format Samples.before_fall_back
  = Format {| unix := unix Samples.before_fall_back + 3600; nsec := 0;
              loc := Samples.London |}.
Proof. vm_compute. reflexivity. Qed.

End GoTimeFacts.

(** ** The plugin *)
Module SolarEdgeFacts.
Import Float64 GoURL GoJSON SolarEdge.

Ltac run :=
  unfold bind, ret, get_self, put_client, AddFields, http_Get, Client_Get,
    or_return, return_err, panic.

Lemma state_eta (st : State) :
  {| self := self st; acc := acc st; sent := sent st |} = st.
Proof. destruct st; reflexivity. Qed.

Lemma ensure_client_run (st : State) :
  ensure_client st
  = (Ok tt, {| self := initialized (self st); acc := acc st; sent := sent st |}).
Proof.
  unfold ensure_client, initialized. run.
  destruct (HTTPClient (client (self st))); [rewrite state_eta|]; reflexivity.
Qed.

Lemma initialized_config (s : SolarEdge) :
  Name (initialized s) = Name s /\ SiteID (initialized s) = SiteID s /\
  SerialNumber (initialized s) = SerialNumber s /\ APIKey (initialized s) = APIKey s /\
  TimeZone (initialized s) = TimeZone s /\
  ResponseTimeout (initialized s) = ResponseTimeout s.
Proof. unfold initialized. destruct (HTTPClient (client s)); repeat split. Qed.

Section WithURL.
Variable url_Parse : string -> option URL.
Variable URL_String : URL -> string.

(** *** The loop over the samples *)

Lemma gather_loop_nil l rt tg st : gather_loop l rt tg [] st = (Ok tt, st).
Proof. reflexivity. Qed.

Lemma gather_loop_cons_ok l rt tg t rest st date :
  GoTime.ParseInLocation (Date t) l = Ok date ->
  gather_loop l rt tg (t :: rest) st
  = gather_loop l rt tg rest
      {| self := self st;
         acc := acc st ++ [{| measurement := Name (self st);
                              fields := point_fields rt t; tags := tg;
                              timestamp := date |}];
         sent := sent st |}.
Proof. intros H. cbn [gather_loop]. run. rewrite H. reflexivity. Qed.

Lemma gather_loop_cons_err l rt tg t rest st e :
  GoTime.ParseInLocation (Date t) l = Err e ->
  gather_loop l rt tg (t :: rest) st = (Err (Return (TimeParseFailed e)), st).
Proof. intros H. cbn [gather_loop]. run. rewrite H. reflexivity. Qed.

(** *** The straight-line part *)

Lemma Gather_run (w : World) (st : State) (u : URL) (l : GoTime.Location) :
  url_Parse (equipmentURL (self st)) = Some u ->
  GoTime.LoadLocation (zoneinfo w) (GoTime.loc (now w)) (TimeZone (self st)) = Some l ->
  Gather url_Parse URL_String w st =
    let s := initialized (self st) in
    let url := URL_String (requestURL s w u l) in
    let st1 := {| self := s; acc := acc st;
                  sent := sent st ++ [(DefaultClient, url)] |} in
    match roundTrip w DefaultClient url with
    | Err msg => (Err (Return (GetError msg)), st1)
    | Ok resp =>
        if negb (StatusCode resp =? StatusOK)
        then (Err (Return (UnexpectedStatus url (StatusCode resp) StatusOK)), st1)
        else
          match Decode (Body resp) with
          | Err e => (Err (Return (DecodeFailed e)), st1)
          | Ok target =>
              gather_loop l (GoTime.Seconds (since w)) ∅
                (Telemetries (Data target)) st1
          end
    end.
Proof.
  intros HU HL. unfold Gather.
  unfold bind at 1. rewrite ensure_client_run.
  destruct (initialized_config (self st)) as (_ & HS & HN & _ & HT & _).
  run. cbn [self acc sent].
  replace (equipmentURL (initialized (self st))) with (equipmentURL (self st))
    by (unfold equipmentURL; rewrite HS, HN; reflexivity).
  rewrite HU, HT, HL. cbn [self acc sent].
  fold (endTime w l). fold (startTime w l).
  fold (requestURL (initialized (self st)) w u l).
  destruct (roundTrip w DefaultClient _) as [resp|msg]; [|reflexivity].
  cbv beta iota delta [ret].
  destruct (negb (StatusCode resp =? StatusOK)); [reflexivity|].
  destruct (Decode (Body resp)); reflexivity.
Qed.


Lemma gather_loop_all_ok l rt (ts : list telemetry) (dates : list GoTime.Time) st :
  Forall2 (fun t d => GoTime.ParseInLocation (Date t) l = Ok d) ts dates ->
  gather_loop l rt ∅ ts st
  = (Ok tt,
     {| self := self st;
        acc := acc st ++ zip_with (point_of (Name (self st)) rt) ts dates;
        sent := sent st |}).
Proof.
  intros H. revert st. induction H as [|t d ts dates Hd _ IH]; intros st.
  - cbn [zip_with]. rewrite app_nil_r, gather_loop_nil, state_eta. reflexivity.
  - rewrite (gather_loop_cons_ok _ _ _ _ _ _ d Hd), IH. cbn [self acc sent zip_with].
    rewrite <- app_assoc. reflexivity.
Qed.

(** The loop adds the points of the samples that precede the first date
    that does not parse, and returns the error of that date. *)
Lemma gather_loop_parse_dates l rt (ts : list telemetry) st :
  gather_loop l rt ∅ ts st
  = (match snd (parse_dates l ts) with
     | None => Ok tt
     | Some e => Err (Return (TimeParseFailed e))
     end,
     {| self := self st;
        acc := acc st ++ zip_with (point_of (Name (self st)) rt) ts
                           (fst (parse_dates l ts));
        sent := sent st |}).
Proof.
  revert st. induction ts as [|t ts IH]; intros st.
  - cbn [parse_dates fst snd zip_with]. rewrite app_nil_r, gather_loop_nil, state_eta.
    reflexivity.
  - cbn [parse_dates]. destruct (GoTime.ParseInLocation (Date t) l) as [d|e] eqn:E.
    + rewrite (gather_loop_cons_ok _ _ _ _ _ _ d E), IH.
      destruct (parse_dates l ts) as [ds e']. cbn [fst snd self acc sent zip_with].
      rewrite <- app_assoc. reflexivity.
    + rewrite (gather_loop_cons_err _ _ _ _ _ _ e E).
      cbn [fst snd zip_with]. rewrite app_nil_r, state_eta. reflexivity.
Qed.

Lemma gather_loop_frame l rt tg ts st :
  self (snd (gather_loop l rt tg ts st)) = self st /\
  sent (snd (gather_loop l rt tg ts st)) = sent st.
Proof.
  revert st. induction ts as [|t ts IH]; intros st; [split; reflexivity|].
  destruct (GoTime.ParseInLocation (Date t) l) as [d|e] eqn:E.
  - rewrite (gather_loop_cons_ok _ _ _ _ _ _ d E).
    destruct (IH {| self := self st;
                    acc := acc st ++ [{| measurement := Name (self st);
                                         fields := point_fields rt t; tags := tg;
                                         timestamp := d |}];
                    sent := sent st |}) as [H1 H2].
    split; [exact H1 | exact H2].
  - rewrite (gather_loop_cons_err _ _ _ _ _ _ e E). split; reflexivity.
Qed.

Lemma dom_point_fields (rt : float64) (t : telemetry) :
  dom (point_fields rt t) = field_names.
Proof.
  unfold point_fields, field_names. rewrite !dom_insert_L, dom_empty_L.
  set_solver.
Qed.


(** *** What a cycle does to the collector *)

Lemma Gather_self (w : World) (st : State) :
  self (snd (Gather url_Parse URL_String w st)) = initialized (self st).
Proof.
  destruct (url_Parse (equipmentURL (self st))) as [u|] eqn:HU.
  - destruct (GoTime.LoadLocation (zoneinfo w) (GoTime.loc (now w))
                (TimeZone (self st))) as [l|] eqn:HL.
    + rewrite (Gather_run w st u l HU HL). cbv zeta.
      destruct (roundTrip w DefaultClient _) as [resp|msg]; [|reflexivity].
      destruct (negb (StatusCode resp =? StatusOK)); [reflexivity|].
      destruct (Decode (Body resp)) as [target|e]; [|reflexivity].
      apply gather_loop_frame.
    + unfold Gather. unfold bind at 1. rewrite ensure_client_run.
      destruct (initialized_config (self st)) as (_ & HS & HN & _ & HT & _).
      run. cbn [self acc sent].
      replace (equipmentURL (initialized (self st))) with (equipmentURL (self st))
        by (unfold equipmentURL; rewrite HS, HN; reflexivity).
      rewrite HU, HT, HL. reflexivity.
  - unfold Gather. unfold bind at 1. rewrite ensure_client_run.
    destruct (initialized_config (self st)) as (_ & HS & HN & _ & HT & _).
    run. cbn [self acc sent].
    replace (equipmentURL (initialized (self st))) with (equipmentURL (self st))
      by (unfold equipmentURL; rewrite HS, HN; reflexivity).
    rewrite HU. reflexivity.
Qed.

Lemma initialized_idem (s : SolarEdge) : initialized (initialized s) = initialized s.
Proof.
  unfold initialized at 2. destruct (HTTPClient (client s)) eqn:E.
  - unfold initialized. rewrite E. reflexivity.
  - unfold initialized. cbn [client set_client HTTPClient SetHTTPClient http_client].
    rewrite E. reflexivity.
Qed.

Lemma cycles_self (ws : list World) (st : State) :
  self (cycles url_Parse URL_String ws st)
  = match ws with [] => self st | _ :: _ => initialized (self st) end.
Proof.
  revert st. induction ws as [|w ws IH]; intros st; [reflexivity|].
  cbn [cycles]. rewrite IH, Gather_self.
  destruct ws; [reflexivity | apply initialized_idem].
Qed.

(** C8: a cycle leaves the six configuration fields of the collector as they
    are; among the fields of the collector it can only change the HTTP
    client, and only when none is set, in which case it sets the client
    built from [ResponseTimeout]; over any number of cycles the client set by
    the first one stays. *)
Theorem Gather_changes_only_client (w : World) (ws : list World) (st : State) :
  let st' := snd (Gather url_Parse URL_String w st) in
  Name (self st') = Name (self st) /\
  SiteID (self st') = SiteID (self st) /\
  SerialNumber (self st') = SerialNumber (self st) /\
  APIKey (self st') = APIKey (self st) /\
  TimeZone (self st') = TimeZone (self st) /\
  ResponseTimeout (self st') = ResponseTimeout (self st) /\
  match HTTPClient (client (self st)) with
  | Some c => client (self st') = client (self st)
  | None =>
      HTTPClient (client (self st'))
      = Some {| Transport :=
                  Some {| ResponseHeaderTimeout := ResponseTimeout (self st) |};
                Timeout := ResponseTimeout (self st) |}
  end /\
  self (cycles url_Parse URL_String (w :: ws) st) = self st'.
Proof.
  cbv zeta. rewrite cycles_self, Gather_self.
  destruct (initialized_config (self st)) as (H1 & H2 & H3 & H4 & H5 & H6).
  repeat (split; [assumption|]).
  split; [|reflexivity].
  unfold initialized. destruct (HTTPClient (client (self st))); reflexivity.
Qed.

(** *** The request *)

Lemma Gather_sent (w : World) (st : State) (u : URL) (l : GoTime.Location) :
  url_Parse (equipmentURL (self st)) = Some u ->
  GoTime.LoadLocation (zoneinfo w) (GoTime.loc (now w)) (TimeZone (self st)) = Some l ->
  sent (snd (Gather url_Parse URL_String w st))
  = sent st ++ [(DefaultClient, URL_String (requestURL (initialized (self st)) w u l))].
Proof.
  intros HU HL. rewrite (Gather_run w st u l HU HL). cbv zeta.
  destruct (roundTrip w DefaultClient _) as [resp|msg]; [|reflexivity].
  destruct (negb (StatusCode resp =? StatusOK)); [reflexivity|].
  destruct (Decode (Body resp)) as [target|e]; [|reflexivity].
  apply gather_loop_frame.
Qed.

Lemma Values_Add_lookup (v : Values) (key value : string) :
  Values_Add v key value !! key = Some (default [] (v !! key) ++ [value]).
Proof. unfold Values_Add. apply lookup_insert_eq. Qed.

Lemma Values_Add_lookup_ne (v : Values) (key key' value : string) :
  key <> key' -> Values_Add v key value !! key' = v !! key'.
Proof. intros H. unfold Values_Add. apply lookup_insert_ne. exact H. Qed.

Lemma Add_whole_seconds (t : GoTime.Time) (n : Z) :
  0 <= GoTime.nsec t < 1000000000 ->
  GoTime.Add t (n * GoTime.Second)
  = {| GoTime.unix := GoTime.unix t + n; GoTime.nsec := GoTime.nsec t;
       GoTime.loc := GoTime.loc t |}.
Proof.
  intros H. unfold GoTime.Add, GoTime.Second, GoTime.Nanosecond.
  replace (Z.rem (n * (1000000000 * 1)) 1000000000) with 0
    by (Z.to_euclidean_division_equations; lia).
  replace (Z.quot (n * (1000000000 * 1)) 1000000000) with n
    by (Z.to_euclidean_division_equations; lia).
  rewrite Z.add_0_r.
  destruct (GoTime.nsec t >=? 1000000000) eqn:E1; [lia|].
  destruct (GoTime.nsec t <? 0) eqn:E2; [lia|]. reflexivity.
Qed.

(** C4: the request of a cycle goes to the URL whose query is the encoding
    of parameters in which the last value of [startTime] and of [endTime]
    are the texts, in the layout of the plugin and in the resolved location,
    of two instants: the reading of the clock, and the instant 144 * 3600
    seconds before it, to the nanosecond. When the address of the collector
    has no query of its own these are the only values. *)
Theorem Gather_request_window (w : World) (st : State) (u : URL) (l : GoTime.Location) :
  url_Parse (equipmentURL (self st)) = Some u ->
  GoTime.LoadLocation (zoneinfo w) (GoTime.loc (now w)) (TimeZone (self st)) = Some l ->
  0 <= GoTime.nsec (now w) < 1000000000 ->
  let end_ := {| GoTime.unix := GoTime.unix (now w);
                 GoTime.nsec := GoTime.nsec (now w); GoTime.loc := l |} in
  let start := {| GoTime.unix := GoTime.unix (now w) - 144 * 3600;
                  GoTime.nsec := GoTime.nsec (now w); GoTime.loc := l |} in
  let params := request_params (initialized (self st)) u start end_ in
  let url := set_RawQuery (Values_Encode params) u in
  sent (snd (Gather url_Parse URL_String w st))
  = sent st ++ [(DefaultClient, URL_String url)] /\
  (exists vs, params !! "startTime" = Some (vs ++ [GoTime.Format start])) /\
  (exists ve, params !! "endTime" = Some (ve ++ [GoTime.Format end_])) /\
  (RawQuery u = EmptyString ->
   params !! "startTime" = Some [GoTime.Format start] /\
   params !! "endTime" = Some [GoTime.Format end_]).
Proof.
  intros HU HL Hns. cbv zeta.
  assert (HE : endTime w l = {| GoTime.unix := GoTime.unix (now w);
                                GoTime.nsec := GoTime.nsec (now w);
                                GoTime.loc := l |}) by reflexivity.
  assert (HS : startTime w l = {| GoTime.unix := GoTime.unix (now w) - 144 * 3600;
                                  GoTime.nsec := GoTime.nsec (now w);
                                  GoTime.loc := l |}).
  { unfold startTime. rewrite HE.
    replace (- (6 * 24 * GoTime.Hour)) with (- (144 * 3600) * GoTime.Second)
      by (unfold GoTime.Hour; lia).
    rewrite Add_whole_seconds by exact Hns. cbn [GoTime.unix GoTime.nsec GoTime.loc].
    f_equal. }
  rewrite <- HS, <- HE.
  split; [apply (Gather_sent w st u l HU HL)|].
  unfold request_params.
  split; [|split].
  - eexists. rewrite Values_Add_lookup_ne by discriminate. apply Values_Add_lookup.
  - eexists. apply Values_Add_lookup.
  - intros HQ. unfold Query. rewrite HQ. cbn [String.length parseQuery String.eqb].
    split.
    + rewrite Values_Add_lookup_ne by discriminate. rewrite Values_Add_lookup.
      rewrite Values_Add_lookup_ne by discriminate. rewrite lookup_empty. reflexivity.
    + rewrite Values_Add_lookup. rewrite !Values_Add_lookup_ne by discriminate.
      rewrite lookup_empty. reflexivity.
Qed.

(** The client of the collector has no part in the request: whatever the
    cycle sends, it sends through [DefaultClient], which has no timeout. *)
Lemma Gather_sends_through_DefaultClient (w : World) (st : State) :
  Timeout DefaultClient = 0 /\
  exists reqs, sent (snd (Gather url_Parse URL_String w st)) = sent st ++ reqs /\
               Forall (fun r => fst r = DefaultClient) reqs.
Proof.
  split; [reflexivity|].
  destruct (url_Parse (equipmentURL (self st))) as [u|] eqn:HU.
  - destruct (GoTime.LoadLocation (zoneinfo w) (GoTime.loc (now w))
                (TimeZone (self st))) as [l|] eqn:HL.
    + eexists. split; [apply (Gather_sent w st u l HU HL)|].
      constructor; [reflexivity | constructor].
    + exists []. split; [|constructor]. rewrite app_nil_r.
      unfold Gather. unfold bind at 1. rewrite ensure_client_run.
      destruct (initialized_config (self st)) as (_ & HS & HN & _ & HT & _).
      run. cbn [self acc sent].
      replace (equipmentURL (initialized (self st))) with (equipmentURL (self st))
        by (unfold equipmentURL; rewrite HS, HN; reflexivity).
      rewrite HU, HT, HL. reflexivity.
  - exists []. split; [|constructor]. rewrite app_nil_r.
    unfold Gather. unfold bind at 1. rewrite ensure_client_run.
    destruct (initialized_config (self st)) as (_ & HS & HN & _ & HT & _).
    run. cbn [self acc sent].
    replace (equipmentURL (initialized (self st))) with (equipmentURL (self st))
      by (unfold equipmentURL; rewrite HS, HN; reflexivity).
    rewrite HU. reflexivity.
Qed.

(** An unknown time zone: [LoadLocation] returns nil, and the cycle ends in
    the panic of [Time.In] before anything is sent or added. *)
Lemma Gather_unknown_zone (w : World) (st : State) (u : URL) :
  url_Parse (equipmentURL (self st)) = Some u ->
  GoTime.LoadLocation (zoneinfo w) (GoTime.loc (now w)) (TimeZone (self st)) = None ->
  Gather url_Parse URL_String w st
  = (Err (Panic "time: missing Location in call to Time.In"),
     {| self := initialized (self st); acc := acc st; sent := sent st |}).
Proof.
  intros HU HL. unfold Gather. unfold bind at 1. rewrite ensure_client_run.
  destruct (initialized_config (self st)) as (_ & HS & HN & _ & HT & _).
  run. cbn [self acc sent].
  replace (equipmentURL (initialized (self st))) with (equipmentURL (self st))
    by (unfold equipmentURL; rewrite HS, HN; reflexivity).
  rewrite HU, HT, HL. reflexivity.
Qed.

(** *** The outcome of a cycle *)

(** C1, as amended: when the response decodes to two samples of which the
    first has a date that parses and the second a date that does not, the
    cycle returns the parse error of the second date, and the point of the
    first sample has been added to the accumulator: one point, not none. *)
Theorem Gather_second_date_malformed (w : World) (st : State) (u : URL)
    (l : GoTime.Location) (resp : http_Response) (target : Equipment)
    (t1 t2 : telemetry) (d1 : GoTime.Time) (e : GoTime.ParseError) :
  url_Parse (equipmentURL (self st)) = Some u ->
  GoTime.LoadLocation (zoneinfo w) (GoTime.loc (now w)) (TimeZone (self st)) = Some l ->
  roundTrip w DefaultClient (URL_String (requestURL (initialized (self st)) w u l))
  = Ok resp ->
  StatusCode resp = StatusOK ->
  Decode (Body resp) = Ok target ->
  Telemetries (Data target) = [t1; t2] ->
  GoTime.ParseInLocation (Date t1) l = Ok d1 ->
  GoTime.ParseInLocation (Date t2) l = Err e ->
  fst (Gather url_Parse URL_String w st) = Err (Return (TimeParseFailed e)) /\
  acc (snd (Gather url_Parse URL_String w st))
  = acc st ++ [point_of (Name (self st)) (GoTime.Seconds (since w)) t1 d1].
Proof.
  intros HU HL HR HS HD HT H1 H2.
  rewrite (Gather_run w st u l HU HL). cbv zeta.
  rewrite HR, HS, HD, HT. cbn [negb Z.eqb StatusOK Pos.eqb].
  rewrite (gather_loop_cons_ok _ _ _ _ _ _ d1 H1).
  rewrite (gather_loop_cons_err _ _ _ _ _ _ e H2).
  cbn [fst snd self acc].
  destruct (initialized_config (self st)) as (HN & _). rewrite HN.
  split; reflexivity.
Qed.

(** C6: a response with a status code other than 200 ends the cycle with
    the error that carries the code received and the code 200; nothing is
    added to the accumulator, and the outcome is the same whatever the body
    of the response. *)
Theorem Gather_unexpected_status (w : World) (st : State) (u : URL)
    (l : GoTime.Location) (resp : http_Response) :
  url_Parse (equipmentURL (self st)) = Some u ->
  GoTime.LoadLocation (zoneinfo w) (GoTime.loc (now w)) (TimeZone (self st)) = Some l ->
  roundTrip w DefaultClient (URL_String (requestURL (initialized (self st)) w u l))
  = Ok resp ->
  StatusCode resp <> StatusOK ->
  let url := URL_String (requestURL (initialized (self st)) w u l) in
  fst (Gather url_Parse URL_String w st)
  = Err (Return (UnexpectedStatus url (StatusCode resp) 200)) /\
  acc (snd (Gather url_Parse URL_String w st)) = acc st /\
  forall b : body,
    Gather url_Parse URL_String
      (answering w {| StatusCode := StatusCode resp; Body := b |}) st
    = Gather url_Parse URL_String w st.
Proof.
  intros HU HL HR HS. cbv zeta.
  assert (HS' : negb (StatusCode resp =? StatusOK) = true)
    by (apply negb_true_iff, Z.eqb_neq, HS).
  rewrite (Gather_run w st u l HU HL). cbv zeta. rewrite HR, HS'.
  split; [reflexivity|]. split; [reflexivity|].
  intros b.
  rewrite (Gather_run (answering w _) st u l HU HL). cbv zeta.
  cbn [roundTrip answering StatusCode]. rewrite HS'. reflexivity.
Qed.

(** C7: when the response has status 200 and decodes, and the date of every
    sample parses, the cycle returns no error and adds one point per
    sample, in the order of the samples; each point has the name of the
    collector, the parsed date of its sample, the fifteen keys of
    [field_names] and no tags. *)
Theorem Gather_one_point_per_sample (w : World) (st : State) (u : URL)
    (l : GoTime.Location) (resp : http_Response) (target : Equipment)
    (dates : list GoTime.Time) :
  url_Parse (equipmentURL (self st)) = Some u ->
  GoTime.LoadLocation (zoneinfo w) (GoTime.loc (now w)) (TimeZone (self st)) = Some l ->
  roundTrip w DefaultClient (URL_String (requestURL (initialized (self st)) w u l))
  = Ok resp ->
  StatusCode resp = StatusOK ->
  Decode (Body resp) = Ok target ->
  Forall2 (fun t d => GoTime.ParseInLocation (Date t) l = Ok d)
    (Telemetries (Data target)) dates ->
  let points :=
    zip_with (point_of (Name (self st)) (GoTime.Seconds (since w)))
      (Telemetries (Data target)) dates in
  fst (Gather url_Parse URL_String w st) = Ok tt /\
  acc (snd (Gather url_Parse URL_String w st)) = acc st ++ points /\
  length points = length (Telemetries (Data target)) /\
  Forall (fun p => dom (fields p) = field_names /\ tags p = ∅) points.
Proof.
  intros HU HL HR HS HD HP. cbv zeta.
  rewrite (Gather_run w st u l HU HL). cbv zeta.
  rewrite HR, HS, HD. cbn [negb Z.eqb StatusOK Pos.eqb].
  rewrite (gather_loop_all_ok _ _ _ dates _ HP). cbn [fst snd self acc].
  destruct (initialized_config (self st)) as (HN & _). rewrite HN.
  split; [reflexivity|]. split; [reflexivity|]. split.
  - rewrite length_zip_with. apply Forall2_length in HP. lia.
  - clear. generalize (Telemetries (Data target)) as ts. revert dates.
    induction dates as [|d dates IH]; intros [|t ts]; cbn [zip_with];
      try constructor.
    + split; [apply dom_point_fields | reflexivity].
    + apply IH.
Qed.

(** C10, as amended: when the date of every sample parses, two responses
    of status 200 that decode to the same samples lead to the same outcome,
    whatever their counts; there is no error and the accumulator grows by
    the number of samples. *)
Theorem Gather_ignores_count (w : World) (st : State) (u : URL)
    (l : GoTime.Location) (b1 b2 : body) (target1 target2 : Equipment)
    (dates : list GoTime.Time) :
  url_Parse (equipmentURL (self st)) = Some u ->
  GoTime.LoadLocation (zoneinfo w) (GoTime.loc (now w)) (TimeZone (self st)) = Some l ->
  Decode b1 = Ok target1 ->
  Decode b2 = Ok target2 ->
  Telemetries (Data target1) = Telemetries (Data target2) ->
  Forall2 (fun t d => GoTime.ParseInLocation (Date t) l = Ok d)
    (Telemetries (Data target1)) dates ->
  let r1 := Gather url_Parse URL_String
              (answering w {| StatusCode := 200; Body := b1 |}) st in
  let r2 := Gather url_Parse URL_String
              (answering w {| StatusCode := 200; Body := b2 |}) st in
  r1 = r2 /\ fst r1 = Ok tt /\
  length (acc (snd r1))
  = (length (acc st) + length (Telemetries (Data target1)))%nat.
Proof.
  intros HU HL H1 H2 HT HP. cbv zeta.
  rewrite !(Gather_run (answering w _) st u l HU HL). cbv zeta.
  cbn [roundTrip answering StatusCode Body negb Z.eqb StatusOK Pos.eqb].
  rewrite H1, H2, <- HT. split; [reflexivity|].
  rewrite (gather_loop_all_ok _ _ _ dates _ HP). cbn [fst snd acc].
  split; [reflexivity|].
  rewrite length_app, length_zip_with. apply Forall2_length in HP. lia.
Qed.

(** *** Decoding of objects with absent keys *)

Lemma decode_members_error {T} (fs : list (string * decoder T))
    (members : list (string * json)) (t : T) (e : DecodeError) :
  decode_members fs members t = Err e ->
  exists key v dec t',
    In (key, v) members /\ find_field fs key = Some dec /\ dec v t' = Err e.
Proof.
  revert t. induction members as [|[key v] members IH]; intros t H.
  - discriminate H.
  - cbn [decode_members] in H.
    destruct (find_field fs key) as [dec|] eqn:F.
    + destruct (dec v t) as [t1|e1] eqn:D.
      * cbn [res_bind] in H. destruct (IH t1 H) as (k & v' & dec' & t' & Hin & Hf & Hd).
        exists k, v', dec', t'. split; [right; exact Hin | split; assumption].
      * cbn [res_bind] in H. injection H as <-.
        exists key, v, dec, t. split; [left; reflexivity | split; assumption].
    + cbn [res_bind] in H. destruct (IH t H) as (k & v' & dec' & t' & Hin & Hf & Hd).
      exists k, v', dec', t'. split; [right; exact Hin | split; assumption].
Qed.

Lemma decode_members_absent {T} (fs : list (string * decoder T))
    (members : list (string * json)) (t : T) :
  Forall (fun m => find_field fs (fst m) = None) members ->
  decode_members fs members t = Ok t.
Proof.
  induction 1 as [|[key v] members Hm _ IH]; [reflexivity|].
  cbn [decode_members]. cbn [fst] in Hm. rewrite Hm. exact IH.
Qed.

(** C9, as amended: decoding an object into a struct fails only on a member
    that is present: some member selects a field and its value cannot be
    stored in it. An object none of whose keys selects a field leaves the
    struct as it is. So the empty object decodes to the zero [Equipment],
    count 0 and no samples, and a cycle that receives it with status 200
    returns no error and adds no point. *)
Theorem Decode_absent_keys :
  (forall (T : Type) (ty : string) (fs : list (string * decoder T))
          (members : list (string * json)) (t : T) (e : DecodeError),
      decode_struct ty fs (JObject members) t = Err e ->
      exists key v dec t',
        In (key, v) members /\ find_field fs key = Some dec /\ dec v t' = Err e) /\
  Decode (Text (JObject [])) = Ok zero_Equipment /\
  Count (Data zero_Equipment) = 0 /\ Telemetries (Data zero_Equipment) = [] /\
  (forall (members : list (string * json)) (w : World) (st : State) (u : URL)
          (l : GoTime.Location) (resp : http_Response),
      Forall (fun m => find_field Equipment_fields (fst m) = None) members ->
      url_Parse (equipmentURL (self st)) = Some u ->
      GoTime.LoadLocation (zoneinfo w) (GoTime.loc (now w)) (TimeZone (self st))
      = Some l ->
      roundTrip w DefaultClient
        (URL_String (requestURL (initialized (self st)) w u l)) = Ok resp ->
      StatusCode resp = StatusOK ->
      Body resp = Text (JObject members) ->
      Decode (Body resp) = Ok zero_Equipment /\
      fst (Gather url_Parse URL_String w st) = Ok tt /\
      acc (snd (Gather url_Parse URL_String w st)) = acc st).
Proof.
  split; [|split; [|split; [|split]]].
  - intros T ty fs members t e H. apply (decode_members_error fs members t e H).
  - reflexivity.
  - reflexivity.
  - reflexivity.
  - intros members w st u l resp HM HU HL HR HS HB.
    assert (HD : Decode (Body resp) = Ok zero_Equipment).
    { rewrite HB. apply (decode_members_absent Equipment_fields members _ HM). }
    split; [exact HD|].
    rewrite (Gather_run w st u l HU HL). cbv zeta.
    rewrite HR, HS, HD. split; reflexivity.
Qed.

End WithURL.

(** *** The sample collector on the sample hosts *)
Import Samples.

Lemma Gather_second_date_malformed_witness :
  fst (Gather_plain (host second_date_malformed) (fresh (configured "MST")))
  = Err (Return (TimeParseFailed GoTime.errBad)) /\
  length (acc (snd (Gather_plain (host second_date_malformed)
                      (fresh (configured "MST")))))
  = 1%nat.
Proof.
  destruct (Gather_second_date_malformed plain_url_Parse plain_URL_String
              (host second_date_malformed) (fresh (configured "MST"))
              parsed_address MST second_date_malformed
              (decoded (Body second_date_malformed))
              (decoded_sample (Body second_date_malformed) 0)
              (decoded_sample (Body second_date_malformed) 1)
              {| GoTime.unix := 1704092400; GoTime.nsec := 0; GoTime.loc := MST |}
              GoTime.errBad)
    as [H1 H2]; try (vm_compute; reflexivity).
  split; [exact H1|]. unfold Gather_plain. rewrite H2. reflexivity.
Defined.

(** C1 as stated fails. The response holds two samples; the date of the
    first parses and the date of the second does not. The cycle returns the
    parse error, and the accumulator has received one point. *)
Lemma Gather_partial_emission :
  let r := Gather_plain (host second_date_malformed) (fresh (configured "MST")) in
  length (Telemetries (Data (decoded (Body second_date_malformed)))) = 2%nat /\
  GoTime.ParseInLocation "2024-01-01 00:00:00" MST
  = Ok {| GoTime.unix := 1704092400; GoTime.nsec := 0; GoTime.loc := MST |} /\
  GoTime.ParseInLocation "2024-01-01T00:15:00Z" MST = Err GoTime.errBad /\
  fst r = Err (Return (TimeParseFailed GoTime.errBad)) /\
  map (fun p => (measurement p, timestamp p)) (acc (snd r))
  = [("solaredge"%string,
      {| GoTime.unix := 1704092400; GoTime.nsec := 0; GoTime.loc := MST |})] /\
  acc (snd r) <> [].
Proof.
  cbv zeta. repeat split; try (vm_compute; reflexivity).
  intros H. apply (f_equal (@length Point)) in H. vm_compute in H. discriminate H.
Qed.

(** C2 fails on the code. With a time zone that the host does not know,
    [LoadLocation] returns nil and the cycle ends in the panic of [Time.In];
    it falls back to no zone, sends no request and adds no point. *)
Theorem Gather_unknown_zone_panics :
  let r := Gather_plain (host empty_object) (fresh (configured "Mars/Olympus")) in
  GoTime.LoadLocation host_zoneinfo (GoTime.loc noon) "Mars/Olympus" = None /\
  fst r = Err (Panic "time: missing Location in call to Time.In") /\
  sent (snd r) = [] /\ acc (snd r) = [].
Proof. cbv zeta. repeat split; vm_compute; reflexivity. Qed.

(** C3 fails on the code. The cycle makes the client with both timeouts at
    the five seconds of [ResponseTimeout], and then sends its request through
    [DefaultClient], which has no timeout. On a host whose server takes a
    minute the cycle gets the response, where a request through the client
    of the collector ends in the timeout error. *)
Theorem Gather_request_bypasses_client :
  let r := Gather_plain (slow_host empty_object) (fresh (configured "MST")) in
  HTTPClient (client (self (snd r)))
  = Some {| Transport := Some {| ResponseHeaderTimeout := 5 * GoTime.Second |};
            Timeout := 5 * GoTime.Second |} /\
  map fst (sent (snd r)) = [DefaultClient] /\
  Timeout DefaultClient = 0 /\
  fst r = Ok tt /\
  forall url,
    fst (MakeRequest (slow_host empty_object) (client (self (snd r))) url (snd r))
    = Ok (Err "net/http: request canceled (Client.Timeout exceeded while awaiting headers)"%string).
Proof.
  cbv zeta. repeat split; try (vm_compute; reflexivity).
Qed.

Lemma Gather_request_window_witness :
  sent (snd (Gather_plain (host empty_object) (fresh (configured "MST"))))
  = [(DefaultClient,
      "https://monitoringapi.solaredge.com/equipment/123456/12345678-00/data?api_key=L4QLVQ1LOKCQX2193VSEICXW61NP6B1O&endTime=2024-01-07+05%3A00%3A00&startTime=2024-01-01+05%3A00%3A00"%string)].
Proof.
  destruct (Gather_request_window plain_url_Parse plain_URL_String
              (host empty_object) (fresh (configured "MST")) parsed_address MST)
    as (H & _).
  - vm_compute. reflexivity.
  - vm_compute. reflexivity.
  - cbn. lia.
  - unfold Gather_plain. rewrite H. vm_compute. reflexivity.
Defined.

Lemma Gather_unexpected_status_witness :
  fst (Gather_plain (host service_unavailable) (fresh (configured "MST")))
  = Err (Return (UnexpectedStatus
      "https://monitoringapi.solaredge.com/equipment/123456/12345678-00/data?api_key=L4QLVQ1LOKCQX2193VSEICXW61NP6B1O&endTime=2024-01-07+05%3A00%3A00&startTime=2024-01-01+05%3A00%3A00"
      503 200)) /\
  acc (snd (Gather_plain (host service_unavailable) (fresh (configured "MST")))) = [].
Proof.
  destruct (Gather_unexpected_status plain_url_Parse plain_URL_String
              (host service_unavailable) (fresh (configured "MST"))
              parsed_address MST service_unavailable)
    as (H1 & H2 & _).
  - vm_compute. reflexivity.
  - vm_compute. reflexivity.
  - vm_compute. reflexivity.
  - vm_compute. discriminate.
  - unfold Gather_plain. rewrite H1, H2. split; vm_compute; reflexivity.
Defined.

Lemma Gather_one_point_per_sample_witness :
  fst (Gather_plain (host count_five_two_samples) (fresh (configured "Europe/London")))
  = Ok tt /\
  map (fun p => GoTime.unix (timestamp p))
    (acc (snd (Gather_plain (host count_five_two_samples)
                 (fresh (configured "Europe/London")))))
  = [1704067200; 1704068100].
Proof.
  destruct (Gather_one_point_per_sample plain_url_Parse plain_URL_String
              (host count_five_two_samples) (fresh (configured "Europe/London"))
              parsed_address London count_five_two_samples
              (decoded (Body count_five_two_samples))
              [ {| GoTime.unix := 1704067200; GoTime.nsec := 0; GoTime.loc := London |};
                {| GoTime.unix := 1704068100; GoTime.nsec := 0; GoTime.loc := London |} ])
    as (H1 & H2 & _).
  - vm_compute. reflexivity.
  - vm_compute. reflexivity.
  - vm_compute. reflexivity.
  - vm_compute. reflexivity.
  - vm_compute. reflexivity.
  - repeat constructor.
  - unfold Gather_plain. rewrite H1, H2. split; reflexivity.
Defined.

Lemma Gather_ignores_count_witness :
  Gather_plain (answering (host empty_object) count_five_two_samples)
    (fresh (configured "MST"))
  = Gather_plain
      (answering (host empty_object)
         {| StatusCode := 200;
            Body := telemetries_body "2"
                      [ sample "2024-01-01 00:00:00"; sample "2024-01-01 00:15:00" ] |})
      (fresh (configured "MST")) /\
  length (acc (snd (Gather_plain (answering (host empty_object) count_five_two_samples)
                      (fresh (configured "MST")))))
  = 2%nat.
Proof.
  destruct (Gather_ignores_count plain_url_Parse plain_URL_String
              (host empty_object) (fresh (configured "MST")) parsed_address MST
              (Body count_five_two_samples)
              (telemetries_body "2"
                 [ sample "2024-01-01 00:00:00"; sample "2024-01-01 00:15:00" ])
              (decoded (Body count_five_two_samples))
              (decoded (telemetries_body "2"
                 [ sample "2024-01-01 00:00:00"; sample "2024-01-01 00:15:00" ]))
              [ {| GoTime.unix := 1704092400; GoTime.nsec := 0; GoTime.loc := MST |};
                {| GoTime.unix := 1704093300; GoTime.nsec := 0; GoTime.loc := MST |} ])
    as (H1 & _ & H3).
  - vm_compute. reflexivity.
  - vm_compute. reflexivity.
  - vm_compute. reflexivity.
  - vm_compute. reflexivity.
  - vm_compute. reflexivity.
  - repeat constructor.
  - split; [exact H1 | exact H3].
Defined.

(** C9 as stated fails. The body is an object, well formed, whose member
    "data" is the number 5; a number cannot be stored in a struct, decoding
    fails and the cycle returns the error. *)
Lemma Decode_ill_typed_member :
  Body data_is_a_number = Text (JObject [ ("data"%string, JNumber "5") ]) /\
  Decode (Body data_is_a_number)
  = Err (TypeError {| Value := "number"; GoType := "struct" |}) /\
  fst (Gather_plain (host data_is_a_number) (fresh (configured "MST")))
  = Err (Return (DecodeFailed (TypeError {| Value := "number"; GoType := "struct" |}))).
Proof. repeat split; vm_compute; reflexivity. Qed.

(** C10 as stated fails. The response decodes to one sample, whose date is
    not in the layout; the cycle returns the parse error and has added no
    point, one less than there are samples. *)
Lemma Gather_fewer_points_than_samples :
  let r := Gather_plain (host one_date_malformed) (fresh (configured "MST")) in
  length (Telemetries (Data (decoded (Body one_date_malformed)))) = 1%nat /\
  fst r = Err (Return (TimeParseFailed GoTime.errAtoi)) /\
  length (acc (snd r)) = 0%nat.
Proof. cbv zeta. repeat split; vm_compute; reflexivity. Qed.

Lemma Decode_absent_keys_witness :
  Decode (Body no_expected_key) = Ok zero_Equipment /\
  fst (Gather_plain (host no_expected_key) (fresh (configured "MST"))) = Ok tt /\
  acc (snd (Gather_plain (host no_expected_key) (fresh (configured "MST")))) = [].
Proof.
  destruct (Decode_absent_keys plain_url_Parse plain_URL_String)
    as (_ & _ & _ & _ & H).
  apply (H [ ("version"%string, JString "1.0"); ("errors"%string, JArray []) ]
           (host no_expected_key) (fresh (configured "MST")) parsed_address MST
           no_expected_key).
  - repeat constructor.
  - vm_compute. reflexivity.
  - vm_compute. reflexivity.
  - vm_compute. reflexivity.
  - vm_compute. reflexivity.
  - vm_compute. reflexivity.
Defined.

End SolarEdgeFacts.


(** ** The calendar in the other direction, and the ranges of the parser *)
Module GoTimeCalendar.
Import GoTime GoTimeFacts.

Ltac days_table :=
  repeat match goal with
  | |- context [daysBefore_at ?x] =>
      let v := eval vm_compute in (daysBefore_at x) in
      change (daysBefore_at x) with v
  | H : context [daysBefore_at ?x] |- _ =>
      let v := eval vm_compute in (daysBefore_at x) in
      change (daysBefore_at x) with v in H
  end;
  cbn [Z.eqb Z.geb Z.compare Pos.compare Pos.compare_cont Pos.eqb andb orb] in *.

Lemma daysSinceEpoch_closed (y : Z) :
  daysSinceEpoch y = 365 * (y - 1) + (y - 1) / 4 - (y - 1) / 100 + (y - 1) / 400.
Proof.
  unfold daysSinceEpoch, daysPer400Years, daysPer100Years, daysPer4Years.
  Z.to_euclidean_division_equations; lia.
Qed.

Lemma daysSinceEpoch_succ (y : Z) :
  daysSinceEpoch (y + 1) = daysSinceEpoch y + 365 + (if isLeap y then 1 else 0).
Proof.
  rewrite !daysSinceEpoch_closed. unfold isLeap.
  replace (y + 1 - 1) with y by lia.
  destruct (Z.rem y 4 =? 0) eqn:E4; destruct (Z.rem y 100 =? 0) eqn:E100;
    destruct (Z.rem y 400 =? 0) eqn:E400; cbn [andb orb negb];
    rewrite ?Z.eqb_eq, ?Z.eqb_neq in *;
    Z.to_euclidean_division_equations; lia.
Qed.

Lemma daysSinceEpoch_mono (y1 y2 : Z) :
  y1 <= y2 -> daysSinceEpoch y1 <= daysSinceEpoch y2.
Proof.
  intros H. rewrite !daysSinceEpoch_closed.
  Z.to_euclidean_division_equations; lia.
Qed.

(** A day of a year is found again by [absYearDay]. *)
Lemma absYearDay_inv (y yday : Z) :
  0 <= yday < 365 + (if isLeap y then 1 else 0) ->
  absYearDay (daysSinceEpoch y + yday) = (y, yday).
Proof.
  intros H. pose proof (absYearDay_spec (daysSinceEpoch y + yday)) as HS.
  destruct (absYearDay (daysSinceEpoch y + yday)) as [y' d']. destruct HS as [HE HR].
  assert (y' = y).
  { destruct (Z.lt_trichotomy y' y) as [Hlt | [Heq | Hgt]]; [|exact Heq|].
    - pose proof (daysSinceEpoch_succ y'). pose proof (daysSinceEpoch_mono (y' + 1) y).
      lia.
    - pose proof (daysSinceEpoch_succ y). pose proof (daysSinceEpoch_mono (y + 1) y').
      lia. }
  subst y'. f_equal. lia.
Qed.

Lemma month_cases (m : Z) :
  1 <= m <= 12 ->
  m = 1 \/ m = 2 \/ m = 3 \/ m = 4 \/ m = 5 \/ m = 6 \/ m = 7 \/ m = 8 \/ m = 9
  \/ m = 10 \/ m = 11 \/ m = 12.
Proof. lia. Qed.

Lemma daysIn_le_31 (m y d : Z) : 1 <= m <= 12 -> d <= daysIn m y -> d <= 31.
Proof.
  intros Hm Hd. unfold daysIn in Hd. apply month_cases in Hm.
  destruct (isLeap y);
    repeat (destruct Hm as [Hm|Hm]; [subst m; days_table; lia|]);
    subst m; days_table; lia.
Qed.

(** A day of a month is found again by [monthDay]. *)
Lemma monthDay_inv (leap : bool) (m d : Z) :
  1 <= m <= 12 ->
  1 <= d <= (if (m =? 2) && leap then 29 else daysBefore_at m - daysBefore_at (m - 1)) ->
  monthDay leap (daysBefore_at (m - 1) + (if leap && (m >=? 3) then 1 else 0) + (d - 1))
  = (m, d).
Proof.
  intros Hm Hd.
  set (yday := daysBefore_at (m - 1) + (if leap && (m >=? 3) then 1 else 0) + (d - 1)).
  assert (Hy : 0 <= yday < 365 + (if leap then 1 else 0)).
  { subst yday. apply month_cases in Hm.
    destruct leap;
      repeat (destruct Hm as [Hm|Hm]; [subst m; days_table; lia|]);
      subst m; days_table; lia. }
  pose proof (monthDay_spec leap yday Hy) as HS.
  destruct (monthDay leap yday) as [m' d']. destruct HS as (Hm' & Hd' & _ & HE).
  subst yday. apply month_cases in Hm. apply month_cases in Hm'.
  assert (m' = m /\ d' = d) as [-> ->]; [|reflexivity].
  destruct leap;
    repeat (destruct Hm as [Hm|Hm];
            [subst m;
             repeat (destruct Hm' as [Hm'|Hm']; [subst m'; days_table; lia|]);
             subst m'; days_table; lia|]);
    subst m;
    repeat (destruct Hm' as [Hm'|Hm']; [subst m'; days_table; lia|]);
    subst m'; days_table; lia.
Qed.

Lemma absDate_inv (y m d : Z) :
  1 <= m <= 12 -> 1 <= d <= daysIn m y ->
  absDate (daysSinceEpoch y + daysBefore_at (m - 1)
           + (if isLeap y && (m >=? 3) then 1 else 0) + (d - 1))
  = (y, m, d).
Proof.
  intros Hm Hd. unfold daysIn in Hd. unfold absDate.
  replace (daysSinceEpoch y + daysBefore_at (m - 1)
           + (if isLeap y && (m >=? 3) then 1 else 0) + (d - 1))
    with (daysSinceEpoch y
          + (daysBefore_at (m - 1) + (if isLeap y && (m >=? 3) then 1 else 0) + (d - 1)))
    by lia.
  rewrite absYearDay_inv.
  - rewrite monthDay_inv by assumption. reflexivity.
  - pose proof (month_cases m Hm) as Hc.
    destruct (isLeap y);
      repeat (destruct Hc as [Hc|Hc]; [subst m; days_table; lia|]);
      subst m; days_table; lia.
Qed.

(** The instant that [Date] gives in a location without transitions shows
    the date and the clock it was given. *)
Lemma Date_fixed (y m d h mi s : Z) (l : Location) :
  tx l = [] ->
  1 <= m <= 12 -> 1 <= d <= daysIn m y ->
  0 <= h < 24 -> 0 <= mi < 60 -> 0 <= s < 60 ->
  Date_of (Date y m d h mi s 0 l) = (y, m, d) /\
  Clock_of (Date y m d h mi s 0 l) = (h, mi, s).
Proof.
  intros Hl Hm Hd Hh Hmi Hs.
  set (days := daysSinceEpoch y + daysBefore_at (m - 1)
               + (if isLeap y && (m >=? 3) then 1 else 0) + (d - 1)).
  assert (HA : abs (Date y m d h mi s 0 l)
               = days * secondsPerDay + (h * 3600 + mi * 60 + s)).
  { unfold Date, dateAbs.
    rewrite (norm_id y (m - 1) 12) by lia.
    rewrite (norm_id s 0 1000000000) by lia.
    rewrite (norm_id mi s 60), (norm_id h mi 60), (norm_id d h 24) by lia.
    replace (m - 1 + 1) with m by lia.
    unfold abs, offset_at, lookup. rewrite Hl. cbn [lookup_tx fst].
    cbn [unix loc tx].
    destruct (offset0 l =? 0) eqn:E0;
      [apply Z.eqb_eq in E0|]; cbn [unix loc]; rewrite ?Hl; cbn [lookup_tx fst];
      subst days; destruct (isLeap y && (m >=? 3));
      try destruct (_ || _); cbn [unix loc]; rewrite ?Hl; cbn [lookup_tx fst]; lia. }
  unfold Date_of, Clock_of. rewrite HA.
  replace ((days * secondsPerDay + (h * 3600 + mi * 60 + s)) / secondsPerDay)
    with days by (unfold secondsPerDay; Z.to_euclidean_division_equations; lia).
  replace ((days * secondsPerDay + (h * 3600 + mi * 60 + s)) mod secondsPerDay)
    with (h * 3600 + mi * 60 + s)
    by (unfold secondsPerDay; Z.to_euclidean_division_equations; lia).
  split; [apply absDate_inv; assumption|].
  replace ((h * 3600 + mi * 60 + s) / 3600) with h
    by (Z.to_euclidean_division_equations; lia).
  replace (h * 3600 + mi * 60 + s - h * 3600) with (mi * 60 + s) by lia.
  replace ((mi * 60 + s) / 60) with mi by (Z.to_euclidean_division_equations; lia).
  repeat f_equal. lia.
Qed.

(** X1: on a text of the shape of the layout, four digits for the year and
    two for every other field, [ParseInLocation] tests the fields in this
    order: the month (1 to 12), the hour (below 24), the minute and the
    second (below 60), and last the day against the length of the month in
    that year. It returns the range error of the first field that fails, and
    the instant of [Date] when none does. *)
Theorem ParseInLocation_field_ranges (year month day hour min sec : Z) (l : Location) :
  0 <= year < 10000 -> 0 <= month < 100 -> 0 <= day < 100 ->
  0 <= hour < 100 -> 0 <= min < 100 -> 0 <= sec < 100 ->
  ParseInLocation
    (four year +:+ "-" +:+ two month +:+ "-" +:+ two day +:+ " " +:+ two hour
     +:+ ":" +:+ two min +:+ ":" +:+ two sec) l
  = if (month <=? 0) || (12 <? month) then Err (errRange "month")
    else if 24 <=? hour then Err (errRange "hour")
    else if 60 <=? min then Err (errRange "minute")
    else if 60 <=? sec then Err (errRange "second")
    else if (day <? 1) || (day >? daysIn month year) then Err (errRange "day")
    else Ok (Date year month day hour min sec 0 l).
Proof.
  intros Hy Hmo Hd Hh Hmi Hs.
  unfold ParseInLocation.
  rewrite parse_four by assumption. cbn [res_bind].
  rewrite append_cons, append_nil, skip_byte by reflexivity. cbn [res_bind].
  rewrite parse_two by lia. cbn [res_bind].
  destruct ((month <=? 0) || (12 <? month)); [reflexivity|].
  rewrite append_cons, append_nil, skip_byte by reflexivity. cbn [res_bind].
  rewrite parse_two by lia. cbn [res_bind].
  rewrite append_cons, append_nil, skip_space_two by lia. cbn [res_bind].
  rewrite parse_two by lia. cbn [res_bind].
  replace (hour <? 0) with false by lia. cbn [orb].
  destruct (24 <=? hour); [reflexivity|].
  rewrite append_cons, append_nil, skip_byte by reflexivity. cbn [res_bind].
  rewrite parse_two by lia. cbn [res_bind].
  replace (min <? 0) with false by lia. cbn [orb].
  destruct (60 <=? min); [reflexivity|].
  rewrite append_cons, append_nil, skip_byte by reflexivity. cbn [res_bind].
  rewrite <- (append_empty_r (two sec)).
  rewrite parse_two by lia. cbn [res_bind].
  replace (sec <? 0) with false by lia. cbn [orb].
  destruct (60 <=? sec); [reflexivity|].
  cbn [String.length Nat.leb andb res_bind Nat.ltb].
  destruct ((day <? 1) || (day >? daysIn month year)); reflexivity.
Qed.

Lemma ParseInLocation_field_ranges_witness :
  ParseInLocation "2023-02-29 12:00:00" UTC = Err (errRange "day").
Proof.
  apply (ParseInLocation_field_ranges 2023 2 29 12 0 0 UTC); lia.
Defined.

(** X2: in a location without transitions, the text of a date that exists
    (years 0 to 9999) and of a time of day, written in the layout, is
    accepted by [ParseInLocation], and [Format] writes the instant it
    returns as the same text. *)
Theorem ParseInLocation_then_Format (year month day hour min sec : Z) (l : Location) :
  tx l = [] ->
  0 <= year < 10000 -> 1 <= month <= 12 -> 1 <= day <= daysIn month year ->
  0 <= hour < 24 -> 0 <= min < 60 -> 0 <= sec < 60 ->
  let text := four year +:+ "-" +:+ two month +:+ "-" +:+ two day +:+ " "
              +:+ two hour +:+ ":" +:+ two min +:+ ":" +:+ two sec in
  exists t, ParseInLocation text l = Ok t /\ Format t = text.
Proof.
  intros Hl Hy Hm Hd Hh Hmi Hs text.
  pose proof (daysIn_le_31 month year day Hm (proj2 Hd)) as Hd31.
  exists (Date year month day hour min sec 0 l). split.
  - apply parse_layout; (assumption || lia).
  - destruct (Date_fixed year month day hour min sec l Hl Hm Hd Hh Hmi Hs) as [HD HC].
    unfold Format. rewrite HD, HC.
    rewrite appendInt_four by lia. rewrite !appendInt_two by lia. reflexivity.
Qed.

Lemma ParseInLocation_then_Format_witness :
  exists t, ParseInLocation "2024-02-29 23:59:59" Samples.MST = Ok t /\
            Format t = "2024-02-29 23:59:59"%string.
Proof.
  apply (ParseInLocation_then_Format 2024 2 29 23 59 59 Samples.MST);
    try reflexivity; try lia.
  change (1 <= 29 <= 29). lia.
Defined.

(** X22: text after the seconds is refused. When the fields up to the
    seconds are in the ranges of the parser and the text goes on with
    anything but a fractional second (a period or comma and a digit),
    [ParseInLocation] returns the error "extra text" with the rest, whether
    the day exists in the month or not. *)
Theorem ParseInLocation_extra_text (year month day hour min sec : Z) (extra : string)
    (l : Location) :
  0 <= year < 10000 -> 1 <= month <= 12 -> 0 <= day < 100 ->
  0 <= hour < 24 -> 0 <= min < 60 -> 0 <= sec < 60 ->
  extra <> EmptyString ->
  (2 <=? String.length extra)%nat && commaOrPeriod (byte_at extra 0)
    && isDigit extra 1 = false ->
  ParseInLocation
    (four year +:+ "-" +:+ two month +:+ "-" +:+ two day +:+ " " +:+ two hour
     +:+ ":" +:+ two min +:+ ":" +:+ two sec +:+ extra) l
  = Err (errExtra extra).
Proof.
  intros Hy Hmo Hd Hh Hmi Hs Hne Hfrac.
  unfold ParseInLocation.
  rewrite parse_four by assumption. cbn [res_bind].
  rewrite append_cons, append_nil, skip_byte by reflexivity. cbn [res_bind].
  rewrite parse_two by lia. cbn [res_bind].
  replace ((month <=? 0) || (12 <? month)) with false by lia.
  rewrite append_cons, append_nil, skip_byte by reflexivity. cbn [res_bind].
  rewrite parse_two by lia. cbn [res_bind].
  rewrite append_cons, append_nil, skip_space_two by lia. cbn [res_bind].
  rewrite parse_two by lia. cbn [res_bind].
  replace ((hour <? 0) || (24 <=? hour)) with false by lia.
  rewrite append_cons, append_nil, skip_byte by reflexivity. cbn [res_bind].
  rewrite parse_two by lia. cbn [res_bind].
  replace ((min <? 0) || (60 <=? min)) with false by lia.
  rewrite append_cons, append_nil, skip_byte by reflexivity. cbn [res_bind].
  rewrite parse_two by lia. cbn [res_bind].
  replace ((sec <? 0) || (60 <=? sec)) with false by lia.
  rewrite Hfrac. cbn [res_bind].
  destruct extra as [|c extra]; [contradiction|]. reflexivity.
Qed.

Lemma ParseInLocation_extra_text_witness :
  ParseInLocation "2024-01-01 00:15:00Z" UTC = Err (errExtra "Z").
Proof.
  apply (ParseInLocation_extra_text 2024 1 1 0 15 0 "Z" UTC);
    try lia; [discriminate | reflexivity].
Defined.

End GoTimeCalendar.

(** ** Decoding of the response *)
Module GoJSONFacts.
Import Float64 GoJSON.

(** *** Selection of a field by a key *)

Lemma find_field_In {T} (fs : list (string * decoder T)) (key : string)
    (dec : decoder T) :
  find_field fs key = Some dec ->
  exists name, In (name, dec) fs /\ equalFold name key = true.
Proof.
  unfold find_field. intros H.
  destruct (List.find (fun f => String.eqb (fst f) key) fs) as [[n d]|] eqn:E1.
  - injection H as <-. apply List.find_some in E1. destruct E1 as [Hin Heq].
    cbn [fst] in Heq. apply String.eqb_eq in Heq. subst n.
    exists key. split; [exact Hin|]. unfold equalFold. apply String.eqb_refl.
  - destruct (List.find (fun f => equalFold (fst f) key) fs) as [[n d]|] eqn:E2;
      [|discriminate H].
    injection H as <-. apply List.find_some in E2. destruct E2 as [Hin Heq].
    exists n. split; assumption.
Qed.

(** When no two fields have names equal under folding, the field a key
    selects is the one whose name equals the key under folding. *)
Lemma find_field_fold {T} (fs : list (string * decoder T)) (key : string) :
  NoDup (map (fun f => foldName (fst f)) fs) ->
  find_field fs key
  = match List.find (fun f => equalFold (fst f) key) fs with
    | Some f => Some (snd f)
    | None => None
    end.
Proof.
  intros ND. unfold find_field.
  destruct (List.find (fun f => String.eqb (fst f) key) fs) as [[n d]|] eqn:E1;
    [|reflexivity].
  apply List.find_some in E1. destruct E1 as [Hin Heq]. cbn [fst] in Heq.
  apply String.eqb_eq in Heq. subst n.
  induction fs as [|[n' d'] fs IH]; [destruct Hin|].
  cbn [map fst] in ND. apply NoDup_cons in ND. destruct ND as [Hnot ND].
  cbn [List.find fst]. destruct (equalFold n' key) eqn:EF.
  - destruct Hin as [Hin|Hin]; [injection Hin as -> ->; reflexivity|].
    exfalso. apply Hnot. unfold equalFold in EF. apply String.eqb_eq in EF.
    rewrite EF. apply list_elem_of_In. apply (in_map (fun f => foldName (fst f)) fs (key, d) Hin).
  - destruct Hin as [Hin|Hin].
    + injection Hin as -> ->. unfold equalFold in EF. rewrite String.eqb_refl in EF.
      discriminate EF.
    + apply (IH ND Hin).
Qed.

Lemma find_field_equalFold {T} (fs : list (string * decoder T)) (key key' : string) :
  NoDup (map (fun f => foldName (fst f)) fs) ->
  equalFold key key' = true ->
  find_field fs key = find_field fs key'.
Proof.
  intros ND HE. rewrite !find_field_fold by exact ND.
  unfold equalFold in *. apply String.eqb_eq in HE. rewrite HE. reflexivity.
Qed.

Lemma NoDup_l1data_fields : NoDup (map (fun f => foldName (fst f)) l1data_fields).
Proof. apply (bool_decide_unpack _). vm_compute. reflexivity. Qed.
Lemma NoDup_telemetry_fields : NoDup (map (fun f => foldName (fst f)) telemetry_fields).
Proof. apply (bool_decide_unpack _). vm_compute. reflexivity. Qed.
Lemma NoDup_data_fields : NoDup (map (fun f => foldName (fst f)) data_fields).
Proof. apply (bool_decide_unpack _). vm_compute. reflexivity. Qed.
Lemma NoDup_Equipment_fields : NoDup (map (fun f => foldName (fst f)) Equipment_fields).
Proof. apply (bool_decide_unpack _). vm_compute. reflexivity. Qed.


Lemma decode_members_equalFold {T} (fs : list (string * decoder T))
    (members members' : list (string * json)) (t : T) :
  NoDup (map (fun f => foldName (fst f)) fs) ->
  Forall2 (fun m m' => equalFold (fst m) (fst m') = true /\ snd m = snd m')
    members members' ->
  decode_members fs members t = decode_members fs members' t.
Proof.
  intros ND H. revert t.
  induction H as [|[k v] [k' v'] ms ms' [Hk Hv] _ IH]; intros t; [reflexivity|].
  cbn [fst snd] in Hk, Hv. subst v'. cbn [decode_members].
  rewrite (find_field_equalFold fs k k' ND Hk).
  destruct (find_field fs k') as [dec|]; cbn [res_bind]; [|apply IH].
  destruct (dec v t) as [t1|e]; cbn [res_bind]; [apply IH | reflexivity].
Qed.

(** X3: the keys of the response are matched to the fields of [Equipment]
    without regard to case. Two lists of members whose keys are equal under
    folding, pair by pair, and whose values are the same, decode to the same
    result, at each of the four struct types; no two fields of a type have
    names that fold to the same text. *)
Theorem keys_match_under_folding (members members' : list (string * json)) :
  Forall2 (fun m m' => equalFold (fst m) (fst m') = true /\ snd m = snd m')
    members members' ->
  (forall t, decode_Equipment (JObject members) t = decode_Equipment (JObject members') t) /\
  (forall t, decode_data (JObject members) t = decode_data (JObject members') t) /\
  (forall t, decode_telemetry (JObject members) t = decode_telemetry (JObject members') t) /\
  (forall t, decode_l1data (JObject members) t = decode_l1data (JObject members') t).
Proof.
  intros H. repeat split; intros t; cbn [decode_Equipment decode_data
    decode_telemetry decode_l1data decode_struct];
    apply decode_members_equalFold; try exact H.
  - apply NoDup_Equipment_fields.
  - apply NoDup_data_fields.
  - apply NoDup_telemetry_fields.
  - apply NoDup_l1data_fields.
Qed.

(** X4: a member whose key selects no field is skipped: decoding a struct
    from an object gives the same result, or the same error, as decoding it
    from the members that select a field. *)
Theorem unknown_keys_are_skipped {T} (ty : string) (fs : list (string * decoder T))
    (members : list (string * json)) (t : T) :
  decode_struct ty fs
    (JObject (List.filter
                (fun m => match find_field fs (fst m) with
                          | Some _ => true
                          | None => false
                          end) members)) t
  = decode_struct ty fs (JObject members) t.
Proof.
  cbn [decode_struct]. revert t.
  induction members as [|[k v] ms IH]; intros t; [reflexivity|].
  cbn [List.filter fst decode_members].
  destruct (find_field fs k) as [dec|] eqn:F.
  - cbn [decode_members]. rewrite F.
    destruct (dec v t) as [t1|e]; cbn [res_bind]; [apply IH | reflexivity].
  - cbn [res_bind]. apply IH.
Qed.

(** *** Members that are null *)

Lemma l1data_field_null (name : string) (dec : decoder l1data) (t : l1data) :
  In (name, dec) l1data_fields -> dec JNull t = Ok t.
Proof.
  intros Hin. unfold l1data_fields in Hin. cbn [In] in Hin.
  repeat (destruct Hin as [Hin|Hin];
          [injection Hin as <- <-; destruct t; reflexivity|]).
  destruct Hin.
Qed.

Lemma telemetry_field_null (name : string) (dec : decoder telemetry) (t : telemetry) :
  In (name, dec) telemetry_fields -> dec JNull t = Ok t.
Proof.
  intros Hin. unfold telemetry_fields in Hin. cbn [In] in Hin.
  repeat (destruct Hin as [Hin|Hin];
          [injection Hin as <- <-; destruct t; reflexivity|]).
  destruct Hin.
Qed.

Lemma decode_members_null {T} (fs : list (string * decoder T))
    (members : list (string * json)) (t : T) :
  (forall name dec t, In (name, dec) fs -> dec JNull t = Ok t) ->
  decode_members fs
    (List.filter (fun m => match snd m with JNull => false | _ => true end) members) t
  = decode_members fs members t.
Proof.
  intros Hnull. revert t. induction members as [|[k v] ms IH]; intros t; [reflexivity|].
  cbn [List.filter snd].
  assert (Hkeep : decode_members fs
                    ((k, v) :: List.filter
                       (fun m => match snd m with JNull => false | _ => true end) ms) t
                  = decode_members fs ((k, v) :: ms) t).
  { cbn [decode_members].
    destruct (find_field fs k) as [dec|]; cbn [res_bind]; [|apply IH].
    destruct (dec v t) as [t1|e]; cbn [res_bind]; [apply IH | reflexivity]. }
  destruct v; try exact Hkeep.
  cbn [decode_members]. destruct (find_field fs k) as [dec|] eqn:F.
  - destruct (find_field_In _ _ _ F) as (name & Hin & _).
    rewrite (Hnull name dec t Hin). cbn [res_bind]. apply IH.
  - cbn [res_bind]. apply IH.
Qed.

(** X5: in a sample and in its "L1Data" object a member whose value is
    null is skipped: the field keeps the value it has, and decoding gives what
    it gives on the other members alone. *)
Theorem null_members_are_skipped (members : list (string * json)) :
  let present := List.filter (fun m => match snd m with JNull => false | _ => true end)
                   members in
  (forall t, decode_telemetry (JObject present) t = decode_telemetry (JObject members) t) /\
  (forall t, decode_l1data (JObject present) t = decode_l1data (JObject members) t).
Proof.
  cbv zeta. split; intros t; cbn [decode_telemetry decode_l1data decode_struct];
    apply decode_members_null.
  - intros name dec t'. apply telemetry_field_null.
  - intros name dec t'. apply l1data_field_null.
Qed.

(** *** Samples without a date *)

Lemma telemetry_field_keeps_Date (name : string) (dec : decoder telemetry)
    (v : json) (t t' : telemetry) :
  In (name, dec) telemetry_fields ->
  name <> "date"%string ->
  dec v t = Ok t' -> Date t' = Date t.
Proof.
  intros Hin Hne H. unfold telemetry_fields in Hin. cbn [In] in Hin.
  repeat (destruct Hin as [Hin|Hin];
          [ injection Hin as <- <-;
            try (exfalso; apply Hne; reflexivity);
            unfold field in H;
            match type of H with
            | res_bind ?x _ = _ => destruct x; cbn [res_bind] in H;
                                   [injection H as <-; reflexivity | discriminate H]
            end
          | ]).
  destruct Hin.
Qed.

Lemma decode_members_keeps_Date (members : list (string * json)) (t t' : telemetry) :
  Forall (fun m => equalFold "date" (fst m) = false) members ->
  decode_members telemetry_fields members t = Ok t' ->
  Date t' = Date t.
Proof.
  intros HF. revert t. induction HF as [|[k v] ms Hk _ IH]; intros t H.
  - injection H as <-. reflexivity.
  - cbn [decode_members fst] in *.
    destruct (find_field telemetry_fields k) as [dec|] eqn:F.
    + destruct (dec v t) as [t1|e] eqn:D; [|discriminate H]. cbn [res_bind] in H.
      rewrite (IH t1 H).
      destruct (find_field_In _ _ _ F) as (name & Hin & Hfold).
      apply (telemetry_field_keeps_Date name dec v t t1 Hin); [|exact D].
      intros ->. rewrite Hfold in Hk. discriminate Hk.
    + cbn [res_bind] in H. apply (IH t H).
Qed.

(** X6: a sample none of whose keys folds to "date", when it decodes from
    the zero value, has an empty [Date], and [ParseInLocation] refuses that
    text in every location (bad value for field). *)
Theorem sample_without_date (members : list (string * json)) (t : telemetry)
    (l : GoTime.Location) :
  Forall (fun m => equalFold "date" (fst m) = false) members ->
  decode_telemetry (JObject members) zero_telemetry = Ok t ->
  Date t = EmptyString /\
  GoTime.ParseInLocation (Date t) l = Err GoTime.errBad.
Proof.
  intros HF H. cbn [decode_telemetry decode_struct] in H.
  rewrite (decode_members_keeps_Date members zero_telemetry t HF H).
  split; reflexivity.
Qed.


(** *** The array of samples *)

Lemma decode_elems_fresh {T} (dec : decoder T) (z : T) (elems : list json)
    (ts : list T) :
  decode_elems dec z elems [] = Ok ts ->
  Forall2 (fun v t => dec v z = Ok t) elems ts.
Proof.
  revert ts. induction elems as [|v elems IH]; intros ts H.
  - injection H as <-. constructor.
  - cbn [decode_elems hd tl] in H.
    destruct (dec v z) as [x|e] eqn:D; [|discriminate H].
    cbn [res_bind] in H.
    destruct (decode_elems dec z elems []) as [xs|e] eqn:Ds; [|discriminate H].
    cbn [res_bind] in H. injection H as <-.
    constructor; [exact D | apply IH; reflexivity].
Qed.

(** X8: when a response that holds "data", and in it "count" and the
    array "telemetries", decodes, [Telemetries] has one struct per element of
    the array, in the order of the array, and each is what its element
    decodes to from the zero value. *)
Theorem samples_decode_in_order (count : json) (samples : list json)
    (target : Equipment) :
  Decode (Text (JObject [ ("data"%string,
                           JObject [ ("count"%string, count);
                                     ("telemetries"%string, JArray samples) ]) ]))
  = Ok target ->
  length (Telemetries (Data target)) = length samples /\
  Forall2 (fun v t => decode_telemetry v zero_telemetry = Ok t)
    samples (Telemetries (Data target)).
Proof.
  intros H. cbn [Decode decode_Equipment decode_struct decode_members] in H.
  change (find_field Equipment_fields "data")
    with (Some (snd (field "data" Data set_Data decode_data))) in H.
  cbn [snd field] in H. cbn [decode_data decode_struct decode_members] in H.
  change (find_field data_fields "count")
    with (Some (snd (field "count" Count set_Count decode_int))) in H.
  change (find_field data_fields "telemetries")
    with (Some (snd (field "telemetries" Telemetries set_Telemetries
                       (decode_slice "[]struct" decode_telemetry zero_telemetry)))) in H.
  cbn [snd field] in H.
  destruct (decode_int count (Count (Data zero_Equipment))) as [n|e];
    [|discriminate H].
  cbn [res_bind decode_slice set_Count Telemetries Data zero_Equipment zero_data] in H.
  destruct (decode_elems decode_telemetry zero_telemetry samples []) as [ts|e] eqn:D;
    [|discriminate H].
  cbn [res_bind] in H. injection H as <-.
  cbn [Telemetries Data set_Telemetries set_Data].
  pose proof (decode_elems_fresh _ _ _ _ D) as HF.
  split; [symmetry; apply (Forall2_length _ _ _ HF) | exact HF].
Qed.


(** *** On sample responses *)
Import SolarEdge Samples MoreSamples.

Lemma keys_match_under_folding_witness :
  decode_telemetry (JObject shouting) zero_telemetry
  = decode_telemetry (JObject quiet) zero_telemetry.
Proof.
  destruct (keys_match_under_folding shouting quiet) as (_ & _ & H & _).
  - repeat constructor.
  - apply H.
Defined.

Lemma sample_without_date_witness :
  Date (decoded_telemetry (JObject undated)) = EmptyString /\
  GoTime.ParseInLocation (Date (decoded_telemetry (JObject undated))) MST
  = Err GoTime.errBad.
Proof.
  apply (sample_without_date undated (decoded_telemetry (JObject undated)) MST).
  - repeat constructor.
  - vm_compute. reflexivity.
Defined.


Lemma samples_decode_in_order_witness :
  length (Telemetries (Data (decoded (Body count_five_two_samples)))) = 2%nat /\
  Forall2 (fun v t => decode_telemetry v zero_telemetry = Ok t)
    [ sample "2024-01-01 00:00:00"; sample "2024-01-01 00:15:00" ]
    (Telemetries (Data (decoded (Body count_five_two_samples)))).
Proof.
  apply (samples_decode_in_order (JNumber "5")
           [ sample "2024-01-01 00:00:00"; sample "2024-01-01 00:15:00" ]
           (decoded (Body count_five_two_samples))).
  vm_compute. reflexivity.
Defined.

End GoJSONFacts.

(** ** Query strings *)
Module GoURLFacts.
Import GoURL QueryText.
Import GoTimeFacts (append_cons, append_nil).

Lemma QueryUnescape_QueryEscape_byte (c : ascii) (s : string) :
  QueryUnescape (QueryEscape (String c s))
  = match QueryUnescape (QueryEscape s) with
    | Some r => Some (String c r)
    | None => None
    end.
Proof.
  destruct c as [[] [] [] [] [] [] [] []]; reflexivity.
Qed.

(** X9: [QueryUnescape] undoes [QueryEscape] on every text, whatever bytes
    it holds. *)
Theorem QueryUnescape_QueryEscape (s : string) :
  QueryUnescape (QueryEscape s) = Some s.
Proof.
  induction s as [|c s IH]; [reflexivity|].
  rewrite QueryUnescape_QueryEscape_byte, IH. reflexivity.
Qed.

Lemma QueryEscape_safe_byte (c : ascii) (s : string) :
  all_safe (QueryEscape (String c s)) = all_safe (QueryEscape s).
Proof. destruct c as [[] [] [] [] [] [] [] []]; reflexivity. Qed.

Lemma QueryEscape_safe (s : string) : all_safe (QueryEscape s) = true.
Proof.
  induction s as [|c s IH]; [reflexivity|].
  rewrite QueryEscape_safe_byte. exact IH.
Qed.

Lemma cut_safe (sep : ascii) (a rest : string) :
  query_safe sep = false -> all_safe a = true ->
  cut sep (a +:+ String sep rest) = (a, rest).
Proof.
  intros Hsep. induction a as [|c a IH]; intros Ha.
  - rewrite append_nil. cbn [cut]. rewrite Ascii.eqb_refl. reflexivity.
  - cbn [all_safe] in Ha. apply andb_true_iff in Ha as [Hc Ha].
    rewrite append_cons. cbn [cut].
    destruct (Ascii.eqb c sep) eqn:E.
    + apply Ascii.eqb_eq in E. subst c. rewrite Hsep in Hc. discriminate Hc.
    + rewrite (IH Ha). reflexivity.
Qed.

Lemma cut_safe_end (sep : ascii) (a : string) :
  query_safe sep = false -> all_safe a = true ->
  cut sep a = (a, EmptyString).
Proof.
  intros Hsep. induction a as [|c a IH]; intros Ha; [reflexivity|].
  cbn [all_safe] in Ha. apply andb_true_iff in Ha as [Hc Ha].
  cbn [cut]. destruct (Ascii.eqb c sep) eqn:E.
  - apply Ascii.eqb_eq in E. subst c. rewrite Hsep in Hc. discriminate Hc.
  - rewrite (IH Ha). reflexivity.
Qed.

Lemma contains_semicolon_safe (a : string) :
  all_safe a = true -> contains ";" a = false.
Proof.
  induction a as [|c a IH]; intros Ha; [reflexivity|].
  cbn [all_safe] in Ha. apply andb_true_iff in Ha as [Hc Ha].
  cbn [contains]. rewrite (IH Ha), orb_false_r.
  unfold query_safe in Hc. apply negb_true_iff in Hc.
  apply orb_false_iff in Hc as [_ Hc]. exact Hc.
Qed.

Lemma contains_app (sep : ascii) (a b : string) :
  contains sep (a +:+ b) = contains sep a || contains sep b.
Proof.
  induction a as [|c a IH]; [reflexivity|].
  rewrite append_cons. cbn [contains]. rewrite IH, orb_assoc. reflexivity.
Qed.

Lemma pair_text_not_empty (key value : string) :
  String.eqb (pair_text key value) EmptyString = false.
Proof.
  unfold pair_text. destruct (QueryEscape key) as [|c k]; reflexivity.
Qed.

Lemma all_safe_no_amp (a : string) : all_safe a = true -> contains "&" a = false.
Proof.
  induction a as [|c a IH]; intros Ha; [reflexivity|].
  cbn [all_safe] in Ha. apply andb_true_iff in Ha as [Hc Ha].
  cbn [contains]. rewrite (IH Ha), orb_false_r.
  unfold query_safe in Hc. apply negb_true_iff in Hc.
  apply orb_false_iff in Hc as [Hc _]. apply orb_false_iff in Hc as [Hc _]. exact Hc.
Qed.

Lemma cut_no_sep (sep : ascii) (a rest : string) :
  contains sep a = false -> cut sep (a +:+ String sep rest) = (a, rest).
Proof.
  induction a as [|c a IH]; intros Ha.
  - rewrite append_nil. cbn [cut]. rewrite Ascii.eqb_refl. reflexivity.
  - cbn [contains] in Ha. apply orb_false_iff in Ha as [Hc Ha].
    rewrite append_cons. cbn [cut]. rewrite Hc, (IH Ha). reflexivity.
Qed.

Lemma cut_no_sep_end (sep : ascii) (a : string) :
  contains sep a = false -> cut sep a = (a, EmptyString).
Proof.
  induction a as [|c a IH]; intros Ha; [reflexivity|].
  cbn [contains] in Ha. apply orb_false_iff in Ha as [Hc Ha].
  cbn [cut]. rewrite Hc, (IH Ha). reflexivity.
Qed.

Lemma pair_text_no_amp (key value : string) : contains "&" (pair_text key value) = false.
Proof.
  unfold pair_text. rewrite !contains_app.
  rewrite (all_safe_no_amp _ (QueryEscape_safe key)),
    (all_safe_no_amp _ (QueryEscape_safe value)). reflexivity.
Qed.

Lemma pair_text_no_semicolon (key value : string) :
  contains ";" (pair_text key value) = false.
Proof.
  unfold pair_text. rewrite !contains_app.
  rewrite (contains_semicolon_safe _ (QueryEscape_safe key)),
    (contains_semicolon_safe _ (QueryEscape_safe value)). reflexivity.
Qed.

Lemma cut_pair_text (key value : string) :
  cut "=" (pair_text key value) = (QueryEscape key, QueryEscape value).
Proof.
  unfold pair_text. change ("=" +:+ QueryEscape value) with (String "=" (QueryEscape value)).
  apply cut_safe; [reflexivity | apply QueryEscape_safe].
Qed.

(** [parseQuery] on a first pair followed by more text, and on a last
    pair. *)
Lemma parseQuery_pair (fuel : nat) (m : Values) (key value rest : string) :
  parseQuery (S fuel) m (pair_text key value +:+ String "&" rest)
  = parseQuery fuel (Values_Add m key value) rest.
Proof.
  cbn [parseQuery].
  replace (String.eqb (pair_text key value +:+ String "&" rest) EmptyString)
    with false
    by (unfold pair_text; destruct (QueryEscape key); reflexivity).
  rewrite (cut_no_sep "&" _ rest (pair_text_no_amp key value)).
  rewrite pair_text_no_semicolon, pair_text_not_empty, cut_pair_text.
  rewrite !QueryUnescape_QueryEscape. reflexivity.
Qed.

Lemma parseQuery_empty (fuel : nat) (m : Values) : parseQuery fuel m EmptyString = m.
Proof. destruct fuel; reflexivity. Qed.

Lemma parseQuery_last_pair (fuel : nat) (m : Values) (key value : string) :
  parseQuery (S fuel) m (pair_text key value) = Values_Add m key value.
Proof.
  cbn [parseQuery].
  rewrite pair_text_not_empty.
  rewrite (cut_no_sep_end "&" _ (pair_text_no_amp key value)).
  rewrite pair_text_no_semicolon, pair_text_not_empty, cut_pair_text.
  rewrite !QueryUnescape_QueryEscape. apply parseQuery_empty.
Qed.


(** *** A whole query *)

Lemma Values_Encode_join (v : Values) :
  Values_Encode v = join (map (fun p => pair_text (fst p) (snd p)) (pairs_of v)).
Proof.
  unfold Values_Encode, pairs_of, join.
  replace (flat_map (fun k => map (fun x => QueryEscape k +:+ "=" +:+ QueryEscape x)
                                (default [] (v !! k)))
             (sort_keys (elements (dom v))))
    with (map (fun p => pair_text (fst p) (snd p))
            (flat_map (fun k => map (fun x => (k, x)) (default [] (v !! k)))
               (sort_keys (elements (dom v))))); [reflexivity|].
  induction (sort_keys (elements (dom v))) as [|k ks IH]; [reflexivity|].
  cbn [flat_map]. rewrite map_app, IH. f_equal.
  rewrite map_map. reflexivity.
Qed.

Lemma string_append_assoc (a b c : string) : (a +:+ b) +:+ c = a +:+ (b +:+ c).
Proof.
  induction a as [|x a IH]; [reflexivity|]. rewrite !append_cons, IH. reflexivity.
Qed.

Lemma join_cons (p q : string) (ps : list string) :
  join (p :: q :: ps) = p +:+ String "&" (join (q :: ps)).
Proof.
  unfold join. cbn [fold_left]. revert q.
  induction ps as [|r ps IH]; intros q.
  - cbn [fold_left]. reflexivity.
  - cbn [fold_left]. rewrite <- IH. f_equal.
    rewrite !string_append_assoc. reflexivity.
Qed.

Lemma parseQuery_join (pairs : list (string * string)) (m : Values) (fuel : nat) :
  (length pairs <= fuel)%nat ->
  parseQuery fuel m (join (map (fun p => pair_text (fst p) (snd p)) pairs))
  = fold_left (fun m p => Values_Add m (fst p) (snd p)) pairs m.
Proof.
  revert m fuel. induction pairs as [|[k x] pairs IH]; intros m fuel Hf.
  - apply parseQuery_empty.
  - destruct fuel as [|fuel]; [cbn in Hf; lia|].
    destruct pairs as [|[k' x'] pairs].
    + cbn [map join fold_left fst snd]. apply parseQuery_last_pair.
    + cbn [map]. rewrite join_cons. cbn [fst snd].
      rewrite parseQuery_pair. cbn [fold_left fst snd].
      apply (IH (Values_Add m k x) fuel). cbn [List.length] in *. lia.
Qed.

Lemma string_length_append (a b : string) :
  String.length (a +:+ b) = (String.length a + String.length b)%nat.
Proof.
  induction a as [|c a IH]; [reflexivity|]. rewrite append_cons.
  cbn [String.length]. rewrite IH. reflexivity.
Qed.

Lemma length_join (pairs : list (string * string)) :
  (length pairs
   <= S (String.length (join (map (fun p => pair_text (fst p) (snd p)) pairs))))%nat.
Proof.
  induction pairs as [|[k x] pairs IH]; [cbn; lia|].
  destruct pairs as [|[k' x'] pairs]; [cbn [List.length]; lia|].
  change (map (fun p => pair_text (fst p) (snd p)) ((k, x) :: (k', x') :: pairs))
    with (pair_text k x :: map (fun p => pair_text (fst p) (snd p)) ((k', x') :: pairs)).
  revert IH.
  change (map (fun p => pair_text (fst p) (snd p)) ((k', x') :: pairs))
    with (pair_text k' x' :: map (fun p => pair_text (fst p) (snd p)) pairs).
  rewrite join_cons, string_length_append.
  generalize (join (pair_text k' x' :: map (fun p => pair_text (fst p) (snd p)) pairs)).
  intros J IH. cbn [String.length List.length] in *. lia.
Qed.

(** The map that adding the pairs, key by key, builds. *)
Lemma fold_add_values (k : string) (xs : list string) (m : Values) :
  xs <> [] ->
  fold_left (fun m p => Values_Add m (fst p) (snd p)) (map (fun x => (k, x)) xs) m
  = <[k := default [] (m !! k) ++ xs]> m.
Proof.
  revert m. induction xs as [|x xs IH]; intros m H; [contradiction|].
  cbn [map fold_left fst snd]. destruct xs as [|y xs].
  - reflexivity.
  - rewrite IH by discriminate. unfold Values_Add.
    rewrite lookup_insert_eq. cbn [default]. rewrite insert_insert_eq.
    unfold id. rewrite <- app_assoc. reflexivity.
Qed.

Lemma fold_add_keys (f : string -> list string) (keys : list string) (m : Values) :
  NoDup keys ->
  (forall k, k ∈ keys -> f k <> []) ->
  forall k,
    fold_left (fun m p => Values_Add m (fst p) (snd p))
      (flat_map (fun k => map (fun x => (k, x)) (f k)) keys) m !! k
    = if decide (k ∈ keys) then Some (default [] (m !! k) ++ f k) else m !! k.
Proof.
  intros ND. revert m. induction ND as [|k0 keys Hnot ND IH]; intros m Hf k.
  - cbn [flat_map fold_left]. rewrite decide_False by apply not_elem_of_nil. reflexivity.
  - cbn [flat_map]. rewrite fold_left_app.
    rewrite fold_add_values by (apply Hf; left).
    rewrite IH by (intros k' Hk'; apply Hf; right; exact Hk').
    destruct (decide (k = k0)) as [->|Hne].
    + rewrite decide_False by exact Hnot.
      rewrite decide_True by left. apply lookup_insert_eq.
    + rewrite lookup_insert_ne by congruence.
      destruct (decide (k ∈ keys)) as [Hin|Hnin].
      * rewrite decide_True by (right; exact Hin). reflexivity.
      * rewrite decide_False; [reflexivity|].
        intros H. apply elem_of_cons in H. destruct H as [H|H]; [congruence | contradiction].
Qed.

Lemma insert_sorted_perm (k : string) (l : list string) : insert_sorted k l ≡ₚ k :: l.
Proof.
  induction l as [|x l IH]; [reflexivity|].
  cbn [insert_sorted]. destruct (String.leb k x); [reflexivity|].
  rewrite IH. apply Permutation_swap.
Qed.

Lemma sort_keys_perm (l : list string) : sort_keys l ≡ₚ l.
Proof.
  induction l as [|x l IH]; [reflexivity|].
  cbn [sort_keys fold_right]. fold (sort_keys l).
  rewrite insert_sorted_perm, IH. reflexivity.
Qed.

Lemma fold_pairs_of (v : Values) :
  (forall k l, v !! k = Some l -> l <> []) ->
  fold_left (fun m p => Values_Add m (fst p) (snd p)) (pairs_of v) ∅ = v.
Proof.
  intros Hne. apply map_eq. intros k. unfold pairs_of.
  assert (Hkeys : forall k, k ∈ sort_keys (elements (dom v)) <-> is_Some (v !! k)).
  { intros k'. rewrite sort_keys_perm, elem_of_elements. apply elem_of_dom. }
  rewrite (fold_add_keys (fun k => default [] (v !! k))).
  - destruct (decide (k ∈ sort_keys (elements (dom v)))) as [Hin|Hnin].
    + apply Hkeys in Hin. destruct Hin as [l Hl]. rewrite Hl, lookup_empty. reflexivity.
    + rewrite lookup_empty. symmetry. apply eq_None_not_Some.
      intros H. apply Hnin, Hkeys, H.
  - rewrite sort_keys_perm. apply NoDup_elements.
  - intros k' Hk'. apply Hkeys in Hk'. destruct Hk' as [l Hl]. rewrite Hl.
    apply (Hne k' l Hl).
Qed.

(** X10: a query written by [Encode] is read back by [Query] as the same
    values: the same keys, each with the same values in the same order,
    whatever bytes keys and values hold, provided that no key has an empty
    list of values ([Encode] writes nothing for such a key). *)
Theorem Query_Values_Encode (v : Values) (u : URL) :
  (forall k l, v !! k = Some l -> l <> []) ->
  Query (set_RawQuery (Values_Encode v) u) = v.
Proof.
  intros Hne. unfold Query. cbn [RawQuery set_RawQuery].
  rewrite Values_Encode_join, parseQuery_join by apply length_join.
  apply fold_pairs_of, Hne.
Qed.

(** Every list of values that [parseQuery] and [Add] build has a value. *)
Lemma Values_Add_nonempty (v : Values) (key value : string) :
  (forall k l, v !! k = Some l -> l <> []) ->
  forall k l, Values_Add v key value !! k = Some l -> l <> [].
Proof.
  intros Hv k l. unfold Values_Add.
  destruct (decide (key = k)) as [->|Hne].
  - rewrite lookup_insert_eq. intros [= <-]. destruct (default [] (v !! k)); discriminate.
  - rewrite lookup_insert_ne by exact Hne. apply Hv.
Qed.

Lemma parseQuery_nonempty (fuel : nat) (m : Values) (query : string) :
  (forall k l, m !! k = Some l -> l <> []) ->
  forall k l, parseQuery fuel m query !! k = Some l -> l <> [].
Proof.
  revert m query. induction fuel as [|fuel IH]; intros m query Hm; [exact Hm|].
  cbn [parseQuery]. destruct (String.eqb query EmptyString); [exact Hm|].
  destruct (cut "&" query) as [key rest].
  destruct (contains ";" key); [apply IH, Hm|].
  destruct (String.eqb key EmptyString); [apply IH, Hm|].
  destruct (cut "=" key) as [k0 v0].
  destruct (QueryUnescape k0) as [k1|]; [|apply IH, Hm].
  destruct (QueryUnescape v0) as [v1|]; [|apply IH, Hm].
  apply IH, Values_Add_nonempty, Hm.
Qed.


Import SolarEdge.

(** X11: the query of the address that [Gather] requests, read back as the
    server reads it, holds the API key of the collector and the two ends of
    the window under "api_key", "startTime" and "endTime", each after the
    values that the parsed address already had under that key, and leaves
    every other key of the parsed address as it was. *)
Theorem Query_requestURL (s : SolarEdge) (w : World) (u : URL) (l : GoTime.Location) :
  let q := Query (requestURL s w u l) in
  q !! "api_key"%string = Some (default [] (Query u !! "api_key"%string) ++ [APIKey s]) /\
  q !! "startTime"%string
  = Some (default [] (Query u !! "startTime"%string) ++ [GoTime.Format (startTime w l)]) /\
  q !! "endTime"%string
  = Some (default [] (Query u !! "endTime"%string) ++ [GoTime.Format (endTime w l)]) /\
  forall k, k <> "api_key"%string -> k <> "startTime"%string -> k <> "endTime"%string ->
            q !! k = Query u !! k.
Proof.
  cbv zeta. unfold requestURL.
  assert (HQ : Query (set_RawQuery
                        (Values_Encode (request_params s u (startTime w l) (endTime w l)))
                        u)
               = request_params s u (startTime w l) (endTime w l)).
  { unfold Query at 1. cbn [RawQuery set_RawQuery].
    rewrite Values_Encode_join, parseQuery_join by apply length_join.
    apply fold_pairs_of.
    unfold request_params. repeat apply Values_Add_nonempty.
    unfold Query. apply parseQuery_nonempty. intros k l0 H.
    rewrite lookup_empty in H. discriminate H. }
  rewrite HQ. unfold request_params, Values_Add.
  repeat split; [by simplify_map_eq .. |].
  intros k H1 H2 H3. by simplify_map_eq.
Qed.

(** *** On sample values *)
Import Samples MoreSamples.

Lemma Query_Values_Encode_witness :
  Values_Encode special_values = "q=a%26b%3Dc&q=100%25+sure&site+id=12%3B34"%string /\
  Query (set_RawQuery (Values_Encode special_values) parsed_address) = special_values.
Proof.
  split; [vm_compute; reflexivity|].
  apply (Query_Values_Encode special_values parsed_address).
  unfold special_values. repeat apply Values_Add_nonempty.
  intros k l H. rewrite lookup_empty in H. discriminate H.
Defined.

End GoURLFacts.

(** ** The ways a cycle ends, and what it leaves behind *)
Module GatherFacts.
Import Float64 GoURL GoJSON SolarEdge SolarEdgeFacts.

Section Cycle.
Variable url_Parse : string -> option URL.
Variable URL_String : URL -> string.

Local Abbreviation Gather' := (Gather url_Parse URL_String).

(** The cycle up to the two places where it can stop before the request. *)
Lemma Gather_before_request (w : World) (st : State) :
  Gather' w st =
    let st0 := {| self := initialized (self st); acc := acc st; sent := sent st |} in
    match url_Parse (equipmentURL (self st)) with
    | None => (Err (Return (InvalidServerURL (equipmentURL (self st)))), st0)
    | Some u =>
        match GoTime.LoadLocation (zoneinfo w) (GoTime.loc (now w))
                (TimeZone (self st)) with
        | None => (Err (Panic "time: missing Location in call to Time.In"), st0)
        | Some l => Gather' w st
        end
    end.
Proof.
  cbv zeta.
  destruct (url_Parse (equipmentURL (self st))) as [u|] eqn:HU.
  - destruct (GoTime.LoadLocation (zoneinfo w) (GoTime.loc (now w))
                (TimeZone (self st))) as [l|] eqn:HL; [reflexivity|].
    apply (Gather_unknown_zone url_Parse URL_String w st u HU HL).
  - unfold Gather. unfold bind at 1. rewrite ensure_client_run.
    destruct (initialized_config (self st)) as (_ & HS & HN & _ & HT & _).
    run. cbn [self acc sent].
    replace (equipmentURL (initialized (self st))) with (equipmentURL (self st))
      by (unfold equipmentURL; rewrite HS, HN; reflexivity).
    rewrite HU. reflexivity.
Qed.

(** X12: when [url.Parse] refuses the address built from the site id and
    the serial number, the cycle returns the error that names the address;
    it has made the HTTP client, sent no request and added no point. *)
Theorem Gather_invalid_address (w : World) (st : State) :
  url_Parse (equipmentURL (self st)) = None ->
  Gather' w st
  = (Err (Return (InvalidServerURL (equipmentURL (self st)))),
     {| self := initialized (self st); acc := acc st; sent := sent st |}).
Proof. intros H. rewrite Gather_before_request. cbv zeta. rewrite H. reflexivity. Qed.

(** X13: when the GET ends in a transport error, the cycle returns that
    error as it is; the request is the only one sent, and no point is
    added. *)
Theorem Gather_transport_error (w : World) (st : State) (u : URL)
    (l : GoTime.Location) (msg : string) :
  url_Parse (equipmentURL (self st)) = Some u ->
  GoTime.LoadLocation (zoneinfo w) (GoTime.loc (now w)) (TimeZone (self st)) = Some l ->
  roundTrip w DefaultClient (URL_String (requestURL (initialized (self st)) w u l))
  = Err msg ->
  Gather' w st
  = (Err (Return (GetError msg)),
     {| self := initialized (self st); acc := acc st;
        sent := sent st ++ [(DefaultClient,
                             URL_String (requestURL (initialized (self st)) w u l))] |}).
Proof.
  intros HU HL HR. rewrite (Gather_run url_Parse URL_String w st u l HU HL).
  cbv zeta. rewrite HR. reflexivity.
Qed.

(** X14: when the status is 200 and the body does not decode into
    [Equipment], the cycle returns the error of the decoder and adds no
    point. *)
Theorem Gather_decode_error (w : World) (st : State) (u : URL)
    (l : GoTime.Location) (resp : http_Response) (e : DecodeError) :
  url_Parse (equipmentURL (self st)) = Some u ->
  GoTime.LoadLocation (zoneinfo w) (GoTime.loc (now w)) (TimeZone (self st)) = Some l ->
  roundTrip w DefaultClient (URL_String (requestURL (initialized (self st)) w u l))
  = Ok resp ->
  StatusCode resp = StatusOK ->
  Decode (Body resp) = Err e ->
  fst (Gather' w st) = Err (Return (DecodeFailed e)) /\
  acc (snd (Gather' w st)) = acc st.
Proof.
  intros HU HL HR HS HD. rewrite (Gather_run url_Parse URL_String w st u l HU HL).
  cbv zeta. rewrite HR, HS, HD. split; reflexivity.
Qed.

(** Past the load of the location nothing panics: the cycle ends with [nil]
    or with a returned error. *)
Lemma Gather_with_location (w : World) (st : State) (u : URL) (l : GoTime.Location) :
  url_Parse (equipmentURL (self st)) = Some u ->
  GoTime.LoadLocation (zoneinfo w) (GoTime.loc (now w)) (TimeZone (self st)) = Some l ->
  fst (Gather' w st) = Ok tt \/ exists e, fst (Gather' w st) = Err (Return e).
Proof.
  intros HU HL. rewrite (Gather_run url_Parse URL_String w st u l HU HL). cbv zeta.
  destruct (roundTrip w DefaultClient _) as [resp|m]; [|right; eexists; reflexivity].
  destruct (negb (StatusCode resp =? StatusOK)); [right; eexists; reflexivity|].
  destruct (Decode (Body resp)) as [target|e]; [|right; eexists; reflexivity].
  rewrite gather_loop_parse_dates. cbn [fst].
  destruct (snd (parse_dates l (Telemetries (Data target))));
    [right; eexists; reflexivity | left; reflexivity].
Qed.

(** X15: a cycle panics exactly when the address parses and
    [LoadLocation] returns no location for the configured time zone; no
    other statement of [Gather] can panic. *)
Theorem Gather_panics_iff (w : World) (st : State) :
  (exists msg, fst (Gather' w st) = Err (Panic msg)) <->
  (url_Parse (equipmentURL (self st)) <> None /\
   GoTime.LoadLocation (zoneinfo w) (GoTime.loc (now w)) (TimeZone (self st)) = None).
Proof.
  split.
  - intros [msg H].
    destruct (url_Parse (equipmentURL (self st))) as [u|] eqn:HU.
    + split; [discriminate|].
      destruct (GoTime.LoadLocation (zoneinfo w) (GoTime.loc (now w))
                  (TimeZone (self st))) as [l|] eqn:HL; [|reflexivity].
      exfalso. destruct (Gather_with_location w st u l HU HL) as [H'|[e H']];
        rewrite H' in H; discriminate H.
    + rewrite Gather_before_request in H. cbv zeta in H. rewrite HU in H.
      discriminate H.
  - intros [HU HL].
    destruct (url_Parse (equipmentURL (self st))) as [u|] eqn:HU'; [|contradiction].
    eexists. rewrite (Gather_unknown_zone url_Parse URL_String w st u HU' HL).
    reflexivity.
Qed.

Lemma LoadLocation_default (zi : string -> option GoTime.Location)
    (local : GoTime.Location) (name : string) :
  name = EmptyString \/ name = "UTC"%string \/ name = "Local"%string ->
  exists l, GoTime.LoadLocation zi local name = Some l.
Proof.
  intros [-> | [-> | ->]]; unfold GoTime.LoadLocation; cbn; eexists; reflexivity.
Qed.

Lemma LoadLocation_path (zi : string -> option GoTime.Location)
    (local : GoTime.Location) (name : string) :
  GoTime.containsDotDot name = true \/ GoTime.byte_at name 0 = "/"%char ->
  GoTime.LoadLocation zi local name = None.
Proof.
  intros H. unfold GoTime.LoadLocation.
  destruct (String.eqb name EmptyString) eqn:E1.
  { apply String.eqb_eq in E1. subst name. destruct H as [H|H]; discriminate H. }
  destruct (String.eqb name "UTC") eqn:E2.
  { apply String.eqb_eq in E2. subst name. destruct H as [H|H]; discriminate H. }
  destruct (String.eqb name "Local") eqn:E3.
  { apply String.eqb_eq in E3. subst name. destruct H as [H|H]; discriminate H. }
  cbn [orb]. destruct H as [H|H]; rewrite H; [reflexivity|].
  rewrite Ascii.eqb_refl. rewrite orb_true_r. reflexivity.
Qed.

(** X16: with no time zone configured, or with "UTC" or "Local", the
    cycle never panics, whatever the time zone database of the host holds:
    it ends with [nil] or with a returned error. *)
Theorem Gather_default_zone_no_panic (w : World) (st : State) :
  TimeZone (self st) = EmptyString \/ TimeZone (self st) = "UTC"%string
  \/ TimeZone (self st) = "Local"%string ->
  fst (Gather' w st) = Ok tt \/ exists e, fst (Gather' w st) = Err (Return e).
Proof.
  intros HZ.
  destruct (LoadLocation_default (zoneinfo w) (GoTime.loc (now w)) _ HZ) as [l Hl].
  destruct (url_Parse (equipmentURL (self st))) as [u|] eqn:HU.
  - apply (Gather_with_location w st u l HU Hl).
  - right. eexists. rewrite Gather_before_request. cbv zeta. rewrite HU. reflexivity.
Qed.

(** X17: a time zone name that holds ".." or starts with a slash is
    refused by [LoadLocation] before the database is looked at, and the
    cycle panics in [Time.In] without a request or a point, whatever the
    host. *)
Theorem Gather_zone_path_panics (w : World) (st : State) (u : URL) :
  url_Parse (equipmentURL (self st)) = Some u ->
  GoTime.containsDotDot (TimeZone (self st)) = true
  \/ GoTime.byte_at (TimeZone (self st)) 0 = "/"%char ->
  fst (Gather' w st) = Err (Panic "time: missing Location in call to Time.In") /\
  sent (snd (Gather' w st)) = sent st /\ acc (snd (Gather' w st)) = acc st.
Proof.
  intros HU HZ.
  rewrite (Gather_unknown_zone url_Parse URL_String w st u HU
             (LoadLocation_path _ _ _ HZ)).
  repeat split.
Qed.

(** The loop in general: it stops at the first date that does not parse. *)
Lemma gather_loop_prefix l rt (ts : list telemetry) st :
  exists (n : nat) (dates : list GoTime.Time),
    length dates = n /\ (n <= length ts)%nat /\
    Forall2 (fun t d => GoTime.ParseInLocation (Date t) l = Ok d) (take n ts) dates /\
    acc (snd (gather_loop l rt ∅ ts st))
    = acc st ++ zip_with (point_of (Name (self st)) rt) (take n ts) dates /\
    ((n = length ts /\ fst (gather_loop l rt ∅ ts st) = Ok tt) \/
     (exists t e, ts !! n = Some t /\ GoTime.ParseInLocation (Date t) l = Err e /\
                  fst (gather_loop l rt ∅ ts st) = Err (Return (TimeParseFailed e)))).
Proof.
  revert st. induction ts as [|t ts IH]; intros st.
  - exists 0%nat, []. cbn [length take zip_with]. rewrite app_nil_r.
    split; [reflexivity|]. split; [lia|]. split; [constructor|].
    split; [reflexivity|]. left. split; reflexivity.
  - destruct (GoTime.ParseInLocation (Date t) l) as [d|e] eqn:E.
    + rewrite (gather_loop_cons_ok _ _ _ _ _ _ d E).
      destruct (IH {| self := self st;
                      acc := acc st ++ [{| measurement := Name (self st);
                                           fields := point_fields rt t; tags := ∅;
                                           timestamp := d |}];
                      sent := sent st |})
        as (n & dates & Hlen & Hle & HF & Hacc & Hend).
      exists (S n), (d :: dates). cbn [length take zip_with self acc] in *.
      split; [lia|]. split; [lia|]. split; [constructor; assumption|].
      split; [rewrite Hacc, <- app_assoc; reflexivity|].
      destruct Hend as [[Hn Hok]|(t' & e & Ht & He & Hr)].
      * left. split; [lia | exact Hok].
      * right. exists t', e. repeat split; assumption.
    + rewrite (gather_loop_cons_err _ _ _ _ _ _ e E).
      exists 0%nat, []. cbn [length take zip_with fst snd]. rewrite app_nil_r.
      split; [reflexivity|]. split; [lia|]. split; [constructor|].
      split; [reflexivity|]. right. exists t, e.
      split; [reflexivity|]. split; [exact E | reflexivity].
Qed.

(** X18: for every decoded response, the cycle adds the points of the
    samples that come before the first sample whose date does not parse, in
    the order of the response, each stamped with the parsed date of its
    sample; it returns [nil] when every date parses, and otherwise the parse
    error of that first sample, whose point and all later points are
    missing. *)
Theorem Gather_points_until_bad_date (w : World) (st : State) (u : URL)
    (l : GoTime.Location) (resp : http_Response) (target : Equipment) :
  url_Parse (equipmentURL (self st)) = Some u ->
  GoTime.LoadLocation (zoneinfo w) (GoTime.loc (now w)) (TimeZone (self st)) = Some l ->
  roundTrip w DefaultClient (URL_String (requestURL (initialized (self st)) w u l))
  = Ok resp ->
  StatusCode resp = StatusOK ->
  Decode (Body resp) = Ok target ->
  let ts := Telemetries (Data target) in
  exists (n : nat) (dates : list GoTime.Time),
    length dates = n /\ (n <= length ts)%nat /\
    Forall2 (fun t d => GoTime.ParseInLocation (Date t) l = Ok d) (take n ts) dates /\
    acc (snd (Gather' w st))
    = acc st ++ zip_with (point_of (Name (self st)) (GoTime.Seconds (since w)))
                  (take n ts) dates /\
    ((n = length ts /\ fst (Gather' w st) = Ok tt) \/
     (exists t e, ts !! n = Some t /\ GoTime.ParseInLocation (Date t) l = Err e /\
                  fst (Gather' w st) = Err (Return (TimeParseFailed e)))).
Proof.
  intros HU HL HR HS HD. cbv zeta.
  rewrite (Gather_run url_Parse URL_String w st u l HU HL). cbv zeta.
  rewrite HR, HS, HD. cbn [negb Z.eqb StatusOK Pos.eqb].
  destruct (gather_loop_prefix l (GoTime.Seconds (since w))
              (Telemetries (Data target))
              {| self := initialized (self st); acc := acc st;
                 sent := sent st ++ [(DefaultClient,
                           URL_String (requestURL (initialized (self st)) w u l))] |})
    as (n & dates & H).
  cbn [self acc] in H.
  destruct (initialized_config (self st)) as (HN & _). rewrite HN in H.
  exists n, dates. exact H.
Qed.

(** Each field of a point holds the value of its sample under the name of
    the source, and the map holds nothing else. *)
Lemma point_fields_lookup (rt : float64) (t : telemetry) :
  let fs := point_fields rt t in
  fs !! "response_time" = Some (VFloat rt) /\
  fs !! "totalActivePower" = Some (VFloat (TotalActivePower t)) /\
  fs !! "dcVoltage" = Some (VFloat (DcVoltage t)) /\
  fs !! "groundFaultResistance" = Some (VFloat (GroundFaultResistance t)) /\
  fs !! "powerLimit" = Some (VFloat (PowerLimit t)) /\
  fs !! "totalEnergy" = Some (VFloat (TotalEnergy t)) /\
  fs !! "temperature" = Some (VFloat (Temperature t)) /\
  fs !! "inverterMode" = Some (VString (InverterMode t)) /\
  fs !! "acCurrent" = Some (VFloat (AcCurrent (L1Data t))) /\
  fs !! "acVoltage" = Some (VFloat (AcVoltage (L1Data t))) /\
  fs !! "acFrequency" = Some (VFloat (AcFrequency (L1Data t))) /\
  fs !! "apparentPower" = Some (VFloat (ApparentPower (L1Data t))) /\
  fs !! "activePower" = Some (VFloat (ActivePower (L1Data t))) /\
  fs !! "reactivePower" = Some (VFloat (ReactivePower (L1Data t))) /\
  fs !! "cosPhi" = Some (VFloat (CosPhi (L1Data t))) /\
  forall key, key ∉ field_names -> fs !! key = None.
Proof.
  cbv zeta. unfold point_fields.
  repeat (split; [by simplify_map_eq|]).
  intros key Hk. rewrite <- (dom_point_fields rt t) in Hk.
  apply not_elem_of_dom in Hk. exact Hk.
Qed.

Lemma Forall_point_of (P : Point -> Prop) (name : string) (rt : float64)
    (ts : list telemetry) (dates : list GoTime.Time) :
  (forall t d, P (point_of name rt t d)) ->
  Forall P (zip_with (point_of name rt) ts dates).
Proof.
  intros H. revert dates. induction ts as [|t ts IH]; intros [|d dates];
    cbn [zip_with]; constructor; [apply H | apply IH].
Qed.

(** What one cycle adds, however it ends. *)
Lemma Gather_points (w : World) (st : State) :
  exists pts : list Point,
    acc (snd (Gather' w st)) = acc st ++ pts /\
    Forall (fun p =>
              measurement p = Name (self st) /\
              dom (fields p) = field_names /\
              tags p = ∅ /\
              fields p !! "response_time" = Some (VFloat (GoTime.Seconds (since w))))
           pts.
Proof.
  rewrite Gather_before_request. cbv zeta.
  destruct (url_Parse (equipmentURL (self st))) as [u|] eqn:HU;
    [|exists []; split; [symmetry; apply app_nil_r | constructor]].
  destruct (GoTime.LoadLocation (zoneinfo w) (GoTime.loc (now w))
              (TimeZone (self st))) as [l|] eqn:HL;
    [|exists []; split; [symmetry; apply app_nil_r | constructor]].
  rewrite (Gather_run url_Parse URL_String w st u l HU HL). cbv zeta.
  destruct (roundTrip w DefaultClient _) as [resp|msg];
    [|exists []; split; [symmetry; apply app_nil_r | constructor]].
  destruct (negb (StatusCode resp =? StatusOK));
    [exists []; split; [symmetry; apply app_nil_r | constructor]|].
  destruct (Decode (Body resp)) as [target|e];
    [|exists []; split; [symmetry; apply app_nil_r | constructor]].
  rewrite gather_loop_parse_dates. cbn [snd acc self].
  destruct (initialized_config (self st)) as (HN & _). rewrite HN.
  eexists. split; [reflexivity|].
  apply Forall_point_of. intros t d. cbn [point_of measurement fields tags].
  split; [reflexivity|]. split; [apply dom_point_fields|]. split; [reflexivity|].
  apply point_fields_lookup.
Qed.

(** X19: over any number of cycles, however each of them ends, the
    accumulator only grows, and every point added has the configured name as
    its measurement, exactly the fifteen field names of the plugin, no tag,
    and as "response_time" the duration measured in one of the cycles. *)
Theorem cycles_add_well_formed_points (ws : list World) (st : State) :
  exists pts : list Point,
    acc (cycles url_Parse URL_String ws st) = acc st ++ pts /\
    Forall (fun p =>
              measurement p = Name (self st) /\
              dom (fields p) = field_names /\
              tags p = ∅ /\
              exists w, w ∈ ws /\
                fields p !! "response_time" = Some (VFloat (GoTime.Seconds (since w))))
           pts.
Proof.
  revert st. induction ws as [|w ws IH]; intros st.
  - exists []. cbn [cycles]. split; [symmetry; apply app_nil_r | constructor].
  - cbn [cycles].
    destruct (Gather_points w st) as (pts1 & Hacc1 & HF1).
    destruct (IH (snd (Gather' w st))) as (pts2 & Hacc2 & HF2).
    exists (pts1 ++ pts2). split.
    + rewrite Hacc2, Hacc1, <- app_assoc. reflexivity.
    + apply Forall_app. split.
      * eapply Forall_impl; [exact HF1|]. cbv beta.
        intros p (H1 & H2 & H3 & H4). repeat (split; [assumption|]).
        exists w. split; [left | exact H4].
      * eapply Forall_impl; [exact HF2|]. cbv beta.
        intros p (H1 & H2 & H3 & w' & Hw' & H4).
        rewrite (Gather_self url_Parse URL_String w st) in H1.
        destruct (initialized_config (self st)) as (HN & _). rewrite HN in H1.
        repeat (split; [assumption|]).
        exists w'. split; [right; exact Hw' | exact H4].
Qed.

(** X20: a cycle sends at most one request, always through
    [DefaultClient] and never through the client of the collector; it sends
    none exactly when the address does not parse or the location does not
    load. *)
Theorem Gather_sends_at_most_once (w : World) (st : State) :
  exists reqs : list (http_Client * string),
    sent (snd (Gather' w st)) = sent st ++ reqs /\
    (length reqs <= 1)%nat /\
    Forall (fun r => fst r = DefaultClient) reqs /\
    (reqs = [] <->
     url_Parse (equipmentURL (self st)) = None \/
     GoTime.LoadLocation (zoneinfo w) (GoTime.loc (now w)) (TimeZone (self st)) = None).
Proof.
  destruct (url_Parse (equipmentURL (self st))) as [u|] eqn:HU.
  - destruct (GoTime.LoadLocation (zoneinfo w) (GoTime.loc (now w))
                (TimeZone (self st))) as [l|] eqn:HL.
    + eexists. split; [apply (Gather_sent url_Parse URL_String w st u l HU HL)|].
      split; [cbn; lia|]. split; [repeat constructor|].
      split; [discriminate | intros [H|H]; discriminate H].
    + exists []. rewrite (Gather_unknown_zone url_Parse URL_String w st u HU HL).
      cbn [snd sent length]. rewrite app_nil_r.
      split; [reflexivity|]. split; [lia|]. split; [constructor|].
      split; [intros _; right; reflexivity | reflexivity].
  - exists []. rewrite Gather_before_request. cbv zeta. rewrite HU.
    cbn [snd sent length]. rewrite app_nil_r.
    split; [reflexivity|]. split; [lia|]. split; [constructor|].
    split; [intros _; left; reflexivity | reflexivity].
Qed.

(** X21: after a cycle, however it has ended, the collector holds an HTTP
    client, and [MakeRequest] sends its request through that client and
    returns what comes back. When the collector had no client before the
    cycle, the client has both timeouts at [ResponseTimeout], and
    [MakeRequest] before the cycle panics on the nil client. *)
Theorem MakeRequest_after_Gather (w w' : World) (st : State) (url : string) :
  let st' := snd (Gather' w st) in
  exists c : http_Client,
    HTTPClient (client (self st')) = Some c /\
    MakeRequest w' (client (self st')) url st'
    = (Ok (roundTrip w' c url),
       {| self := self st'; acc := acc st'; sent := sent st' ++ [(c, url)] |}) /\
    (HTTPClient (client (self st)) = None ->
     Timeout c = ResponseTimeout (self st) /\
     Transport c = Some {| ResponseHeaderTimeout := ResponseTimeout (self st) |} /\
     MakeRequest w' (client (self st)) url st
     = (Err (Panic "invalid memory address or nil pointer dereference"), st)).
Proof.
  cbv zeta. pose proof (Gather_self url_Parse URL_String w st) as HS.
  set (st' := snd (Gather' w st)) in *.
  unfold MakeRequest, Client_Get, HTTPClient.
  destruct (http_client (client (self st))) as [c|] eqn:E.
  - assert (HS' : self st' = self st)
      by (rewrite HS; unfold initialized, HTTPClient; rewrite E; reflexivity).
    exists c. cbv beta. rewrite !HS', E. cbv beta. rewrite ?HS'.
    split; [reflexivity|]. split; [reflexivity|].
    intros H. discriminate H.
  - assert (HS' : http_client (client (self st'))
                  = Some {| Transport :=
                              Some {| ResponseHeaderTimeout := ResponseTimeout (self st) |};
                            Timeout := ResponseTimeout (self st) |})
      by (rewrite HS; unfold initialized, HTTPClient; rewrite E; reflexivity).
    eexists. cbv beta. rewrite HS'. split; [reflexivity|]. split; [reflexivity|].
    intros _. cbn [Timeout Transport]. repeat split.
Qed.

Lemma requestURL_APIKey (s1 s2 : SolarEdge) (w : World) (u : URL) (l : GoTime.Location) :
  APIKey s1 = APIKey s2 -> requestURL s1 w u l = requestURL s2 w u l.
Proof. intros H. unfold requestURL, request_params. rewrite H. reflexivity. Qed.

(** X23: the client of the collector and [ResponseTimeout] have no effect
    on a cycle: with any other client, or none, and any other timeout, the
    cycle returns the same result, adds the same points and sends the same
    request. *)
Theorem Gather_ignores_client (w : World) (st : State) (c : RealHTTPClient) (rt : Z) :
  let st2 := {| self := {| Name := Name (self st); SiteID := SiteID (self st);
                           SerialNumber := SerialNumber (self st);
                           APIKey := APIKey (self st);
                           TimeZone := TimeZone (self st);
                           client := c; ResponseTimeout := rt |};
                acc := acc st; sent := sent st |} in
  fst (Gather' w st2) = fst (Gather' w st) /\
  acc (snd (Gather' w st2)) = acc (snd (Gather' w st)) /\
  sent (snd (Gather' w st2)) = sent (snd (Gather' w st)).
Proof.
  cbv zeta.
  set (s2 := {| Name := Name (self st); SiteID := SiteID (self st);
                SerialNumber := SerialNumber (self st); APIKey := APIKey (self st);
                TimeZone := TimeZone (self st); client := c; ResponseTimeout := rt |}).
  set (st2 := {| self := s2; acc := acc st; sent := sent st |}).
  assert (HE : equipmentURL (self st2) = equipmentURL (self st)) by reflexivity.
  assert (HZ : TimeZone (self st2) = TimeZone (self st)) by reflexivity.
  destruct (url_Parse (equipmentURL (self st))) as [u|] eqn:HU.
  - destruct (GoTime.LoadLocation (zoneinfo w) (GoTime.loc (now w))
                (TimeZone (self st))) as [l|] eqn:HL.
    + assert (HU2 : url_Parse (equipmentURL (self st2)) = Some u)
        by (rewrite HE; exact HU).
      assert (HL2 : GoTime.LoadLocation (zoneinfo w) (GoTime.loc (now w))
                      (TimeZone (self st2)) = Some l) by (rewrite HZ; exact HL).
      rewrite (Gather_run url_Parse URL_String w st u l HU HL).
      rewrite (Gather_run url_Parse URL_String w st2 u l HU2 HL2). cbv zeta.
      destruct (initialized_config (self st)) as (HN & _ & _ & HK & _).
      destruct (initialized_config s2) as (HN2 & _ & _ & HK2 & _).
      cbn [self acc sent st2].
      rewrite (requestURL_APIKey (initialized s2) (initialized (self st)) w u l)
        by (rewrite HK, HK2; reflexivity).
      destruct (roundTrip w DefaultClient _) as [resp|msg]; [|repeat split].
      destruct (negb (StatusCode resp =? StatusOK)); [repeat split|].
      destruct (Decode (Body resp)) as [target|e]; [|repeat split].
      rewrite !gather_loop_parse_dates. cbn [fst snd self acc sent].
      rewrite HN, HN2. repeat split.
    + rewrite (Gather_before_request w st), (Gather_before_request w st2). cbv zeta.
      rewrite HE, HZ, HU, HL. repeat split.
  - rewrite (Gather_before_request w st), (Gather_before_request w st2). cbv zeta.
    rewrite HE, HU. repeat split.
Qed.

End Cycle.

(** *** The sample collector on the sample hosts *)
Import Samples MoreSamples.

Lemma Gather_invalid_address_witness :
  Gather_plain (host empty_object) (fresh bad_escape_site)
  = (Err (Return (InvalidServerURL
        "https://monitoringapi.solaredge.com/equipment/%zz/12345678-00/data")),
     {| self := initialized bad_escape_site; acc := []; sent := [] |}).
Proof.
  apply (Gather_invalid_address plain_url_Parse plain_URL_String
           (host empty_object) (fresh bad_escape_site)).
  vm_compute. reflexivity.
Defined.

Lemma Gather_transport_error_witness :
  fst (Gather_plain unreachable_host (fresh (configured "MST")))
  = Err (Return (GetError
      "dial tcp: lookup monitoringapi.solaredge.com: no such host")) /\
  acc (snd (Gather_plain unreachable_host (fresh (configured "MST")))) = [].
Proof.
  unfold Gather_plain.
  rewrite (Gather_transport_error plain_url_Parse plain_URL_String
             unreachable_host (fresh (configured "MST")) parsed_address MST
             "dial tcp: lookup monitoringapi.solaredge.com: no such host").
  - split; reflexivity.
  - vm_compute. reflexivity.
  - vm_compute. reflexivity.
  - vm_compute. reflexivity.
Defined.

Lemma Gather_decode_error_witness :
  fst (Gather_plain (host not_json) (fresh (configured "MST")))
  = Err (Return (DecodeFailed SyntaxError)) /\
  acc (snd (Gather_plain (host not_json) (fresh (configured "MST")))) = [].
Proof.
  apply (Gather_decode_error plain_url_Parse plain_URL_String
           (host not_json) (fresh (configured "MST")) parsed_address MST not_json
           SyntaxError).
  - vm_compute. reflexivity.
  - vm_compute. reflexivity.
  - vm_compute. reflexivity.
  - vm_compute. reflexivity.
  - vm_compute. reflexivity.
Defined.

Lemma Gather_default_zone_no_panic_witness :
  fst (Gather_plain (host empty_object) (fresh (configured EmptyString))) = Ok tt
  \/ exists e, fst (Gather_plain (host empty_object) (fresh (configured EmptyString)))
               = Err (Return e).
Proof.
  apply (Gather_default_zone_no_panic plain_url_Parse plain_URL_String
           (host empty_object) (fresh (configured EmptyString))).
  left. reflexivity.
Defined.

Lemma Gather_zone_path_panics_witness :
  fst (Gather_plain (host empty_object) (fresh (configured "/etc/localtime")))
  = Err (Panic "time: missing Location in call to Time.In") /\
  sent (snd (Gather_plain (host empty_object) (fresh (configured "/etc/localtime"))))
  = [] /\
  acc (snd (Gather_plain (host empty_object) (fresh (configured "/etc/localtime"))))
  = [].
Proof.
  apply (Gather_zone_path_panics plain_url_Parse plain_URL_String
           (host empty_object) (fresh (configured "/etc/localtime")) parsed_address).
  - vm_compute. reflexivity.
  - right. reflexivity.
Defined.

Lemma Gather_points_until_bad_date_witness :
  exists (n : nat) (dates : list GoTime.Time),
    length dates = n /\
    acc (snd (Gather_plain (host second_date_malformed) (fresh (configured "MST"))))
    = zip_with (point_of "solaredge" (GoTime.Seconds 250000000))
        (take n (Telemetries (Data (decoded (Body second_date_malformed))))) dates.
Proof.
  destruct (Gather_points_until_bad_date plain_url_Parse plain_URL_String
              (host second_date_malformed) (fresh (configured "MST"))
              parsed_address MST second_date_malformed
              (decoded (Body second_date_malformed)))
    as (n & dates & Hlen & _ & _ & Hacc & _).
  - vm_compute. reflexivity.
  - vm_compute. reflexivity.
  - vm_compute. reflexivity.
  - vm_compute. reflexivity.
  - vm_compute. reflexivity.
  - exists n, dates. split; [exact Hlen | exact Hacc].
Defined.

End GatherFacts.
